(** * Voice Lesson Planner Agent: the text-extraction pipeline and the
      dialogue stage machine of [main.py], embedded in Rocq.

    Python values are modelled as follows.
    - [str] is a sequence of Unicode code points: [list N].  String
      literals of the source are written as UTF-8 literals and decoded by
      [u].
    - [int] is [Z]; list positions are [nat].
    - an operation that can raise returns a [result]. *)

From Stdlib Require Import ZArith NArith List Ascii String DecimalString Lia Bool.
From stdpp Require Import base option list gmap.

Local Open Scope Z_scope.

(** ** Strings *)

Abbreviation str := (list N).

(** The code points of a UTF-8 byte sequence. *)
Fixpoint utf8_decode (bs : list N) : str :=
  match bs with
  | [] => []
  | b0 :: r0 =>
    if (b0 <? 128)%N then b0 :: utf8_decode r0
    else match r0 with
    | [] => []
    | b1 :: r1 =>
      if (b0 <? 224)%N then ((b0 mod 32) * 64 + b1 mod 64)%N :: utf8_decode r1
      else match r1 with
      | [] => []
      | b2 :: r2 =>
        if (b0 <? 240)%N
        then ((b0 mod 16) * 4096 + (b1 mod 64) * 64 + b2 mod 64)%N :: utf8_decode r2
        else match r2 with
        | [] => []
        | b3 :: r3 =>
          ((b0 mod 8) * 262144 + (b1 mod 64) * 4096 + (b2 mod 64) * 64 + b3 mod 64)%N
            :: utf8_decode r3
        end
      end
    end
  end.

(** [u "..."] is the Python string written as the UTF-8 literal. *)
Definition u (s : string) : str :=
  utf8_decode (List.map N_of_ascii (list_ascii_of_string s)).

(** The decimal digits of an integer, with its sign. *)
Definition decimal (z : Z) : str :=
  u (NilZero.string_of_int (Z.to_int z)).

Arguments u : simpl never.
Arguments decimal : simpl never.

(** *** The Python runtime

    The case mappings and the digit properties come from the Unicode
    database of the Python runtime, and the length limit of [int()]
    from its configuration, not from this repository; the program is
    parametrised by them. *)
Class Runtime := {
  (** decimal value of a character of category Nd: what [\d] matches
      and what [int()] reads *)
  uc_decimal : N → option Z;
  (** [str.isdigit] on one character *)
  uc_isdigit : N → bool;
  (** [str.lower] *)
  uc_lower : str → str;
  (** [str.title] *)
  uc_title : str → str;
  (** [sys.get_int_max_str_digits()]: the longest digit string [int()]
      reads and [str()] writes, [0] for no limit; Python accepts no other
      value below 640 *)
  int_max_str_digits : N;
}.

Definition ascii_upper (c : N) : bool := ((65 <=? c) && (c <=? 90))%N.
Definition ascii_lower (c : N) : bool := ((97 <=? c) && (c <=? 122))%N.

(** [str.title] on ASCII text: a letter is capitalised when the
    character before it is no letter, and lowercased otherwise. *)
Fixpoint ascii_title (prev_cased : bool) (s : str) : str :=
  match s with
  | [] => []
  | c :: r =>
    if ascii_upper c then (if prev_cased then c + 32 else c)%N :: ascii_title true r
    else if ascii_lower c then (if prev_cased then c else c - 32)%N :: ascii_title true r
    else c :: ascii_title false r
  end.

(** The runtime restricted to ASCII.  It agrees with Python on every
    ASCII string, and serves to run the program on such inputs. *)
Definition ascii_runtime : Runtime := {|
  uc_decimal c := if ((48 <=? c) && (c <=? 57))%N then Some (Z.of_N c - 48) else None;
  uc_isdigit c := ((48 <=? c) && (c <=? 57))%N;
  uc_lower s := (λ c, if ascii_upper c then c + 32 else c)%N <$> s;
  uc_title s := ascii_title false s;
  int_max_str_digits := 4300;
|}.

(** Whitespace, as [str.strip], [str.isspace] and the [\s] of [re] on
    [str] patterns see it. *)
Definition py_isspace (c : N) : bool :=
  ((9 <=? c) && (c <=? 13) || (28 <=? c) && (c <=? 32)
   || (c =? 133) || (c =? 160) || (c =? 5760)
   || (8192 <=? c) && (c <=? 8202)
   || (c =? 8232) || (c =? 8233) || (c =? 8239) || (c =? 8287)
   || (c =? 12288))%N.

Fixpoint drop_while {A} (P : A → bool) (l : list A) : list A :=
  match l with
  | [] => []
  | x :: r => if P x then drop_while P r else l
  end.

Definition lstrip (s : str) : str := drop_while py_isspace s.
Definition rstrip (s : str) : str := rev (drop_while py_isspace (rev s)).
Definition strip (s : str) : str := rstrip (lstrip s).

(** [s.lstrip(chars)] *)
Definition lstrip_chars (chars s : str) : str :=
  drop_while (λ c, bool_decide (c ∈ chars)) s.

Definition newline : str := [10%N].
Definition tab : str := [9%N].
(** The separator of the fallback chunks: an empty line. *)
Definition blank_line : str := newline ++ newline.

(** [Some rest] when [s = p ++ rest]. *)
Fixpoint strip_prefix (p s : str) : option str :=
  match p, s with
  | [], _ => Some s
  | _ :: _, [] => None
  | a :: p', b :: s' => if (a =? b)%N then strip_prefix p' s' else None
  end.

(** [s.find(sub)]: index of the first occurrence, [None] for [-1]. *)
Fixpoint find (sub s : str) : option nat :=
  match strip_prefix sub s with
  | Some _ => Some 0%nat
  | None =>
    match s with
    | [] => None
    | _ :: r => S <$> find sub r
    end
  end.

(** [sub in s] *)
Definition contains (sub s : str) : bool :=
  match find sub s with Some _ => true | None => false end.

(** [sep.join(parts)] *)
Fixpoint join (sep : str) (parts : list str) : str :=
  match parts with
  | [] => []
  | [x] => x
  | x :: rest => x ++ sep ++ join sep rest
  end.

(** Line boundaries of [str.splitlines]. *)
Definition is_linebreak (c : N) : bool :=
  ((10 <=? c) && (c <=? 13) || (28 <=? c) && (c <=? 30)
   || (c =? 133) || (c =? 8232) || (c =? 8233))%N.

(** [s.splitlines()]: [cur] is the line being read, reversed.  A
    carriage return followed by a line feed is one boundary; no empty
    last line is produced. *)
Fixpoint splitlines_go (cur s : str) : list str :=
  match s with
  | [] => match cur with [] => [] | _ => [rev cur] end
  | c :: r =>
    if is_linebreak c then
      rev cur ::
        match r with
        | c' :: r' => if (c =? 13)%N && (c' =? 10)%N
                      then splitlines_go [] r' else splitlines_go [] r
        | [] => splitlines_go [] r
        end
    else splitlines_go (c :: cur) r
  end.

Definition splitlines (s : str) : list str := splitlines_go [] s.

(** Splitting at the leftmost non-overlapping matches, shared by
    [str.split(sep)], [re.split] and [re.sub].  [m s] tells whether a
    match starts at the head of [s]: the captured groups to emit and the
    number of characters the match consumes (at least one).  [skip]
    counts the characters of the last match still to pass over, [cur] is
    the piece being read, reversed. *)
Fixpoint scan_split (m : str → option (list str * nat)) (skip : nat) (cur s : str)
    : list str :=
  match s with
  | [] => [rev cur]
  | c :: r =>
    match skip with
    | S k => scan_split m k cur r
    | O =>
      match m s with
      | Some (groups, len) => rev cur :: groups ++ scan_split m (pred len) [] r
      | None => scan_split m 0 (c :: cur) r
      end
    end
  end.

(** [s.split(sep)] for a non-empty separator. *)
Definition match_sep (sep s : str) : option (list str * nat) :=
  match strip_prefix sep s with
  | Some _ => Some ([], length sep)
  | None => None
  end.

Definition split (sep s : str) : list str := scan_split (match_sep sep) 0 [] s.

(** [l[a:b]] for non-negative bounds. *)
Definition slice {A} (l : list A) (a b : Z) : list A :=
  drop (Z.to_nat a) (take (Z.to_nat b) l).

(** ** Exceptions *)

Inductive exn :=
  | ZeroDivisionError
  | IndexError
  | KeyError
  | ValueError
  | AttributeError
  | TypeError
  | OverflowError
  | UnicodeEncodeError
  (** an exception raised by the client library of an external service *)
  | ServiceError (msg : str).

Inductive result (A : Type) :=
  | Ok (a : A)
  | Raise (e : exn).
Arguments Ok {A} a.
Arguments Raise {A} e.

#[global] Instance result_bind : MBind result := λ A B k m,
  match m with
  | Ok a => k a
  | Raise e => Raise e
  end.

(** [str(z)], as [str] and f-strings render an [int]: [ValueError] when
    the number has more digits than the runtime allows.  The numbers
    the program counts itself (the index of a loop, the length of a
    list) or bounds (a clamped or range-checked count) stay below any
    limit that can be set; they are rendered by [decimal] directly. *)
Definition py_str_int `{Runtime} (z : Z) : result str :=
  if negb (int_max_str_digits =? 0)%N
     && (int_max_str_digits <? N.of_nat (length (decimal (Z.abs z))))%N
  then Raise ValueError
  else Ok (decimal z).

(** [range(n)]: empty for [n <= 0]. *)
Definition py_range (n : Z) : list Z := Z.of_nat <$> seq 0 (Z.to_nat n).

(** [l[k]] for a Python index: negative indices count from the end. *)
Definition py_index_pos {A} (l : list A) (k : Z) : option nat :=
  let len := Z.of_nat (length l) in
  if (0 <=? k) && (k <? len) then Some (Z.to_nat k)
  else if (k <? 0) && (- len <=? k) then Some (Z.to_nat (len + k))
  else None.

(** ** Round-robin distribution: [_split_into_n] *)

Definition dash : str := Eval vm_compute in u "-".

(** [buckets[idx % n].append(item)] for the items in order, [idx]
    counting up from the given start. *)
Fixpoint fill_buckets (n idx : Z) (items : list str) (buckets : list (list str))
    : result (list (list str)) :=
  match items with
  | [] => Ok buckets
  | item :: rest =>
    if n =? 0 then Raise ZeroDivisionError
    else match py_index_pos buckets (idx mod n) with
         | None => Raise IndexError
         | Some k => fill_buckets n (idx + 1) rest (alter (λ b, b ++ [item]) k buckets)
         end
  end.

(** [b if b else ["-"]] *)
Definition or_dash (b : list str) : list str :=
  match b with [] => [dash] | _ => b end.

Definition _split_into_n (items : list str) (n : Z) : result (list (list str)) :=
  match items with
  | [] => Ok ((λ _ : Z, [dash]) <$> py_range n)
  | _ =>
    buckets ← fill_buckets n 0 items ((λ _ : Z, []) <$> py_range n);
    Ok (fmap (M:=list) or_dash buckets)
  end.

(** The items of bucket [j]: those whose index is [j] modulo [n], in
    input order. *)
Definition residue_class (items : list str) (n : Z) (j : nat) : list str :=
  snd <$> filter (λ p : nat * str, Z.of_nat p.1 mod n = Z.of_nat j)
                 (imap pair items).

(** ** Section extraction: [_extract_section], [_lines_to_list] *)

Definition _extract_section (full section_name : str) : str :=
  let marker := u "---" ++ section_name ++ u "---" in
  match find marker full with
  | None => []
  | Some i =>
    let after := drop (i + length marker) full in
    match find (newline ++ u "---") after with
    | None => strip after
    | Some next_idx => strip (take next_idx after)
    end
  end.

(** One line of [_lines_to_list]: [None] for a line that is dropped. *)
Definition clean_line `{Runtime} (raw : str) : option str :=
  let s := strip raw in
  match s with
  | [] => None
  | _ =>
    let s := lstrip_chars (u "•- " ++ tab) s in
    Some match s with
         | c0 :: c1 :: _ :: _ =>
           if uc_isdigit c0 && bool_decide (c1 ∈ u ".)")
           then strip (drop 2 s) else s
         | _ => s
         end
  end.

Definition _lines_to_list `{Runtime} (block : str) : list str :=
  match block with
  | [] => []
  | _ => omap clean_line (splitlines block)
  end.

(** ** Session planner: [parse_llm_to_sessions] *)

Record session := {
  sess_number : Z;
  sess_duration : str;
  sess_competency : str;
  sess_elo : str;
  sess_activities : list str;
  sess_resources_tlm : str;
  sess_e_resources : list str;
  sess_worksheets : str;
  sess_assessment : str;
}.

(** [lst[i % len(lst)] if lst else fallback] *)
Definition pick (lst : list str) (i : Z) (fallback : str) : str :=
  match lst with
  | [] => fallback
  | _ => default fallback (lst !! Z.to_nat (i mod Z.of_nat (length lst)))
  end.

(** [xs[i]] for an index produced by [range]. *)
Definition item {A} (xs : list A) (i : Z) : result A :=
  match py_index_pos xs i with
  | Some k => match xs !! k with Some x => Ok x | None => Raise IndexError end
  | None => Raise IndexError
  end.

(** The body of the loop over [range(num_sessions)]. *)
Fixpoint build_sessions `{Runtime} (session_duration : Z)
    (obj_list out_list hw_list : list str) (act_n res_n assess_n : list (list str))
    (indices : list Z) : result (list session) :=
  match indices with
  | [] => Ok []
  | i :: rest =>
    duration ← py_str_int session_duration;
    act ← item act_n i;
    res ← item res_n i;
    assess ← item assess_n i;
    let s := {|
      sess_number := i + 1;
      sess_duration := duration ++ u " mins";
      sess_competency := pick obj_list i (u "Competency based on objectives");
      sess_elo := pick out_list i (u "Expected learning outcome");
      sess_activities := act;
      sess_resources_tlm :=
        if bool_decide (res ≠ [dash]) then join (u "; ") res else dash;
      sess_e_resources := [];
      sess_worksheets := u "Worksheet " ++ decimal (i + 1);
      sess_assessment :=
        if bool_decide (assess ≠ [dash]) then join (u "; ") assess
        else match hw_list with [] => dash | _ => join (u "; ") hw_list end;
    |} in
    sessions ← build_sessions session_duration obj_list out_list hw_list
                 act_n res_n assess_n rest;
    Ok (s :: sessions)
  end.

Definition parse_llm_to_sessions `{Runtime}
    (formatted_text : str) (session_duration num_sessions : Z)
    : result (list session) :=
  let objectives := _extract_section formatted_text (u "LEARNING OBJECTIVES") in
  let outcomes := _extract_section formatted_text (u "LEARNING OUTCOMES") in
  let resources := _extract_section formatted_text (u "TEACHING AIDS/RESOURCES") in
  let activities := _extract_section formatted_text (u "ACTIVITIES") in
  let assessment := _extract_section formatted_text (u "ASSESSMENT") in
  let homework := _extract_section formatted_text (u "HOMEWORK") in
  let obj_list := _lines_to_list objectives in
  let out_list := _lines_to_list outcomes in
  let res_list := _lines_to_list resources in
  let act_list := _lines_to_list activities in
  let assess_list := _lines_to_list assessment in
  let hw_list := _lines_to_list homework in
  act_n ← _split_into_n act_list num_sessions;
  res_n ← _split_into_n res_list num_sessions;
  assess_n ← _split_into_n assess_list num_sessions;
  build_sessions session_duration obj_list out_list hw_list act_n res_n assess_n
    (py_range num_sessions).

(** ** Regular expressions of the worksheet parser

    The patterns of [parse_worksheets] and [extract_worksheet_sections]
    are matched by direct scanners.  Each scanner follows the
    backtracking search of [re] for its pattern; where a greedy
    repetition is followed by an item that none of the repeated
    characters can start, the longest repetition is the only one that
    can succeed and no backtracking is written. *)

(** A literal character of a pattern compiled with [re.IGNORECASE]
    against a character of the text.  Besides the two ASCII cases, the
    Kelvin sign (U+212A) lowercases to [k] and capital I with dot above
    (U+0130) to [i]; long s (U+017F) and dotless i (U+0131) are the
    equivalents [re] adds to [s] and [i]. *)
Definition ascii_fold (c : N) : N := if ascii_upper c then (c + 32)%N else c.

Definition ci_eq (p c : N) : bool :=
  let lp := ascii_fold p in
  ((ascii_fold c =? lp)
   || (lp =? 107) && (c =? 8490)
   || (lp =? 115) && (c =? 383)
   || (lp =? 105) && ((c =? 304) || (c =? 305)))%N.

(** [Some rest] when the literal [p] matches a prefix of [s], ignoring
    case. *)
Fixpoint ci_prefix (p s : str) : option str :=
  match p, s with
  | [], _ => Some s
  | _ :: _, [] => None
  | a :: p', b :: s' => if ci_eq a b then ci_prefix p' s' else None
  end.

(** The longest prefix of characters satisfying [P], and the rest. *)
Fixpoint span {A} (P : A → bool) (l : list A) : list A * list A :=
  match l with
  | [] => ([], [])
  | x :: r => if P x then let '(a, b) := span P r in (x :: a, b) else ([], l)
  end.

Definition is_decimal `{Runtime} (c : N) : bool :=
  match uc_decimal c with Some _ => true | None => false end.

(** [opening\s+(\d+)closing] at the head of [s]: the captured digits and
    the length of the match. *)
Definition match_marker `{Runtime} (opening closing s : str)
    : option (list str * nat) :=
  match ci_prefix opening s with
  | None => None
  | Some rest =>
    match span py_isspace rest with
    | ([], _) => None
    | (_, rest) =>
      match span is_decimal rest with
      | ([], _) => None
      | (digits, rest) =>
        match ci_prefix closing rest with
        | None => None
        | Some rest => Some ([digits], (length s - length rest)%nat)
        end
      end
    end
  end.

(** [opening\d+closing] at the head of [s], nothing captured. *)
Definition match_end_marker `{Runtime} (opening closing s : str)
    : option (list str * nat) :=
  match ci_prefix opening s with
  | None => None
  | Some rest =>
    match span is_decimal rest with
    | ([], _) => None
    | (_, rest) =>
      match ci_prefix closing rest with
      | None => None
      | Some rest => Some ([], (length s - length rest)%nat)
      end
    end
  end.

(** [re.split(pattern, text, flags=re.IGNORECASE)] for a worksheet
    marker. *)
Definition re_split `{Runtime} (pattern : str * str) (text : str) : list str :=
  scan_split (match_marker pattern.1 pattern.2) 0 [] text.

(** [re.sub(pattern, "", text, flags=re.IGNORECASE)] for an end marker. *)
Definition re_sub_empty `{Runtime} (pattern : str * str) (text : str) : str :=
  concat (scan_split (match_end_marker pattern.1 pattern.2) 0 [] text).

(** [KEY\s*(.+?)(?:\n|STOP)]: the lazy group ends at the first line feed
    or [STOP]; it has at least one character, none of them a line
    feed. *)
Definition at_field_end (stop s : str) : bool :=
  match s with
  | c :: _ => (c =? 10)%N || bool_decide (is_Some (ci_prefix stop s))
  | [] => false
  end.

Fixpoint lazy_group (stop acc s : str) : option str :=
  if at_field_end stop s then Some (rev acc)
  else match s with
       | [] => None
       | c :: r => lazy_group stop (c :: acc) r
       end.

Definition group_from (stop s : str) : option str :=
  match s with
  | [] => None
  | c :: r => if (c =? 10)%N then None else lazy_group stop [c] r
  end.

(** [\s*] gives whitespace back one character at a time when the group
    cannot be matched after it. *)
Fixpoint group_after_spaces (stop s : str) : option str :=
  match s with
  | [] => None
  | c :: r =>
    if py_isspace c then
      match group_after_spaces stop r with
      | Some g => Some g
      | None => group_from stop s
      end
    else group_from stop s
  end.

(** [re.search] for such a field: group 1 of the leftmost match. *)
Fixpoint search_field (key stop s : str) : option str :=
  match match ci_prefix key s with
        | Some rest => group_after_spaces stop rest
        | None => None
        end with
  | Some g => Some g
  | None =>
    match s with
    | [] => None
    | _ :: r => search_field key stop r
    end
  end.

(** Section patterns [HEAD[:\s]*TITLE.*?(?=STOP1|STOP2|$)] under
    [re.IGNORECASE | re.DOTALL]; the answer key has no [[:\s]*TITLE]
    part. *)
Record section_pattern := {
  sp_name : str;
  sp_head : str;
  sp_title : option str;
  sp_stops : list str;
}.

Definition section_patterns : list section_pattern := [
  {| sp_name := u "fill_blanks"; sp_head := u "SECTION A";
     sp_title := Some (u "FILL IN THE BLANKS"); sp_stops := [u "SECTION B"] |};
  {| sp_name := u "true_false"; sp_head := u "SECTION B";
     sp_title := Some (u "TRUE OR FALSE"); sp_stops := [u "SECTION C"] |};
  {| sp_name := u "mcq"; sp_head := u "SECTION C";
     sp_title := Some (u "MULTIPLE CHOICE"); sp_stops := [u "SECTION D"] |};
  {| sp_name := u "short_answer"; sp_head := u "SECTION D";
     sp_title := Some (u "SHORT ANSWER");
     sp_stops := [u "SECTION E"; u "ANSWER KEY"] |};
  {| sp_name := u "activity"; sp_head := u "SECTION E";
     sp_title := Some (u "ACTIVITY"); sp_stops := [u "ANSWER KEY"] |};
  {| sp_name := u "answer_key"; sp_head := u "ANSWER KEY:";
     sp_title := None; sp_stops := [u "==="] |}
].

(** The rest of [s] after the header of the pattern. *)
Definition match_header (p : section_pattern) (s : str) : option str :=
  match ci_prefix (sp_head p) s with
  | None => None
  | Some rest =>
    match sp_title p with
    | None => Some rest
    | Some title =>
      ci_prefix title (span (λ c, (c =? 58)%N || py_isspace c) rest).2
    end
  end.

(** The lookahead [(?=STOP1|STOP2|$)]; [$] holds at the end of the text
    and before a line feed that ends it. *)
Definition at_lookahead (stops : list str) (s : str) : bool :=
  existsb (λ stop, bool_decide (is_Some (ci_prefix stop s))) stops
  || bool_decide (s = [] ∨ s = [10%N]).

(** Length of the lazy [.*?] up to the first position where the
    lookahead holds. *)
Fixpoint lazy_length (stops : list str) (s : str) : nat :=
  if at_lookahead stops s then 0%nat
  else match s with
       | [] => 0%nat
       | _ :: r => S (lazy_length stops r)
       end.

(** [re.search(pattern, content)]: group 0 of the leftmost match. *)
Fixpoint search_section (p : section_pattern) (s : str) : option str :=
  match match_header p s with
  | Some rest =>
    Some (take (length s - length rest + lazy_length (sp_stops p) rest) s)
  | None =>
    match s with
    | [] => None
    | _ :: r => search_section p r
    end
  end.

Definition extract_worksheet_sections (content : str) : list (str * str) :=
  omap (λ p, (λ m, (sp_name p, strip m)) <$> search_section p content)
       section_patterns.

(** ** Worksheet parser: [parse_worksheets] *)

Record worksheet := {
  ws_number : Z;
  ws_title : str;
  ws_objective : str;
  ws_duration : str;
  ws_content : str;
  ws_sections : list (str * str);
}.

(** The four marker styles, in priority order. *)
Definition patterns : list (str * str) := [
  (u "===WORKSHEET", u "===");
  (u "---WORKSHEET", u "---");
  (u "WORKSHEET", u ":");
  (u "**WORKSHEET", u "**")
].

(** The loop over the styles: the value of [sections] when it ends. *)
Fixpoint split_by_markers `{Runtime} (pats : list (str * str)) (text : str)
    (sections : option (list str)) : option (list str) :=
  match pats with
  | [] => sections
  | pattern :: rest =>
    let sections := re_split pattern text in
    if bool_decide (1 < length sections)%nat then Some sections
    else split_by_markers rest text (Some sections)
  end.

(** [s.isdigit()] *)
Definition isdigit `{Runtime} (s : str) : bool :=
  match s with
  | [] => false
  | _ => forallb uc_isdigit s
  end.

(** [int(s)] for a string of digit characters: [ValueError] when the
    string is longer than the runtime allows or when one of the
    characters has no decimal value. *)
Definition int_of_digits `{Runtime} (s : str) : result Z :=
  if negb (int_max_str_digits =? 0)%N
     && (int_max_str_digits <? N.of_nat (length s))%N
  then Raise ValueError
  else foldl (λ acc c,
                n ← acc;
                match uc_decimal c with
                | Some d => Ok (10 * n + d)
                | None => Raise ValueError
                end) (Ok 0) s.

(** One (number, content) pair of the marker path. *)
Definition parse_block `{Runtime} (topic num content : str) (count : nat)
    : result worksheet :=
  let ws_num := strip num in
  let ws_content := strip content in
  let ws_content := re_sub_empty (u "===END WORKSHEET ", u "===") ws_content in
  let ws_content := re_sub_empty (u "---END WORKSHEET ", u "---") ws_content in
  let title :=
    match search_field (u "TITLE:") (u "SESSION:") ws_content with
    | Some g => strip g
    | None => u "Worksheet " ++ ws_num ++ u ": " ++ topic
    end in
  let objective :=
    match search_field (u "OBJECTIVE:") (u "DURATION:") ws_content with
    | Some g => strip g
    | None => []
    end in
  let duration :=
    match search_field (u "DURATION:") (u "SECTION") ws_content with
    | Some g => strip g
    | None => u "20 minutes"
    end in
  let sections_data := extract_worksheet_sections ws_content in
  number ← (if isdigit ws_num then int_of_digits ws_num
            else Ok (Z.of_nat count + 1));
  Ok {| ws_number := number; ws_title := title; ws_objective := objective;
        ws_duration := duration; ws_content := ws_content;
        ws_sections := sections_data |}.

(** The [while] loop over [sections[1:]], two entries at a time; a last
    entry without a partner is passed over. *)
Fixpoint parse_blocks `{Runtime} (topic : str) (sections : list str)
    (worksheets : list worksheet) : result (list worksheet) :=
  match sections with
  | num :: content :: rest =>
    w ← parse_block topic num content (length worksheets);
    parse_blocks topic rest (worksheets ++ [w])
  | _ => Ok worksheets
  end.

(** The text of chunk [i] of the fallback path. *)
Definition chunk_content (content_chunks : list str)
    (chunk_size num_sessions i : Z) : str :=
  let start_idx := i * chunk_size in
  let end_idx :=
    if i <? num_sessions - 1 then start_idx + chunk_size
    else Z.of_nat (length content_chunks) in
  join blank_line (slice content_chunks start_idx end_idx).

(** One worksheet of the fallback path. *)
Definition fallback_worksheet (worksheet_text topic : str)
    (content_chunks : list str) (chunk_size num_sessions i : Z) : worksheet :=
  let chunk_content := chunk_content content_chunks chunk_size num_sessions i in
  {| ws_number := i + 1;
     ws_title := u "Worksheet " ++ decimal (i + 1) ++ u ": " ++ topic;
     ws_objective := u "Practice and reinforce understanding of " ++ topic;
     ws_duration := u "20 minutes";
     ws_content := match strip chunk_content with
                   | [] => worksheet_text
                   | _ => chunk_content
                   end;
     ws_sections := [] |}.

(** [len(content_chunks) // num_sessions if len(content_chunks) >=
    num_sessions else 1] *)
Definition chunk_size_of (len num_sessions : Z) : result Z :=
  if num_sessions <=? len
  then (if num_sessions =? 0 then Raise ZeroDivisionError
        else Ok (len / num_sessions))
  else Ok 1.

Definition fallback_worksheets (worksheet_text topic : str) (num_sessions : Z)
    : result (list worksheet) :=
  let content_chunks := split blank_line worksheet_text in
  chunk_size ← chunk_size_of (Z.of_nat (length content_chunks)) num_sessions;
  Ok (fallback_worksheet worksheet_text topic content_chunks chunk_size num_sessions
        <$> py_range num_sessions).

Definition parse_worksheets `{Runtime} (worksheet_text topic : str) (num_sessions : Z)
    : result (list worksheet) :=
  worksheets ←
    match split_by_markers patterns worksheet_text None with
    | Some (first :: (_ :: _) as rest) => parse_blocks topic rest []
    | _ => Ok []
    end;
  match worksheets with
  | [] => fallback_worksheets worksheet_text topic num_sessions
  | _ => Ok worksheets
  end.

(** No marker style splits the text: the fallback path is taken. *)
Definition fallback_path `{Runtime} (worksheet_text : str) : bool :=
  forallb (λ pattern,
             bool_decide (length (re_split pattern worksheet_text) ≤ 1)%nat)
          patterns.

(** The chunk texts of the fallback path, in order. *)
Definition fallback_chunks (worksheet_text : str) (num_sessions : Z) : list str :=
  let content_chunks := split blank_line worksheet_text in
  match chunk_size_of (Z.of_nat (length content_chunks)) num_sessions with
  | Ok chunk_size =>
    chunk_content content_chunks chunk_size num_sessions <$> py_range num_sessions
  | Raise _ => []
  end.

(** *** Well-formed marker blocks *)

(** The Unicode database agrees with ASCII on the ASCII characters, as
    every version of it does. *)
Definition ascii_digits `{Runtime} : Prop :=
  ∀ c, (c < 128)%N →
    uc_decimal c = uc_decimal (Runtime:=ascii_runtime) c
    ∧ uc_isdigit c = uc_isdigit (Runtime:=ascii_runtime) c.

(** The marker [===WORKSHEET n===] of worksheet [n]. *)
Definition marker (n : Z) : str := u "===WORKSHEET " ++ decimal n ++ u "===".

(** No match of the first marker style starts inside [x], when [x] is
    followed by [tail]. *)
Definition no_marker_inside `{Runtime} (x tail : str) : bool :=
  forallb (λ k, bool_decide
                  (match_marker (u "===WORKSHEET") (u "===") (drop k x ++ tail) = None))
          (seq 0 (length x)).

(** [m] is an end marker of the pattern [opening\d+closing]: the
    opening, whatever the case of its letters, a non-empty run of
    decimal digits and the closing. *)
Definition is_end_marker `{Runtime} (opening closing m : str) : Prop :=
  ∃ o digits c,
    m = o ++ digits ++ c
    ∧ ci_prefix opening o = Some []
    ∧ digits ≠ [] ∧ Forall (λ d, is_decimal d = true) digits
    ∧ ci_prefix closing c = Some [].

(** [t] is [s] without some of its markers. *)
Inductive without_markers (is_marker : str → Prop) : str → str → Prop :=
  | without_nil : without_markers is_marker [] []
  | without_keep c s t :
      without_markers is_marker s t →
      without_markers is_marker (c :: s) (c :: t)
  | without_drop m s t :
      is_marker m →
      without_markers is_marker s t →
      without_markers is_marker (m ++ s) t.

(** A sequence of markers and nothing else. *)
Inductive marker_sequence (is_marker : str → Prop) : str → Prop :=
  | sequence_nil : marker_sequence is_marker []
  | sequence_cons m t :
      is_marker m →
      marker_sequence is_marker t →
      marker_sequence is_marker (m ++ t).

(** The text holds nothing but end markers: it is a sequence of
    [---END WORKSHEET n---] markers, between whose characters
    [===END WORKSHEET n===] markers may stand.  The empty text is one
    of them. *)
Definition only_end_markers `{Runtime} (s : str) : Prop :=
  ∃ t, without_markers (is_end_marker (u "===END WORKSHEET ") (u "===")) s t
       ∧ marker_sequence (is_end_marker (u "---END WORKSHEET ") (u "---")) t.

(** The block has content: it holds more than whitespace around end
    markers. *)
Definition has_content `{Runtime} (block : str) : Prop :=
  ¬ only_end_markers (strip block).

(** A text of exactly four well-formed blocks, numbered 1 to 4. *)
Definition four_blocks (pre c1 c2 c3 c4 : str) : str :=
  pre ++ marker 1 ++ c1 ++ marker 2 ++ c2 ++ marker 3 ++ c3 ++ marker 4 ++ c4.

(** The four markers are the only ones, and each is followed by
    content. *)
Definition well_formed_blocks `{Runtime} (pre c1 c2 c3 c4 : str) : Prop :=
  no_marker_inside pre (marker 1 ++ c1 ++ marker 2 ++ c2 ++ marker 3 ++ c3 ++ marker 4 ++ c4)
    = true
  ∧ no_marker_inside c1 (marker 2 ++ c2 ++ marker 3 ++ c3 ++ marker 4 ++ c4) = true
  ∧ no_marker_inside c2 (marker 3 ++ c3 ++ marker 4 ++ c4) = true
  ∧ no_marker_inside c3 (marker 4 ++ c4) = true
  ∧ no_marker_inside c4 [] = true
  ∧ Forall has_content [c1; c2; c3; c4].

(** ** Utterance interpreter: [parse_user_response] *)

(** The values a reply or a state field holds. *)
Inductive value :=
  | VNone
  | VStr (s : str)
  | VInt (z : Z)
  | VBool (b : bool).

#[global] Instance value_eq_dec : EqDecision value.
Proof. solve_decision. Defined.

Record parsed := {
  p_value : value;
  needs_clarification : bool;
}.

Inductive stage :=
  | LANGUAGE_SELECTION
  | TOPIC_COLLECTION
  | SUBJECT_COLLECTION
  | CLASS_COLLECTION
  | SESSION_DURATION
  | NUM_SESSIONS
  | CONFIRMATION.

#[global] Instance stage_eq_dec : EqDecision stage.
Proof. solve_decision. Defined.

(** [any(w in s for w in words)] *)
Definition any_in (words : list str) (s : str) : bool :=
  existsb (λ w, contains w s) words.

Definition restart_words : list str :=
  [u "start over"; u "restart"; u "शुरू करो"; u "फिर से"].

Definition subjects_map : list (str * str) := [
  (u "math", u "Mathematics");
  (u "maths", u "Mathematics");
  (u "गणित", u "Mathematics");
  (u "science", u "Science");
  (u "विज्ञान", u "Science");
  (u "english", u "English");
  (u "अंग्रेजी", u "English");
  (u "hindi", u "Hindi");
  (u "हिंदी", u "Hindi");
  (u "social", u "Social Science");
  (u "सामाजिक", u "Social Science");
  (u "history", u "History");
  (u "इतिहास", u "History");
  (u "geography", u "Geography");
  (u "भूगोल", u "Geography");
  (u "physics", u "Physics");
  (u "भौतिकी", u "Physics");
  (u "chemistry", u "Chemistry");
  (u "रसायन", u "Chemistry");
  (u "biology", u "Biology");
  (u "जीव विज्ञान", u "Biology");
  (u "computer", u "Computer Science");
  (u "कंप्यूटर", u "Computer Science")
].

Definition yes_words : list str := [
  u "yes"; u "yeah"; u "correct"; u "right"; u "okay"; u "ok"; u "sure";
  u "हां"; u "हाँ"; u "सही"; u "ठीक"; u "जी"
].

Definition no_words : list str :=
  [u "no"; u "नहीं"; u "गलत"; u "wrong"; u "नही"].

(** [re.findall(r"\d+", s)]: its first element, if any. *)
Definition first_digits `{Runtime} (s : str) : option str :=
  match span is_decimal (drop_while (λ c, negb (is_decimal c)) s) with
  | ([], _) => None
  | (digits, _) => Some digits
  end.

Definition clarify : parsed := {| p_value := VNone; needs_clarification := true |}.
Definition accept (v : value) : parsed := {| p_value := v; needs_clarification := false |}.

(** The stages that read a number: the first run of digits, accepted
    when it lies in [[lo, hi]]. *)
Definition parse_number `{Runtime} (transcript : str) (lo hi : Z) (mk : Z → value)
    : result parsed :=
  match first_digits transcript with
  | Some digits =>
    n ← int_of_digits digits;
    if (lo <=? n) && (n <=? hi) then Ok (accept (mk n)) else Ok clarify
  | None => Ok clarify
  end.

(** The first subject whose key occurs in the text, in the order of the
    table. *)
Definition lookup_subject (transcript_lower : str) : option str :=
  snd <$> List.find (λ kv, contains kv.1 transcript_lower) subjects_map.

Definition parse_user_response `{Runtime}
    (transcript : str) (stage : stage) (language_mode : value) : result parsed :=
  let transcript_lower := strip (uc_lower transcript) in
  if any_in restart_words transcript_lower then Ok (accept (VStr (u "RESTART")))
  else match stage with
  | LANGUAGE_SELECTION =>
    if contains (u "english") transcript_lower || contains (u "इंग्लिश") transcript_lower
    then Ok (accept (VStr (u "english")))
    else if contains (u "hindi") transcript_lower || contains (u "हिंदी") transcript_lower
    then Ok (accept (VStr (u "hindi")))
    else Ok clarify
  | TOPIC_COLLECTION =>
    Ok {| p_value := VStr (strip transcript);
          needs_clarification := bool_decide (length (strip transcript) < 3)%nat |}
  | SUBJECT_COLLECTION =>
    match lookup_subject transcript_lower with
    | Some subject => Ok (accept (VStr subject))
    | None =>
      if bool_decide (2 < length (strip transcript))%nat
      then Ok (accept (VStr (uc_title (strip transcript))))
      else Ok clarify
    end
  | CLASS_COLLECTION =>
    parse_number transcript 1 12 (λ n, VStr (u "Class " ++ decimal n))
  | SESSION_DURATION => parse_number transcript 15 90 VInt
  | NUM_SESSIONS => parse_number transcript 1 10 VInt
  | CONFIRMATION =>
    if any_in yes_words transcript_lower then Ok (accept (VBool true))
    else if any_in no_words transcript_lower then Ok (accept (VBool false))
    else Ok clarify
  end.

(** ** Conversation state and prompts *)

(** [str(v)], as f-strings render a value. *)
Definition py_str (v : value) : str :=
  match v with
  | VNone => u "None"
  | VStr s => s
  | VInt z => decimal z
  | VBool true => u "True"
  | VBool false => u "False"
  end.

(** Truth value of [v], as [v or default] tests it. *)
Definition truthy (v : value) : bool :=
  match v with
  | VNone => false
  | VStr s => bool_decide (s ≠ [])
  | VInt z => bool_decide (z ≠ 0)
  | VBool b => b
  end.

(** The dictionary [ConversationState.data]; its keys are fixed when the
    state is created. *)
Record data := {
  d_topic : value;
  d_subject : value;
  d_class_level : value;
  d_session_duration : value;
  d_num_sessions : value;
  d_language : value;
}.

Record ConversationState := {
  sid : str;
  stage_of : stage;
  language_mode : value;
  state_data : data;
  history : list (str * str);
}.

(** [ConversationState(sid)] *)
Definition new_state (sid : str) : ConversationState := {|
  sid := sid;
  stage_of := LANGUAGE_SELECTION;
  language_mode := VNone;
  state_data := {|
    d_topic := VNone;
    d_subject := VNone;
    d_class_level := VNone;
    d_session_duration := VInt 40;
    d_num_sessions := VInt 4;
    d_language := VStr (u "English");
  |};
  history := [];
|}.

Definition add_to_history (state : ConversationState) (role text : str)
    : ConversationState :=
  {| sid := sid state; stage_of := stage_of state;
     language_mode := language_mode state; state_data := state_data state;
     history := history state ++ [(role, text)] |}.

Definition set_stage (state : ConversationState) (s : stage) : ConversationState :=
  {| sid := sid state; stage_of := s;
     language_mode := language_mode state; state_data := state_data state;
     history := history state |}.

Definition set_language_mode (state : ConversationState) (v : value)
    : ConversationState :=
  {| sid := sid state; stage_of := stage_of state;
     language_mode := v; state_data := state_data state;
     history := history state |}.

Definition set_data (state : ConversationState) (d : data) : ConversationState :=
  {| sid := sid state; stage_of := stage_of state;
     language_mode := language_mode state; state_data := d;
     history := history state |}.

Definition set_topic (d : data) (v : value) : data :=
  {| d_topic := v; d_subject := d_subject d; d_class_level := d_class_level d;
     d_session_duration := d_session_duration d;
     d_num_sessions := d_num_sessions d; d_language := d_language d |}.
Definition set_subject (d : data) (v : value) : data :=
  {| d_topic := d_topic d; d_subject := v; d_class_level := d_class_level d;
     d_session_duration := d_session_duration d;
     d_num_sessions := d_num_sessions d; d_language := d_language d |}.
Definition set_class_level (d : data) (v : value) : data :=
  {| d_topic := d_topic d; d_subject := d_subject d; d_class_level := v;
     d_session_duration := d_session_duration d;
     d_num_sessions := d_num_sessions d; d_language := d_language d |}.
Definition set_session_duration (d : data) (v : value) : data :=
  {| d_topic := d_topic d; d_subject := d_subject d;
     d_class_level := d_class_level d; d_session_duration := v;
     d_num_sessions := d_num_sessions d; d_language := d_language d |}.
Definition set_num_sessions (d : data) (v : value) : data :=
  {| d_topic := d_topic d; d_subject := d_subject d;
     d_class_level := d_class_level d;
     d_session_duration := d_session_duration d;
     d_num_sessions := v; d_language := d_language d |}.
Definition set_language (d : data) (v : value) : data :=
  {| d_topic := d_topic d; d_subject := d_subject d;
     d_class_level := d_class_level d;
     d_session_duration := d_session_duration d;
     d_num_sessions := d_num_sessions d; d_language := v |}.

(** The table [PROMPTS]: per stage, the English and the Hindi prompt.
    The confirmation prompts are functions of the collected data; the
    others are constants. *)
Definition PROMPTS_english (s : stage) (d : data) : str :=
  match s with
  | LANGUAGE_SELECTION => u "Hello! I'm your NCERT Lesson Plan Assistant.

I can help you create a complete lesson plan through voice conversation.

Which language would you prefer?
1) English
2) हिंदी (Hindi)

Please say 'English' or 'Hindi'."
  | TOPIC_COLLECTION => u "Great! Let's start creating your lesson plan.

What is the topic or lesson title?
Example: Photosynthesis, Fractions, Freedom Struggle"
  | SUBJECT_COLLECTION => u "Which subject is this lesson for? Example: Mathematics, Science, Social Science, English, Hindi."
  | CLASS_COLLECTION => u "Which class is this lesson for? Please say class number 1 to 12. Example: Class 5."
  | SESSION_DURATION => u "How long should each session be? Please say 15 to 90 minutes. Example: 40 minutes."
  | NUM_SESSIONS => u "How many sessions do you need? Please say 1 to 10. Example: 4 sessions."
  | CONFIRMATION =>
    u "Perfect! Please confirm:

Topic: "
    ++ py_str (d_topic d)
    ++ u "
Subject: "
    ++ py_str (d_subject d)
    ++ u "
Class: "
    ++ py_str (d_class_level d)
    ++ u "
Session Duration: "
    ++ py_str (d_session_duration d)
    ++ u " minutes
Number of Sessions: "
    ++ py_str (d_num_sessions d)
    ++ u "

Say 'Yes' to generate, or 'No' to start over."
  end.

Definition PROMPTS_hindi (s : stage) (d : data) : str :=
  match s with
  | LANGUAGE_SELECTION => u "नमस्ते! मैं आपका NCERT पाठ योजना सहायक हूँ।

मैं आवाज़ के माध्यम से एक पूर्ण पाठ योजना बनाने में आपकी सहायता कर सकता हूँ।

आप किस भाषा को पसंद करेंगे?
1) English
2) हिंदी (Hindi)

कृपया 'English' या 'Hindi' कहें।"
  | TOPIC_COLLECTION => u "बढ़िया! चलिए आपकी पाठ योजना बनाना शुरू करते हैं।

पाठ का विषय या शीर्षक क्या है?
उदाहरण: प्रकाश संश्लेषण, भिन्न, स्वतंत्रता संग्राम"
  | SUBJECT_COLLECTION => u "यह पाठ किस विषय के लिए है? उदाहरण: गणित, विज्ञान, सामाजिक विज्ञान, अंग्रेज़ी, हिंदी।"
  | CLASS_COLLECTION => u "यह पाठ किस कक्षा के लिए है? कृपया 1 से 12 के बीच कक्षा संख्या बताएं।"
  | SESSION_DURATION => u "प्रत्येक सत्र कितने मिनट का होना चाहिए? 15 से 90 मिनट। उदाहरण: 40 मिनट।"
  | NUM_SESSIONS => u "आपको कितने सत्र चाहिए? 1 से 10। उदाहरण: 4 सत्र।"
  | CONFIRMATION =>
    u "कृपया पुष्टि करें:

विषय: "
    ++ py_str (d_topic d)
    ++ u "
सब्जेक्ट: "
    ++ py_str (d_subject d)
    ++ u "
कक्षा: "
    ++ py_str (d_class_level d)
    ++ u "
सत्र अवधि: "
    ++ py_str (d_session_duration d)
    ++ u " मिनट
सत्रों की संख्या: "
    ++ py_str (d_num_sessions d)
    ++ u "

बनाने के लिए 'हाँ' कहें, या फिर से शुरू करने के लिए 'नहीं' कहें।"
  end.

(** [PROMPTS[stage][key]]: [KeyError] for a key other than ["english"]
    and ["hindi"]. *)
Definition PROMPTS (s : stage) (key : value) : result (data → str) :=
  if bool_decide (key = VStr (u "english")) then Ok (PROMPTS_english s)
  else if bool_decide (key = VStr (u "hindi")) then Ok (PROMPTS_hindi s)
  else Raise KeyError.

(** ** Dialogue stage machine: the [voicemessage] handler *)

(** Outcome of a call to an external service: the transcription and the
    generation of the lesson are network calls whose results are inputs
    of the handler. *)
Inductive outcome (A : Type) :=
  | Returned (a : A)
  | Failed (msg : str).
Arguments Returned {A} a.
Arguments Failed {A} msg.

(** What the generation step hands back on success: the id under which
    the lesson is stored, the titles of its worksheets and the number
    of its video links. *)
Record generated := {
  lesson_id : str;
  worksheet_titles : list str;
  num_yt_links : Z;
}.

Definition num_worksheets (g : generated) : Z :=
  Z.of_nat (length (worksheet_titles g)).

(** An [airesponse] event. *)
Record response := {
  text : str;
  speak : bool;
  r_language : value;
  downloadid : option str;
  r_topic : option value;
}.

Inductive failure :=
  | Exception (e : exn)
  | External (msg : str).

(** What the handler emits.  [ErrorResponse e] is the event of the
    [except] clause: text [Error: ] followed by [str(e)], spoken,
    language ["English"], no download id. *)
Inductive emitted :=
  | Response (r : response)
  | ErrorResponse (e : failure).

Definition reply (text : str) (language : value) : response :=
  {| text := text; speak := true; r_language := language;
     downloadid := None; r_topic := None |}.

(** [transcribe_audio_with_groq]: [provider] is the reply of the speech
    service, its [text] field if it has one. *)
Definition transcribe_audio_with_groq (provider : outcome (option str))
    : outcome str :=
  match provider with
  | Returned text => Returned (strip (default [] text))
  | Failed msg => Failed msg
  end.

(** [v.title()] *)
Definition py_title `{Runtime} (v : value) : result str :=
  match v with
  | VStr s => Ok (uc_title s)
  | _ => Raise AttributeError
  end.

(** [v or "english"] *)
Definition or_english (v : value) : value :=
  if truthy v then v else VStr (u "english").

Definition is_english (v : value) : bool := bool_decide (v = VStr (u "english")).

(** The end of the handler: [response_text] is emitted when it is not
    empty; an exception raised on the way is reported instead. *)
Definition emit_text (response_text : result str) (response_lang : value)
    : list emitted :=
  match response_text with
  | Ok [] => []
  | Ok text => [Response (reply text response_lang)]
  | Raise e => [ErrorResponse (Exception e)]
  end.

(** A stage that collects one field: the clarification text in English
    or otherwise, the field to store into and the next stage.  The
    state is updated before the next prompt is looked up. *)
Definition collect (state : ConversationState) (parsed : parsed)
    (english other : str) (store : data → value → data) (next : stage)
    : ConversationState * result str :=
  if needs_clarification parsed then
    (state, Ok (if is_english (language_mode state) then english else other))
  else
    let state := set_data state (store (state_data state) (p_value parsed)) in
    let state := set_stage state next in
    (state, prompt ← PROMPTS next (language_mode state);
            Ok (prompt (state_data state))).

(** A fresh state that keeps the language: the two assignments that
    come before [lang.title()] is computed, and the state once the
    language field is set. *)
Definition fresh_with_mode (sid : str) (lang : value) : ConversationState :=
  set_language_mode (new_state sid) lang.

Definition fresh_with_language (sid : str) (lang : value) (title : str)
    : ConversationState :=
  set_data (fresh_with_mode sid lang)
           (set_language (state_data (new_state sid)) (VStr title)).

Definition voicemessage `{Runtime}
    (conversation_states : gmap str ConversationState)
    (sid audio : str) (provider : outcome (option str)) (gen : outcome generated)
    : gmap str ConversationState * list emitted :=
  match audio with
  | [] =>
    (conversation_states,
     [Response (reply (u "❌ No audio received.") (VStr (u "English")))])
  | _ =>
  match conversation_states !! sid with
  | None =>
    (<[sid := new_state sid]> conversation_states,
     [Response (reply (PROMPTS_english LANGUAGE_SELECTION (state_data (new_state sid)))
                      (VStr (u "English")))])
  | Some state =>
  match transcribe_audio_with_groq provider with
  | Failed msg => (conversation_states, [ErrorResponse (External msg)])
  | Returned [] =>
    (conversation_states,
     [Response (reply (if is_english (language_mode state)
                       then u "Could not understand. Please try again."
                       else u "समझ नहीं आया। कृपया फिर से प्रयास करें।")
                      (d_language (state_data state)))])
  | Returned transcript =>
  let state := add_to_history state (u "user") transcript in
  let conversation_states := <[sid := state]> conversation_states in
  match parse_user_response transcript (stage_of state) (language_mode state) with
  | Raise e => (conversation_states, [ErrorResponse (Exception e)])
  | Ok parsed =>
  if bool_decide (p_value parsed = VStr (u "RESTART")) then
    let prev_lang := or_english (language_mode state) in
    let conversation_states :=
      <[sid := fresh_with_mode sid prev_lang]> conversation_states in
    match py_title prev_lang with
    | Raise e => (conversation_states, [ErrorResponse (Exception e)])
    | Ok title =>
      (<[sid := fresh_with_language sid prev_lang title]> conversation_states,
       [Response (reply (if is_english prev_lang
                         then u "Starting over..."
                         else u "फिर से शुरू कर रहे हैं...")
                        (VStr title));
        Response (reply (PROMPTS_english LANGUAGE_SELECTION
                           (state_data (new_state sid)))
                        (VStr (u "English")))])
    end
  else
    let response_lang := d_language (state_data state) in
    match stage_of state with
    | LANGUAGE_SELECTION =>
      if needs_clarification parsed then
        (conversation_states,
         [Response (reply (PROMPTS_english LANGUAGE_SELECTION (state_data state))
                          (VStr (u "English")))])
      else
        let state := set_language_mode state (p_value parsed) in
        match py_title (language_mode state) with
        | Raise e =>
          (<[sid := state]> conversation_states, [ErrorResponse (Exception e)])
        | Ok title =>
          let state := set_data state (set_language (state_data state) (VStr title)) in
          let state := set_stage state TOPIC_COLLECTION in
          (<[sid := state]> conversation_states,
           emit_text (prompt ← PROMPTS TOPIC_COLLECTION (language_mode state);
                      Ok (prompt (state_data state)))
                     (d_language (state_data state)))
        end
    | CONFIRMATION =>
      if needs_clarification parsed then
        (conversation_states,
         emit_text (Ok (if is_english (language_mode state)
                        then u "Please say Yes or No."
                        else u "कृपया हाँ या नहीं कहें।"))
                   response_lang)
      else if bool_decide (p_value parsed = VBool false) then
        let lang := or_english (language_mode state) in
        let conversation_states :=
          <[sid := fresh_with_mode sid lang]> conversation_states in
        match py_title lang with
        | Raise e => (conversation_states, [ErrorResponse (Exception e)])
        | Ok title =>
          let fresh := set_stage (fresh_with_language sid lang title) TOPIC_COLLECTION in
          (<[sid := fresh]> conversation_states,
           emit_text (prompt ← PROMPTS TOPIC_COLLECTION lang;
                      Ok (prompt (state_data fresh)))
                     response_lang)
        end
      else
        let d := state_data state in
        let generating :=
          Response (reply (u "Generating your complete lesson plan with worksheets. Please wait.")
                          (d_language d)) in
        match gen with
        | Failed msg =>
          (conversation_states, [generating; ErrorResponse (External msg)])
        | Returned g =>
          let success_msg :=
            if bool_decide (language_mode state = VStr (u "hindi")) then
              u "पाठ योजना तैयार है! विषय: "
                ++ py_str (d_topic d)
                ++ u "। कक्षा: "
                ++ py_str (d_class_level d)
                ++ u "। विषय: "
                ++ py_str (d_subject d)
                ++ u "। "
                ++ decimal (num_worksheets g)
                ++ u " वर्कशीट और "
                ++ decimal (num_yt_links g)
                ++ u " YouTube लिंक तैयार हैं। अब आप डाउनलोड कर सकते हैं।"
            else
              u "Lesson plan ready! Topic: "
                ++ py_str (d_topic d)
                ++ u ". Class: "
                ++ py_str (d_class_level d)
                ++ u ". Subject: "
                ++ py_str (d_subject d)
                ++ u ". "
                ++ decimal (num_worksheets g)
                ++ u " worksheets and "
                ++ decimal (num_yt_links g)
                ++ u " YouTube links are ready. You can now download the complete lesson plan with all worksheets." in
          (delete sid conversation_states,
           [generating;
            Response {| text := success_msg; speak := true;
                        r_language := d_language d;
                        downloadid := Some (lesson_id g);
                        r_topic := Some (d_topic d) |}])
        end
    | TOPIC_COLLECTION =>
      let '(state, response_text) :=
        collect state parsed
          (u "Please tell me the lesson topic clearly.")
          (u "कृपया विषय स्पष्ट रूप से बताएं।")
          set_topic SUBJECT_COLLECTION in
      (<[sid := state]> conversation_states, emit_text response_text response_lang)
    | SUBJECT_COLLECTION =>
      let '(state, response_text) :=
        collect state parsed
          (u "Please specify the subject name.")
          (u "कृपया विषय का नाम बताएं।")
          set_subject CLASS_COLLECTION in
      (<[sid := state]> conversation_states, emit_text response_text response_lang)
    | CLASS_COLLECTION =>
      let '(state, response_text) :=
        collect state parsed
          (u "Please say a class number between 1 and 12.")
          (u "कृपया 1 से 12 के बीच कक्षा संख्या बताएं।")
          set_class_level SESSION_DURATION in
      (<[sid := state]> conversation_states, emit_text response_text response_lang)
    | SESSION_DURATION =>
      let '(state, response_text) :=
        collect state parsed
          (u "Please say duration between 15 and 90 minutes.")
          (u "कृपया 15 से 90 मिनट के बीच अवधि बताएं।")
          set_session_duration NUM_SESSIONS in
      (<[sid := state]> conversation_states, emit_text response_text response_lang)
    | NUM_SESSIONS =>
      let '(state, response_text) :=
        collect state parsed
          (u "Please say number of sessions between 1 and 10.")
          (u "कृपया 1 से 10 के बीच सत्रों की संख्या बताएं।")
          set_num_sessions CONFIRMATION in
      (<[sid := state]> conversation_states, emit_text response_text response_lang)
    end
  end
  end
  end
  end.


(** ** The one-shot text request: the [textmessage] handler *)

(** A Python [float]: the number [m * 2^e], an infinity or a NaN. *)
Inductive pyfloat :=
  | FFinite (m e : Z)
  | FInf (negative : bool)
  | FNan.

(** The payload of the event, as the JSON decoder delivers it. *)
#[warnings="-register-all"] Inductive json :=
  | JNull
  | JBool (b : bool)
  | JInt (z : Z)
  | JFloat (f : pyfloat)
  | JStr (s : str)
  | JArray (items : list json)
  | JObject (fields : gmap str json).

(** The truth value of an object, as [or] and [not] test it. *)
Definition json_truthy (x : json) : bool :=
  match x with
  | JNull => false
  | JBool b => b
  | JInt z => negb (z =? 0)
  | JFloat (FFinite m _) => negb (m =? 0)
  | JFloat _ => true
  | JStr [] => false
  | JStr _ => true
  | JArray [] => false
  | JArray _ => true
  | JObject fields => negb (size fields =? 0)%nat
  end.

(** [x or default]. *)
Definition py_or (x default : json) : json :=
  if json_truthy x then x else default.

(** [data.get(key)]: [None] for a key the object lacks; only an object
    has the method. *)
Definition py_get (data : json) (key : str) : result json :=
  match data with
  | JObject fields => Ok (default JNull (fields !! key))
  | _ => Raise AttributeError
  end.

(** [x.strip()]: only a string has the method. *)
Definition py_strip (x : json) : result str :=
  match x with
  | JStr s => Ok (strip s)
  | _ => Raise AttributeError
  end.

(** The white space [int()] skips around a number, once the text is
    ASCII. *)
Definition c_isspace (c : N) : bool := ((9 <=? c) && (c <=? 13) || (c =? 32))%N.

(** What [int()] makes of a character before it reads the number: an
    ASCII character stays, other white space becomes a space, another
    decimal digit its ASCII digit and anything else a question mark. *)
Definition to_ascii `{Runtime} (c : N) : N :=
  if (c <? 128)%N then c
  else if py_isspace c then 32%N
  else match uc_decimal c with
       | Some d => (48 + Z.to_N d)%N
       | None => 63%N
       end.

(** The digits of the number: ASCII digits, with single underscores
    between them.  [after_underscore] also holds at the start, where a
    digit must stand. *)
Fixpoint read_digits (s : str) (after_underscore : bool) (digits : list Z)
    : option (list Z * str) :=
  match s with
  | c :: r =>
    if ((48 <=? c) && (c <=? 57))%N
    then read_digits r false (digits ++ [Z.of_N c - 48])
    else if (c =? 95)%N
    then (if after_underscore then None else read_digits r true digits)
    else (if after_underscore then None else Some (digits, s))
  | [] => if after_underscore then None else Some (digits, [])
  end.

(** [int(s)] for a string: white space, a sign, the digits, white
    space.  [ValueError] for any other text and for more digits than
    the runtime allows. *)
Definition int_of_str `{Runtime} (s : str) : result Z :=
  let s := drop_while c_isspace (to_ascii <$> s) in
  let '(negative, s) :=
    match s with
    | c :: r => if (c =? 43)%N then (false, r)
                else if (c =? 45)%N then (true, r)
                else (false, s)
    | [] => (false, s)
    end in
  match read_digits s true [] with
  | Some (digits, rest) =>
    if negb (int_max_str_digits =? 0)%N
       && (int_max_str_digits <? N.of_nat (length digits))%N
    then Raise ValueError
    else if forallb c_isspace rest
    then let n := foldl (λ n d, 10 * n + d) 0 digits in
         Ok (if negative then - n else n)
    else Raise ValueError
  | None => Raise ValueError
  end.

(** [int(f)] for a float: the number without its fraction. *)
Definition int_of_float (f : pyfloat) : result Z :=
  match f with
  | FFinite m e => Ok (if 0 <=? e then m * 2 ^ e else m ÷ 2 ^ (- e))
  | FInf _ => Raise OverflowError
  | FNan => Raise ValueError
  end.

(** [int(x)]. *)
Definition py_int `{Runtime} (x : json) : result Z :=
  match x with
  | JBool b => Ok (if b then 1 else 0)
  | JInt z => Ok z
  | JFloat f => int_of_float f
  | JStr s => int_of_str s
  | JNull | JArray _ | JObject _ => Raise TypeError
  end.

(** [(data.get(key) or default).strip()] and
    [int(data.get(key) or default)]. *)
Definition text_field (data : json) (key default : str) : result str :=
  x ← py_get data key;
  py_strip (py_or x (JStr default)).

Definition count_field `{Runtime} (data : json) (key : str) (default : Z)
    : result Z :=
  x ← py_get data key;
  py_int (py_or x (JInt default)).

(** What the handler does, in order: the events it emits and its call
    of the generation step, whose outcome is an input. *)
Inductive action :=
  | Emit (r : response)
  | Generate (topic subject class_level language : str)
             (session_duration num_sessions : Z).

Definition notice (text language : str) : response :=
  {| text := text; speak := false; r_language := VStr language;
     downloadid := None; r_topic := None |}.

(** The handler reads its fields before its first event and outside
    its [try]: an exception there ends it with no event at all. *)
Definition textmessage `{Runtime} (data : json) (gen : outcome generated)
    : result (list action) :=
  topic ← text_field data (u "topic") (u "Lesson Topic");
  subject ← text_field data (u "subject") (u "Mathematics");
  class_level ← text_field data (u "classlevel") (u "Class 2");
  language ← text_field data (u "language") (u "English");
  raw_content ← text_field data (u "content") [];
  session_duration ← count_field data (u "sessionduration") 40;
  num_sessions ← count_field data (u "numsessions") 4;
  let session_duration := Z.max 15 (Z.min 90 session_duration) in
  let num_sessions := Z.max 1 (Z.min 10 num_sessions) in
  Ok (match topic, raw_content with
  | [], [] =>
    [Emit (notice (u "❌ Please enter a topic or lesson content.") language)]
  | _, _ =>
    let total_time := session_duration * num_sessions in
    Emit (notice (u "📄 Generating lesson plan with worksheets...
⏱️ "
         ++ decimal num_sessions
         ++ u " sessions × "
         ++ decimal session_duration
         ++ u " mins = "
         ++ decimal total_time
         ++ u " mins total")
                 language)
    :: Generate topic subject class_level language session_duration num_sessions
    :: match gen with
       | Returned g =>
         let worksheet_summary :=
           concat ((λ title, u "
  📋 " ++ title) <$> worksheet_titles g) in
         [Emit {| text :=
                    u "✅ LESSON PLAN WITH WORKSHEETS READY!

📚 Topic: "
           ++ topic
           ++ u "
🎓 Class: "
           ++ class_level
           ++ u "
📖 Subject: "
           ++ subject
           ++ u "
🌐 Language: "
           ++ language
           ++ u "

⏱️ Duration: "
           ++ decimal num_sessions
           ++ u " sessions × "
           ++ decimal session_duration
           ++ u " mins = "
           ++ decimal total_time
           ++ u " mins total

📝 Worksheets Included: "
           ++ decimal (num_worksheets g)
           ++ worksheet_summary
           ++ u "

📺 YouTube Links: "
           ++ decimal (num_yt_links g)
           ++ u "

📥 Download DOCX/PDF now to get the complete lesson plan with all worksheets!";
                  speak := false; r_language := VStr language;
                  downloadid := Some (lesson_id g);
                  r_topic := Some (VStr topic) |}]
       | Failed msg =>
         [Emit (notice (u "❌ Generation failed: " ++ msg) language)]
       end
  end).

(** A request without topic and without content. *)
Definition empty_request : json := JObject ∅.

(** A field the handler can read as text, and one it can read as a
    number: a value that counts as missing, or one that [strip] and
    [int] accept. *)
Definition readable_text (x : json) : Prop :=
  json_truthy x = false ∨ ∃ s, x = JStr s.

Definition readable_count `{Runtime} (x : json) : Prop :=
  json_truthy x = false ∨ ∃ z, py_int x = Ok z.

(** The regular chunk groups of the fallback path: group [k] holds [c]
    pieces, from piece [k * c] on. *)
Definition regular_group (chunks : list str) (c k : nat) : list str :=
  drop (k * c) (take (k * c + c) chunks).

(** The blocks of the marker path: the texts that follow the markers of
    the first style that splits, none on the fallback path. *)
Fixpoint block_contents (sections : list str) : list str :=
  match sections with
  | _ :: content :: rest => content :: block_contents rest
  | _ => []
  end.

Definition marker_blocks `{Runtime} (worksheet_text : str) : list str :=
  match split_by_markers patterns worksheet_text None with
  | Some (first :: rest) => block_contents rest
  | _ => []
  end.

(** ** Links: [quote_plus], [generate_cbse_youtube_links],
    [generate_ncert_web_resources] *)

(** [s.replace(old, new)] for a non-empty [old]. *)
Definition py_replace (old new s : str) : str := join new (split old s).

(** A surrogate: a code point a [str] can hold and UTF-8 cannot. *)
Definition is_surrogate (c : N) : bool := ((55296 <=? c) && (c <=? 57343))%N.

(** [s.encode("utf-8")], as bytes. *)
Definition utf8_char (c : N) : result (list N) :=
  if (c <? 128)%N then Ok [c]
  else if (c <? 2048)%N then Ok [192 + c / 64; 128 + c mod 64]%N
  else if is_surrogate c then Raise UnicodeEncodeError
  else if (c <? 65536)%N
  then Ok [224 + c / 4096; 128 + (c / 64) mod 64; 128 + c mod 64]%N
  else Ok [240 + c / 262144; 128 + (c / 4096) mod 64;
           128 + (c / 64) mod 64; 128 + c mod 64]%N.

Fixpoint utf8_encode (s : str) : result (list N) :=
  match s with
  | [] => Ok []
  | c :: r =>
    bytes ← utf8_char c;
    rest ← utf8_encode r;
    Ok (bytes ++ rest)
  end.

(** The bytes [quote] never escapes: letters, digits and [_.-~]. *)
Definition always_safe (b : N) : bool :=
  ascii_upper b || ascii_lower b || ((48 <=? b) && (b <=? 57))%N
  || (b =? 95)%N || (b =? 46)%N || (b =? 45)%N || (b =? 126)%N.

Definition hex_digit (n : N) : N := if (n <? 10)%N then (48 + n)%N else (55 + n)%N.

(** A safe byte stays, a space becomes [+], any other byte [%XX]. *)
Definition quote_byte (b : N) : str :=
  if always_safe b then [b]
  else if (b =? 32)%N then [43%N]
  else [37%N; hex_digit (b / 16); hex_digit (b mod 16)].

(** [urllib.parse.quote_plus(s)]. *)
Definition quote_plus (s : str) : result str :=
  bytes ← utf8_encode s;
  Ok (concat (quote_byte <$> bytes)).

Record youtube_link := {
  yt_title : str;
  yt_url : str;
  yt_description : str;
  yt_channel : str;
}.

Record web_resource := {
  wr_title : str;
  wr_url : str;
  wr_description : str;
  wr_type : str;
}.

Definition generate_cbse_youtube_links (topic subject class_level : str)
    : result (list youtube_link) :=
  let class_num := strip (py_replace (u "Class ") [] class_level) in
  let topic_clean := strip topic in
  let subject_clean := strip subject in
  cbse_search ← quote_plus (topic_clean ++ u " class " ++ class_num ++ u " "
                            ++ subject_clean);
  let cbse := {|
    yt_title := topic_clean ++ u " - CBSE Official";
    yt_url := u "https://www.youtube.com/@cbabordsecondaryedu/search?query="
              ++ cbse_search;
    yt_description := u "Official CBSE videos for '" ++ topic_clean ++ u "' Class "
                      ++ class_num;
    yt_channel := u "CBSE Official" |} in
  ncert_search ← quote_plus (topic_clean ++ u " " ++ subject_clean ++ u " class "
                             ++ class_num);
  let ncert := {|
    yt_title := topic_clean ++ u " - NCERT Official";
    yt_url := u "https://www.youtube.com/@NCERTOfficial/search?query="
              ++ ncert_search;
    yt_description := u "NCERT official videos for '" ++ topic_clean ++ u "'";
    yt_channel := u "NCERT Official" |} in
  diksha_search ← quote_plus (u "diksha " ++ topic_clean ++ u " class " ++ class_num
                              ++ u " " ++ subject_clean ++ u " CBSE");
  let diksha := {|
    yt_title := topic_clean ++ u " - DIKSHA";
    yt_url := u "https://www.youtube.com/results?search_query=" ++ diksha_search;
    yt_description := u "DIKSHA educational content for '" ++ topic_clean
                      ++ u "' Class " ++ class_num;
    yt_channel := u "DIKSHA" |} in
  swayam_search ← quote_plus (u "swayam prabha " ++ topic_clean ++ u " "
                              ++ subject_clean ++ u " class " ++ class_num);
  let swayam := {|
    yt_title := topic_clean ++ u " - Swayam Prabha";
    yt_url := u "https://www.youtube.com/results?search_query=" ++ swayam_search;
    yt_description := u "Swayam Prabha educational videos for '" ++ topic_clean
                      ++ u "'";
    yt_channel := u "Swayam Prabha" |} in
  Ok [cbse; ncert; diksha; swayam].

Definition generate_ncert_web_resources (topic subject class_level : str)
    : result (list web_resource) :=
  let class_num := strip (py_replace (u "Class ") [] class_level) in
  topic_encoded ← quote_plus topic;
  Ok [ {| wr_title := u "NCERT Textbook - Class " ++ class_num ++ u " " ++ subject;
          wr_url := u "https://ncert.nic.in/textbook.php";
          wr_description := u "Official NCERT textbook for Class " ++ class_num
                            ++ u " " ++ subject;
          wr_type := u "NCERT Textbook" |};
       {| wr_title := u "e-Pathshala - Digital Textbooks";
          wr_url := u "https://epathshala.nic.in/";
          wr_description := u "Digital NCERT textbooks and resources for "
                            ++ subject;
          wr_type := u "e-Pathshala" |};
       {| wr_title := u "DIKSHA - " ++ topic;
          wr_url := u "https://diksha.gov.in/explore?searchQuery=" ++ topic_encoded
                    ++ u "&board=CBSE&gradeLevel=Class%20" ++ class_num;
          wr_description := u "Interactive learning content for '" ++ topic
                            ++ u "' on DIKSHA";
          wr_type := u "DIKSHA Portal" |};
       {| wr_title := u "NROER - " ++ topic;
          wr_url := u "https://nroer.gov.in/home/search/?search_text="
                    ++ topic_encoded;
          wr_description := u "Open educational resources for '" ++ topic ++ u "'";
          wr_type := u "NROER" |} ].

(** ** Lesson assembly: [groq_chat], [generate_worksheets],
    [build_lesson_data_from_formatted] *)

(** [groq_chat]: the request is answered by the service.  [completion]
    is the outcome of the call: the exception of the client, or the
    message contents of the choices of the completion it returns,
    [None] for a message without content. *)
Definition groq_chat (completion : outcome (list (option str))) : result str :=
  match completion with
  | Returned (content :: _) => Ok (strip (default [] content))
  | Returned [] => Raise IndexError
  | Failed msg => Raise (ServiceError msg)
  end.

(** [generate_worksheets]: the prompt, which names the number of
    worksheets, is answered by the service and the answer is parsed. *)
Definition generate_worksheets `{Runtime} (topic : str) (num_sessions : Z)
    (completion : outcome (list (option str))) : result (list worksheet) :=
  _ ← py_str_int num_sessions;
  worksheet_text ← groq_chat completion;
  parse_worksheets worksheet_text topic num_sessions.

(** A session of the lesson: the record of the planner and, once a
    worksheet is linked to it, the entry [worksheet_data]. *)
Record lesson_session := {
  ls_session : session;
  ls_worksheet_data : option worksheet;
}.

Definition set_worksheets (s : session) (title : str) : session :=
  {| sess_number := sess_number s; sess_duration := sess_duration s;
     sess_competency := sess_competency s; sess_elo := sess_elo s;
     sess_activities := sess_activities s;
     sess_resources_tlm := sess_resources_tlm s;
     sess_e_resources := sess_e_resources s;
     sess_worksheets := title;
     sess_assessment := sess_assessment s |}.

(** The loop that links worksheet [i] to session [i]. *)
Definition link_worksheets (sessions : list session) (worksheets : list worksheet)
    : list lesson_session :=
  imap (λ i session,
          match worksheets !! i with
          | Some w => {| ls_session := set_worksheets session (ws_title w);
                         ls_worksheet_data := Some w |}
          | None => {| ls_session := session; ls_worksheet_data := None |}
          end) sessions.

Record lesson_header := {
  h_class : str;
  h_subject : str;
  h_lesson : str;
  h_periods : str;
  h_duration : str;
  h_total_duration : str;
  h_language : str;
}.

Record lesson_data := {
  ld_header : lesson_header;
  ld_sessions : list lesson_session;
  ld_formatted_text : str;
  ld_worksheets : list worksheet;
  ld_youtube_links : list youtube_link;
  ld_web_resources : list web_resource;
}.

Definition build_lesson_data_from_formatted `{Runtime}
    (topic subject class_level language formatted : str)
    (session_duration num_sessions : Z)
    (completion : outcome (list (option str)))
    : result lesson_data :=
  let class_num := strip (py_replace (u "Class ") [] class_level) in
  worksheets ← generate_worksheets topic num_sessions completion;
  youtube_links ← generate_cbse_youtube_links topic subject class_level;
  web_resources ← generate_ncert_web_resources topic subject class_level;
  sessions ← parse_llm_to_sessions formatted session_duration num_sessions;
  let sessions := link_worksheets sessions worksheets in
  periods ← py_str_int num_sessions;
  duration ← py_str_int session_duration;
  total_duration ← py_str_int (session_duration * num_sessions);
  Ok {| ld_header :=
          {| h_class := class_num;
             h_subject := subject;
             h_lesson := topic;
             h_periods := periods;
             h_duration := duration ++ u " mins";
             h_total_duration := total_duration ++ u " mins";
             h_language := language |};
        ld_sessions := sessions;
        ld_formatted_text := formatted;
        ld_worksheets := worksheets;
        ld_youtube_links := youtube_links;
        ld_web_resources := web_resources |}.

(** ** The [disconnect] handler *)

(** [if sid in conversation_states: del conversation_states[sid]] *)
Definition disconnect (conversation_states : gmap str ConversationState) (sid : str)
    : gmap str ConversationState :=
  match conversation_states !! sid with
  | Some _ => delete sid conversation_states
  | None => conversation_states
  end.

(** ** The preview of [format_lesson_plan] (mcp_integration.py)

    The entry [formatted_text] of the dictionary: the text of the
    stored lesson, [None] for a null column. *)
Definition format_lesson_plan_formatted_text (formatted_text : option str)
    : option str :=
  match formatted_text with
  | Some t =>
    if bool_decide (t ≠ []) && bool_decide (500 < length t)%nat
    then Some (take 500 t ++ u "...")
    else Some t
  | None => None
  end.

(** ** Notions used in the statements *)

(** The number [z] has no more digits than the runtime lets [str] and
    f-strings write. *)
Definition within_digit_limit `{Runtime} (z : Z) : Prop :=
  int_max_str_digits = 0%N
  ∨ (N.of_nat (length (decimal (Z.abs z))) ≤ int_max_str_digits)%N.

(** The text holds no surrogate: UTF-8 can encode it. *)
Definition encodable (s : str) : bool := forallb (λ c, negb (is_surrogate c)) s.

(** [sub] occurs in [s] at position [k]. *)
Definition occurs_at (sub s : str) (k : nat) : Prop :=
  is_Some (strip_prefix sub (drop k s)).

(** The two counts of a conversation are integers within the limits of
    the dialogue. *)
Definition counts_in_range (state : ConversationState) : Prop :=
  ∃ duration num,
    d_session_duration (state_data state) = VInt duration ∧ 15 ≤ duration ≤ 90
    ∧ d_num_sessions (state_data state) = VInt num ∧ 1 ≤ num ≤ 10.

(** ** Proof automation for the handler *)

(** One branching of [voicemessage]. *)
Ltac handler_step :=
  match goal with
  | |- context [match transcribe_audio_with_groq ?p with _ => _ end] =>
    destruct (transcribe_audio_with_groq p) as [[|? ?]|?] eqn:?
  | |- context [match parse_user_response ?t ?s ?m with _ => _ end] =>
    destruct (parse_user_response t s m) as [?|?] eqn:?
  | |- context [bool_decide (p_value ?p = ?v)] =>
    destruct (bool_decide_reflect (p_value p = v))
  | |- context [match stage_of ?s with _ => _ end] =>
    destruct (stage_of s) eqn:?
  | |- context [needs_clarification ?p] =>
    destruct (needs_clarification p) eqn:?
  | |- context [match py_title ?v with _ => _ end] =>
    destruct (py_title v) as [?|?] eqn:?
  | |- context [match ?g with Returned _ => _ | Failed _ => _ end] =>
    destruct g as [?|?]
  end.

Ltac handler_paths :=
  cbn [stage_of language_mode state_data add_to_history];
  repeat (handler_step; cbn [stage_of language_mode state_data add_to_history]).

(** No event of the list carries a download id. *)
Definition no_download (events : list emitted) : Prop :=
  Forall (λ e, match e with
               | Response r => downloadid r = None
               | ErrorResponse _ => True
               end) events.

(** The fields [textmessage] reads, in order. *)
Ltac read_fields data :=
  unfold textmessage;
  destruct (text_field data (u "topic") (u "Lesson Topic"))
    as [rtopic|?] eqn:Etopic; cbn [mbind result_bind]; [|try done];
  destruct (text_field data (u "subject") (u "Mathematics"))
    as [rsubject|?] eqn:Esubject; cbn [mbind result_bind]; [|try done];
  destruct (text_field data (u "classlevel") (u "Class 2"))
    as [rclass|?] eqn:Eclass; cbn [mbind result_bind]; [|try done];
  destruct (text_field data (u "language") (u "English"))
    as [rlanguage|?] eqn:Elanguage; cbn [mbind result_bind]; [|try done];
  destruct (text_field data (u "content") [])
    as [rcontent|?] eqn:Econtent; cbn [mbind result_bind]; [|try done];
  destruct (count_field data (u "sessionduration") 40)
    as [dur|?] eqn:Edur; cbn [mbind result_bind]; [|try done];
  destruct (count_field data (u "numsessions") 4)
    as [num|?] eqn:Enum; cbn [mbind result_bind]; [|try done].

(** * Theorems *)

(** ** Round-robin distribution *)

Section SplitIntoN.

Variable n : Z.
Hypothesis n_pos : 1 ≤ n.

Lemma py_range_length : length (py_range n) = Z.to_nat n.
Proof. unfold py_range. by rewrite length_fmap, length_seq. Qed.

Lemma py_index_pos_mod {A} (l : list A) (idx : Z) :
  length l = Z.to_nat n → 0 ≤ idx →
  py_index_pos l (idx mod n) = Some (Z.to_nat (idx mod n)).
Proof.
  intros Hl Hidx. unfold py_index_pos.
  pose proof (Z.mod_pos_bound idx n ltac:(lia)) as [H0 H1].
  rewrite Hl, Z2Nat.id by lia.
  destruct (Z.leb_spec 0 (idx mod n)); [|lia].
  destruct (Z.ltb_spec (idx mod n) n); [done|lia].
Qed.

(** Loop invariant of the filling loop: every bucket is extended by the
    remaining items of its residue class. *)
Lemma fill_buckets_spec (items : list str) :
  ∀ (k : nat) (buckets : list (list str)),
    length buckets = Z.to_nat n →
    ∃ bs, fill_buckets n (Z.of_nat k) items buckets = Ok bs
      ∧ length bs = Z.to_nat n
      ∧ ∀ j b, buckets !! j = Some b →
          bs !! j = Some (b ++ (snd <$>
            filter (λ p : nat * str, Z.of_nat p.1 mod n = Z.of_nat j)
                   (imap (λ i x, ((k + i)%nat, x)) items))).
Proof.
  induction items as [|x rest IH]; intros k buckets Hlen.
  - exists buckets. split_and!; [done..|].
    intros j b Hj. cbn. by rewrite app_nil_r.
  - cbn [fill_buckets].
    destruct (Z.eqb_spec n 0); [lia|].
    rewrite py_index_pos_mod by lia.
    replace (Z.of_nat k + 1) with (Z.of_nat (S k)) by lia.
    set (bk := Z.to_nat (Z.of_nat k mod n)).
    destruct (IH (S k) (alter (λ b, b ++ [x]) bk buckets)) as (bs & Hbs & Hl & Hj).
    { by rewrite length_alter. }
    exists bs. split_and!; [done..|].
    intros j b Hb. cbn [imap]. rewrite filter_cons. cbn [fst].
    rewrite Nat.add_0_r.
    rewrite (imap_ext _ (λ i y, ((S k + i)%nat, y)) rest)
      by (intros; cbn; f_equal; lia).
    pose proof (Z.mod_pos_bound (Z.of_nat k) n ltac:(lia)) as Hbound.
    destruct (decide (bk = j)) as [Heq|Hne].
    + subst j. rewrite (Hj bk (b ++ [x])).
      2:{ rewrite list_lookup_alter_eq, Hb. done. }
      rewrite decide_True by (unfold bk; lia).
      cbn. by rewrite <- app_assoc.
    + rewrite (Hj j b) by (by rewrite list_lookup_alter_ne).
      rewrite decide_False; [done|]. unfold bk in Hne. lia.
Qed.

Lemma split_into_n_buckets (items : list str) :
  ∃ buckets, _split_into_n items n = Ok buckets
    ∧ length buckets = Z.to_nat n
    ∧ ∀ j, (j < Z.to_nat n)%nat →
        buckets !! j = Some (or_dash (residue_class items n j)).
Proof.
  destruct items as [|x rest].
  - eexists. split_and!; [done|by rewrite length_fmap, py_range_length|].
    intros j Hj. rewrite list_lookup_fmap.
    destruct (lookup_lt_is_Some_2 (py_range n) j) as [z ->]; [|done].
    by rewrite py_range_length.
  - destruct (fill_buckets_spec (x :: rest) 0 ((λ _ : Z, []) <$> py_range n))
      as (bs & Hbs & Hl & Hj).
    { by rewrite length_fmap, py_range_length. }
    exists (or_dash <$> bs). split_and!.
    + unfold _split_into_n.
      change (Z.of_nat 0) with 0 in Hbs. by rewrite Hbs.
    + by rewrite length_fmap.
    + intros j Hlt. rewrite list_lookup_fmap.
      rewrite (Hj j []); [done|].
      rewrite list_lookup_fmap.
      destruct (lookup_lt_is_Some_2 (py_range n) j) as [z ->]; [|done].
      by rewrite py_range_length.
Qed.

End SplitIntoN.

(** C6. For every item list and every [n >= 1], [_split_into_n] returns
    exactly [n] buckets; bucket [j] holds the items whose index is [j]
    modulo [n], in input order, and an empty bucket is replaced by
    [["-"]].  In particular
    [_split_into_n(["a","b","c","d","e"], 4) = [["a","e"],["b"],["c"],["d"]]]
    and [_split_into_n([], 3) = [["-"],["-"],["-"]]]. *)
Theorem split_into_n_round_robin (items : list str) (n : Z) :
  1 ≤ n →
  (∃ buckets, _split_into_n items n = Ok buckets
     ∧ length buckets = Z.to_nat n
     ∧ ∀ j, (j < Z.to_nat n)%nat →
         buckets !! j = Some (or_dash (residue_class items n j)))
  ∧ _split_into_n [u "a"; u "b"; u "c"; u "d"; u "e"] 4
    = Ok [[u "a"; u "e"]; [u "b"]; [u "c"]; [u "d"]]
  ∧ _split_into_n [] 3 = Ok [[u "-"]; [u "-"]; [u "-"]].
Proof.
  intros Hn. split; [by apply split_into_n_buckets|].
  split; reflexivity.
Qed.

Lemma split_into_n_round_robin_witness :
  1 ≤ 2 ∧ ∃ buckets, _split_into_n [u "x"; u "y"; u "z"] 2 = Ok buckets
            ∧ length buckets = 2%nat
            ∧ buckets !! 0%nat = Some [u "x"; u "z"]
            ∧ buckets !! 1%nat = Some [u "y"].
Proof.
  split; [lia|].
  destruct (split_into_n_round_robin [u "x"; u "y"; u "z"] 2 ltac:(lia))
    as [(bs & Hbs & Hlen & Hj) _].
  exists bs. split_and!; [done|done|..].
  - rewrite (Hj 0%nat) by (cbn; lia). reflexivity.
  - rewrite (Hj 1%nat) by (cbn; lia). reflexivity.
Defined.

(** ** Session planner *)

Lemma item_range {A} (xs : list A) (i : Z) :
  0 ≤ i < Z.of_nat (length xs) →
  ∃ x, item xs i = Ok x ∧ xs !! Z.to_nat i = Some x.
Proof.
  intros Hi. unfold item, py_index_pos.
  destruct (Z.leb_spec 0 i); [|lia].
  destruct (Z.ltb_spec i (Z.of_nat (length xs))); [|lia]. cbn.
  destruct (lookup_lt_is_Some_2 xs (Z.to_nat i)) as [x Hx]; [lia|].
  rewrite Hx. eauto.
Qed.

(** Rendering succeeds exactly within the limit, and then gives the
    digits. *)
Lemma py_str_int_Ok `{Runtime} (z : Z) :
  within_digit_limit z ↔ py_str_int z = Ok (decimal z).
Proof.
  unfold within_digit_limit, py_str_int.
  destruct (N.eqb_spec int_max_str_digits 0) as [Hz|Hnz]; cbn [negb andb].
  - split; [done|by left].
  - destruct (N.ltb_spec int_max_str_digits
                (N.of_nat (length (decimal (Z.abs z))))) as [Hlt|Hge].
    + split; [intros [?|?]; [done|lia]|done].
    + split; [done|by right].
Qed.

Lemma py_str_int_Raise `{Runtime} (z : Z) (e : exn) :
  py_str_int z = Raise e → e = ValueError ∧ ¬ within_digit_limit z.
Proof.
  intros He. split.
  - unfold py_str_int in He. destruct (_ && _); by simplify_eq.
  - intros Hok%py_str_int_Ok. congruence.
Qed.

Lemma build_sessions_spec `{Runtime} (dur : Z) (obj out hw : list str)
    (act_n res_n assess_n : list (list str)) (indices : list Z) :
  within_digit_limit dur →
  Forall (λ i, 0 ≤ i < Z.of_nat (length act_n)) indices →
  length res_n = length act_n → length assess_n = length act_n →
  ∃ sessions,
    build_sessions dur obj out hw act_n res_n assess_n indices = Ok sessions
    ∧ sess_number <$> sessions = (λ i, i + 1) <$> indices
    ∧ Forall2 (λ i s, act_n !! Z.to_nat i = Some (sess_activities s))
              indices sessions.
Proof.
  intros Hdur%py_str_int_Ok Hidx Hres Hassess.
  induction Hidx as [|i rest Hi _ IH].
  - exists []. by split_and!.
  - destruct IH as (ss & Hss & Hnum & Hact).
    destruct (item_range act_n i Hi) as (a & Ha & Hla).
    destruct (item_range res_n i ltac:(lia)) as (r & Hr & _).
    destruct (item_range assess_n i ltac:(lia)) as (q & Hq & _).
    cbn [build_sessions]. rewrite Hdur, Ha, Hr, Hq. cbn [mbind result_bind].
    rewrite Hss. eexists. split_and!; [reflexivity|..].
    + rewrite !fmap_cons. cbn [sess_number]. by rewrite Hnum.
    + by constructor.
Qed.

Lemma py_range_bounds (n : Z) :
  Forall (λ i, 0 ≤ i < Z.of_nat (Z.to_nat n)) (py_range n).
Proof.
  unfold py_range. apply Forall_fmap, Forall_forall.
  intros k Hk%elem_of_seq. cbn. lia.
Qed.

Lemma or_dash_nonempty (b : list str) : or_dash b ≠ [].
Proof. by destruct b. Qed.

(** C3. For every formatted text, every [num_sessions >= 1] and every
    session duration whose digits the runtime lets the f-string of the
    duration label write, [parse_llm_to_sessions] returns exactly
    [num_sessions] session records, numbered [1..num_sessions] in
    order; every record's activities list is non-empty, and it is the
    placeholder [["-"]] when the ACTIVITIES section yields no item.
    The bound on the duration is needed: beyond it the label cannot be
    written and the function raises [ValueError]. *)
Theorem parse_llm_to_sessions_count `{Runtime}
    (formatted_text : str) (session_duration num_sessions : Z) :
  1 ≤ num_sessions →
  (within_digit_limit session_duration →
   ∃ sessions,
     parse_llm_to_sessions formatted_text session_duration num_sessions = Ok sessions
     ∧ length sessions = Z.to_nat num_sessions
     ∧ sess_number <$> sessions = (λ i, i + 1) <$> py_range num_sessions
     ∧ Forall (λ s, sess_activities s ≠ []) sessions
     ∧ (_lines_to_list (_extract_section formatted_text (u "ACTIVITIES")) = [] →
        Forall (λ s, sess_activities s = [u "-"]) sessions))
  ∧ (¬ within_digit_limit session_duration →
     parse_llm_to_sessions formatted_text session_duration num_sessions
     = Raise ValueError).
Proof.
  intros Hn. unfold parse_llm_to_sessions.
  set (act_list := _lines_to_list (_extract_section formatted_text (u "ACTIVITIES"))).
  destruct (split_into_n_buckets num_sessions Hn act_list) as (act_n & -> & La & Ha).
  destruct (split_into_n_buckets num_sessions Hn
    (_lines_to_list (_extract_section formatted_text (u "TEACHING AIDS/RESOURCES"))))
    as (res_n & -> & Lr & _).
  destruct (split_into_n_buckets num_sessions Hn
    (_lines_to_list (_extract_section formatted_text (u "ASSESSMENT"))))
    as (assess_n & -> & Lq & _).
  cbn [mbind result_bind]. split.
  - intros Hdur.
    edestruct (build_sessions_spec session_duration) as (ss & -> & Hnum & Hact);
      [exact Hdur|rewrite La; apply py_range_bounds|by rewrite Lr, La
      |by rewrite Lq, La|].
    exists ss.
    assert (Hlen : length ss = Z.to_nat num_sessions).
    { rewrite <- (length_fmap sess_number), Hnum, length_fmap. apply py_range_length. }
    assert (Hall : Forall (λ s, ∃ j, sess_activities s
                     = or_dash (residue_class act_list num_sessions j)) ss).
    { apply Forall_forall. intros s Hs.
      apply list_elem_of_lookup in Hs as [k Hk].
      destruct (Forall2_lookup_r _ _ _ _ _ Hact Hk) as (i & Hi & Hlook).
      exists (Z.to_nat i). rewrite Ha in Hlook; [congruence|].
      pose proof (py_range_bounds num_sessions) as Hb.
      rewrite Forall_forall in Hb.
      specialize (Hb i (list_elem_of_lookup_2 _ _ _ Hi)). cbn in Hb. lia. }
    split_and!; [done..| |].
    + eapply Forall_impl; [exact Hall|]. intros s [j ->]. apply or_dash_nonempty.
    + intros Hnil. eapply Forall_impl; [exact Hall|]. intros s [j ->].
      rewrite Hnil. reflexivity.
  - intros Hdur.
    assert (∃ rest, py_range num_sessions = 0 :: rest) as [rest ->].
    { unfold py_range. destruct (Z.to_nat num_sessions) as [|k] eqn:E; [lia|].
      cbn. by eexists. }
    cbn [build_sessions].
    destruct (py_str_int session_duration) as [d|e] eqn:E.
    + exfalso. apply Hdur, py_str_int_Ok. rewrite E. f_equal.
      unfold py_str_int in E. destruct (_ && _); by simplify_eq.
    + by apply py_str_int_Raise in E as [-> _].
Qed.

Lemma parse_llm_to_sessions_count_witness :
  1 ≤ 2 ∧ within_digit_limit (H:=ascii_runtime) 40
  ∧ ∃ sessions,
    parse_llm_to_sessions (H:=ascii_runtime)
      (u "---ACTIVITIES---
- read
- draw
- sing
---ASSESSMENT---
1. quiz") 40 2 = Ok sessions
    ∧ length sessions = 2%nat
    ∧ sess_activities <$> sessions = [[u "read"; u "sing"]; [u "draw"]].
Proof.
  assert (Hdur : within_digit_limit (H:=ascii_runtime) 40)
    by (right; by vm_compute).
  split; [lia|]. split; [exact Hdur|].
  destruct (proj1 (parse_llm_to_sessions_count (H:=ascii_runtime)
    (u "---ACTIVITIES---
- read
- draw
- sing
---ASSESSMENT---
1. quiz") 40 2 ltac:(lia)) Hdur) as (ss & Hss & Hlen & _).
  exists ss. split_and!; [done..|].
  vm_compute in Hss. injection Hss as <-. reflexivity.
Defined.

(** ** Splitting at matches *)

Section ScanSplit.

Variable m : str → option (list str * nat).

(** Passing over the rest of a match. *)
Lemma scan_split_skip (a s cur : str) :
  scan_split m (length a) cur (a ++ s) = scan_split m 0 cur s.
Proof.
  induction a as [|c a IH]; [done|]. cbn. exact IH.
Qed.

(** No match starts inside [pre]: the piece being read grows by [pre]. *)
Lemma scan_split_no_match_prefix (pre s cur : str) :
  (∀ k, (k < length pre)%nat → m (drop k pre ++ s) = None) →
  scan_split m 0 cur (pre ++ s) = scan_split m 0 (rev pre ++ cur) s.
Proof.
  revert cur. induction pre as [|c pre IH]; intros cur Hno; [done|].
  cbn [app scan_split].
  pose proof (Hno 0%nat ltac:(cbn; lia)) as H0.
  cbn [drop app] in H0. rewrite H0, IH.
  - cbn [rev]. by rewrite <- app_assoc.
  - intros k Hk. apply (Hno (S k)). cbn. lia.
Qed.

Lemma scan_split_no_match (s cur : str) :
  (∀ k, (k < length s)%nat → m (drop k s) = None) →
  scan_split m 0 cur s = [rev cur ++ s].
Proof.
  intros Hno. rewrite <- (app_nil_r s) at 1.
  rewrite scan_split_no_match_prefix.
  - cbn. by rewrite rev_app_distr, rev_involutive.
  - intros k Hk. rewrite app_nil_r. by apply Hno.
Qed.

(** A match at the head: the piece ends, the groups follow. *)
Lemma scan_split_match (a s cur : str) (groups : list str) :
  a ≠ [] →
  m (a ++ s) = Some (groups, length a) →
  scan_split m 0 cur (a ++ s) = rev cur :: groups ++ scan_split m 0 [] s.
Proof.
  intros Ha Hm. destruct a as [|c a]; [done|].
  cbn [app scan_split]. cbn [app] in Hm. rewrite Hm.
  cbn [length Nat.pred]. by rewrite scan_split_skip.
Qed.

Lemma scan_split_nonempty (k : nat) (cur s : str) : scan_split m k cur s ≠ [].
Proof.
  revert k cur. induction s as [|c s IH]; intros k cur; [done|].
  cbn. destruct k; [|apply IH].
  destruct (m (c :: s)) as [[g n]|]; [done|apply IH].
Qed.

(** Whatever is split off, the result begins with the piece being
    read. *)
Lemma scan_split_concat_head (k : nat) (cur s : str) :
  ∃ t, concat (scan_split m k cur s) = rev cur ++ t.
Proof.
  revert k cur. induction s as [|c s IH]; intros k cur.
  - exists []. cbn. by rewrite !app_nil_r.
  - cbn. destruct k; [|apply IH].
    destruct (m (c :: s)) as [[g n]|].
    + cbn. eauto.
    + destruct (IH 0%nat (c :: cur)) as [t Ht]. exists (c :: t).
      rewrite Ht. cbn [rev]. by rewrite <- app_assoc.
Qed.

End ScanSplit.

(** *** [str.split] and [str.join] *)

Lemma join_cons (sep x : str) (l : list str) :
  l ≠ [] → join sep (x :: l) = x ++ sep ++ join sep l.
Proof. by destruct l. Qed.

Lemma join_app (sep : str) (l1 l2 : list str) :
  l1 ≠ [] → l2 ≠ [] →
  join sep (l1 ++ l2) = join sep l1 ++ sep ++ join sep l2.
Proof.
  intros H1 H2. induction l1 as [|x l1 IH]; [done|].
  destruct l1 as [|y l1].
  - cbn [app]. by rewrite join_cons.
  - rewrite <- app_comm_cons, join_cons by done.
    rewrite IH by done. rewrite (join_cons sep x (y :: l1)) by done.
    by rewrite <- !app_assoc.
Qed.

Lemma strip_prefix_Some (p s rest : str) :
  strip_prefix p s = Some rest → s = p ++ rest.
Proof.
  revert s. induction p as [|a p IH]; intros s H.
  - cbn in H. destruct s; by inversion H.
  - destruct s as [|b s]; [done|]. cbn in H.
    destruct (N.eqb_spec a b) as [->|]; [|done].
    cbn. f_equal. by apply IH.
Qed.

(** Joining what [split] produced gives the text back. *)
Lemma join_scan_split (sep : str) (n : nat) :
  sep ≠ [] →
  ∀ s cur, (length s ≤ n)%nat →
    join sep (scan_split (match_sep sep) 0 cur s) = rev cur ++ s.
Proof.
  intros Hsep. induction n as [|n IH]; intros s cur Hlen.
  - destruct s; [|cbn in Hlen; lia]. cbn. by rewrite app_nil_r.
  - destruct s as [|c s]; [cbn; by rewrite app_nil_r|].
    cbn [scan_split]. unfold match_sep at 1.
    destruct (strip_prefix sep (c :: s)) as [rest|] eqn:Hp.
    + apply strip_prefix_Some in Hp.
      destruct sep as [|c' sep']; [done|].
      cbn [app] in Hp. injection Hp as -> ->.
      cbn [app length Nat.pred]. rewrite scan_split_skip.
      rewrite join_cons by apply scan_split_nonempty.
      rewrite IH by (cbn in Hlen; rewrite length_app in Hlen; lia).
      reflexivity.
    + rewrite IH by (cbn in Hlen; lia).
      cbn [rev]. by rewrite <- app_assoc.
Qed.

Lemma join_split (sep s : str) : sep ≠ [] → join sep (split sep s) = s.
Proof. intros Hsep. unfold split. by rewrite (join_scan_split sep (length s)). Qed.

Lemma split_nonempty (sep s : str) : split sep s ≠ [].
Proof. apply scan_split_nonempty. Qed.

(** ** Worksheet parser: the fallback path *)

Section Fallback.

Context `{Runtime}.

Lemma split_by_markers_no_split (pats : list (str * str)) (text : str)
    (init : option (list str)) :
  forallb (λ pattern, bool_decide (length (re_split pattern text) ≤ 1)%nat) pats
    = true →
  match init with Some s => (length s ≤ 1)%nat | None => True end →
  match split_by_markers pats text init with
  | Some s => (length s ≤ 1)%nat
  | None => True
  end.
Proof.
  revert init. induction pats as [|p pats IH]; intros init Hall Hinit; [done|].
  cbn in Hall. apply andb_true_iff in Hall as [Hp Hall].
  apply bool_decide_eq_true in Hp.
  cbn [split_by_markers]. rewrite bool_decide_eq_false_2 by lia.
  by apply IH.
Qed.

(** Without a split the parser is its fallback. *)
Lemma parse_worksheets_fallback (text topic : str) (n : Z) :
  fallback_path text = true →
  parse_worksheets text topic n = fallback_worksheets text topic n.
Proof.
  intros Hfb. unfold parse_worksheets.
  pose proof (split_by_markers_no_split patterns text None Hfb I) as Hs.
  destruct (split_by_markers patterns text None) as [[|first [|second rest]]|];
    try done.
  cbn in Hs. lia.
Qed.

Lemma fallback_worksheets_Ok (text topic : str) (n : Z) :
  1 ≤ n →
  let len := Z.of_nat (length (split blank_line text)) in
  ∃ cs, chunk_size_of len n = Ok cs
    ∧ 1 ≤ cs
    ∧ (len < n → cs = 1)
    ∧ (n ≤ len → n * cs ≤ len)
    ∧ fallback_worksheets text topic n
      = Ok (fallback_worksheet text topic (split blank_line text) cs n <$> py_range n).
Proof.
  intros Hn len. unfold fallback_worksheets, chunk_size_of. fold len.
  destruct (Z.leb_spec n len).
  - destruct (Z.eqb_spec n 0); [lia|].
    exists (len / n). split_and!; [done| |lia| |done].
    + apply Z.div_le_lower_bound; lia.
    + intros _. apply Z.mul_div_le. lia.
  - exists 1. split_and!; [done|lia|done|lia|done].
Qed.

End Fallback.

(** C1. For every text that no marker style splits and every
    [num_sessions >= 1], [parse_worksheets] returns exactly
    [num_sessions] worksheet records, numbered [1..num_sessions] in
    order. *)
Theorem parse_worksheets_fallback_count `{Runtime}
    (worksheet_text topic : str) (num_sessions : Z) :
  fallback_path worksheet_text = true →
  1 ≤ num_sessions →
  ∃ worksheets,
    parse_worksheets worksheet_text topic num_sessions = Ok worksheets
    ∧ length worksheets = Z.to_nat num_sessions
    ∧ ws_number <$> worksheets = (λ i, i + 1) <$> py_range num_sessions.
Proof.
  intros Hfb Hn. rewrite parse_worksheets_fallback by done.
  destruct (fallback_worksheets_Ok worksheet_text topic num_sessions Hn)
    as (cs & _ & _ & _ & _ & ->).
  eexists. split_and!; [done|..].
  - by rewrite length_fmap, py_range_length.
  - rewrite <- list_fmap_compose. done.
Qed.

Lemma parse_worksheets_fallback_count_witness :
  fallback_path (H:=ascii_runtime) (u "Add the numbers.

Worksheet one: 2 + 2") = true
  ∧ 1 ≤ 3
  ∧ ∃ worksheets,
      parse_worksheets (H:=ascii_runtime) (u "Add the numbers.

Worksheet one: 2 + 2") (u "Sums") 3 = Ok worksheets
      ∧ ws_number <$> worksheets = [1; 2; 3].
Proof.
  split_and!; [reflexivity|lia|].
  destruct (parse_worksheets_fallback_count (H:=ascii_runtime)
    (u "Add the numbers.

Worksheet one: 2 + 2") (u "Sums") 3 ltac:(reflexivity) ltac:(lia))
    as (ws & Hws & _ & Hnum).
  exists ws. split; [done|]. rewrite Hnum. reflexivity.
Defined.

Lemma fallback_content_nonempty (text topic : str) (chunks : list str) (cs n i : Z) :
  text ≠ [] → ws_content (fallback_worksheet text topic chunks cs n i) ≠ [].
Proof.
  intros Htext. cbn [fallback_worksheet ws_content].
  destruct (strip (chunk_content chunks cs n i)) eqn:E; [done|].
  intros Hnil. rewrite Hnil in E. done.
Qed.

(** C4, as stated, fails: on the empty text the single fallback record
    has empty content, and a marker followed by nothing yields a record
    with empty content on the marker path. *)
Lemma parse_worksheets_content_counterexample :
  (∃ w, parse_worksheets (H:=ascii_runtime) (u "") (u "Sums") 1 = Ok [w]
        ∧ ws_content w = [])
  ∧ (∃ w, parse_worksheets (H:=ascii_runtime) (u "===WORKSHEET 1===") (u "Sums") 1
          = Ok [w]
        ∧ ws_content w = []).
Proof. split; eexists; split; reflexivity. Qed.

(** *** The chunks partition the text *)

Lemma join_concat (sep : str) (groups : list (list str)) :
  Forall (λ g, g ≠ []) groups →
  join sep (join sep <$> groups) = join sep (concat groups).
Proof.
  induction 1 as [|g groups Hg Hall IH]; [done|].
  destruct groups as [|g' groups].
  - cbn. by rewrite app_nil_r.
  - rewrite fmap_cons, join_cons by done.
    rewrite IH. cbn [concat]. rewrite (join_app sep g); [done..|].
    inversion Hall; subst. by destruct g'.
Qed.

Section Partition.

Variables (chunks : list str) (c m : nat).
Hypothesis c_pos : (1 ≤ c)%nat.
Hypothesis fits : (S m * c ≤ length chunks)%nat.

Abbreviation group := (regular_group chunks c).

Lemma groups_prefix (k : nat) :
  concat (group <$> seq 0 k) = take (k * c) chunks.
Proof.
  induction k as [|k IH]; [done|].
  rewrite seq_S, fmap_app, concat_app, IH. cbn [fmap list_fmap concat].
  rewrite app_nil_r. unfold regular_group.
  replace (S k * c)%nat with (k * c + c)%nat by lia.
  transitivity (take (k * c) (take (k * c + c) chunks)
                ++ drop (k * c) (take (k * c + c) chunks)).
  - f_equal. rewrite take_take. f_equal. lia.
  - apply take_drop.
Qed.

Lemma groups_partition :
  concat ((group <$> seq 0 m) ++ [drop (m * c) chunks]) = chunks.
Proof.
  rewrite concat_app, groups_prefix. cbn. rewrite app_nil_r.
  apply take_drop.
Qed.

Lemma groups_nonempty :
  Forall (λ g, g ≠ []) ((group <$> seq 0 m) ++ [drop (m * c) chunks]).
Proof.
  apply Forall_app. split.
  - apply Forall_fmap, Forall_forall. intros k Hk%elem_of_seq. cbn.
    intros E. apply (f_equal length) in E. unfold regular_group in E.
    rewrite length_drop, length_take in E. cbn in E. nia.
  - constructor; [|done].
    intros E. apply (f_equal length) in E.
    rewrite length_drop in E. cbn in E. nia.
Qed.

(** The slices of the fallback loop are these groups. *)
Lemma fallback_slices :
  (λ i, slice chunks (i * Z.of_nat c)
          (if i <? Z.of_nat (S m) - 1 then i * Z.of_nat c + Z.of_nat c
           else Z.of_nat (length chunks))) <$> py_range (Z.of_nat (S m))
  = (group <$> seq 0 m) ++ [drop (m * c) chunks].
Proof.
  unfold py_range. rewrite Nat2Z.id, seq_S, !fmap_app. cbn [plus]. f_equal.
  - rewrite <- list_fmap_compose. apply list_fmap_ext.
    intros i k Hk. apply lookup_seq in Hk as [-> Hk]. cbn.
    destruct (Z.ltb_spec (Z.of_nat i) (Z.of_nat (S m) - 1)); [|lia].
    unfold slice, regular_group. f_equal; [lia|]. f_equal. lia.
  - cbn. f_equal.
    destruct (Z.ltb_spec (Z.of_nat m) (Z.of_nat (S m) - 1)); [lia|].
    unfold slice. rewrite Nat2Z.id, take_ge by lia. f_equal. lia.
Qed.

End Partition.

Lemma fallback_chunks_join (text : str) (n : Z) :
  1 ≤ n → n ≤ Z.of_nat (length (split blank_line text)) →
  join blank_line (fallback_chunks text n) = text.
Proof.
  intros Hn Hlen. unfold fallback_chunks.
  destruct (fallback_worksheets_Ok text [] n Hn) as (cs & -> & Hcs & _ & Hfit & _).
  specialize (Hfit Hlen).
  set (chunks := split _ text) in *.
  assert (∃ m, n = Z.of_nat (S m)) as [m ->] by (exists (Z.to_nat n - 1)%nat; lia).
  assert (∃ c, cs = Z.of_nat c) as [c ->] by (exists (Z.to_nat cs); lia).
  transitivity (join blank_line (join blank_line <$> ((λ i, slice chunks (i * Z.of_nat c)
            (if i <? Z.of_nat (S m) - 1 then i * Z.of_nat c + Z.of_nat c
             else Z.of_nat (length chunks)))
          <$> py_range (Z.of_nat (S m))))).
  { by rewrite <- list_fmap_compose. }
  rewrite fallback_slices by nia.
  rewrite join_concat by (apply groups_nonempty; nia).
  rewrite groups_partition by nia. by apply join_split.
Qed.

(** C7, as stated, fails: a text without blank lines is one chunk, and
    each of the four records carries the entire text, so that the
    contents together hold it four times. *)
Lemma parse_worksheets_reconstruct_counterexample :
  fallback_path (H:=ascii_runtime) (u "abc") = true
  ∧ ∃ worksheets,
      parse_worksheets (H:=ascii_runtime) (u "abc") (u "Sums") 4 = Ok worksheets
      ∧ length worksheets = 4%nat
      ∧ concat (ws_content <$> worksheets) = u "abcabcabcabc"
      ∧ filter (λ c, ¬ py_isspace c) (concat (ws_content <$> worksheets))
        ≠ filter (λ c, ¬ py_isspace c) (u "abc").
Proof.
  split; [reflexivity|]. eexists. split; [reflexivity|].
  split_and!; [reflexivity..|]. vm_compute. discriminate.
Qed.

(** C7, amended.  For every text that no marker style splits and
    [num_sessions = 4], [parse_worksheets] returns exactly 4 records.
    The content of a record is its chunk (the blank-line separated
    pieces of its share, joined by blank lines), or the entire text when
    that chunk is empty or whitespace only.  When the text has at least
    4 blank-line separated pieces and no chunk is whitespace only,
    joining the 4 contents with a blank line gives the text back. *)
Theorem parse_worksheets_fallback_reconstructs `{Runtime}
    (worksheet_text topic : str) :
  fallback_path worksheet_text = true →
  ∃ w1 w2 w3 w4,
    parse_worksheets worksheet_text topic 4 = Ok [w1; w2; w3; w4]
    ∧ Forall2 (λ w chunk,
                 ws_content w = match strip chunk with
                                | [] => worksheet_text
                                | _ => chunk
                                end)
              [w1; w2; w3; w4] (fallback_chunks worksheet_text 4)
    ∧ ((4 ≤ length (split blank_line worksheet_text))%nat →
       Forall (λ chunk, strip chunk ≠ []) (fallback_chunks worksheet_text 4) →
       join blank_line (ws_content <$> [w1; w2; w3; w4]) = worksheet_text).
Proof.
  intros Hfb. rewrite parse_worksheets_fallback by done.
  pose proof (fallback_chunks_join worksheet_text 4 ltac:(lia)) as Hjoin.
  unfold fallback_chunks in *.
  destruct (fallback_worksheets_Ok worksheet_text topic 4 ltac:(lia))
    as (cs & Hcs & _ & _ & _ & ->).
  rewrite Hcs in *. clear Hcs.
  set (chunks := split _ worksheet_text) in *.
  change (py_range 4) with [0; 1; 2; 3] in *.
  cbn [fmap list_fmap] in *.
  do 4 eexists. split; [reflexivity|]. split.
  - repeat constructor.
  - intros Hlen Hall. rewrite <- Hjoin at 5 by lia.
    inversion Hall as [|? ? H0 Hall1]; subst.
    inversion Hall1 as [|? ? H1 Hall2]; subst.
    inversion Hall2 as [|? ? H2 Hall3]; subst.
    inversion Hall3 as [|? ? H3 _]; subst.
    cbn [fallback_worksheet ws_content].
    destruct (strip (chunk_content chunks cs 4 0)); [done|].
    destruct (strip (chunk_content chunks cs 4 1)); [done|].
    destruct (strip (chunk_content chunks cs 4 2)); [done|].
    destruct (strip (chunk_content chunks cs 4 3)); [done|].
    reflexivity.
Qed.

Lemma parse_worksheets_fallback_reconstructs_witness :
  fallback_path (H:=ascii_runtime) (u "one

two

three

four

five") = true
  ∧ ∃ w1 w2 w3 w4,
      parse_worksheets (H:=ascii_runtime) (u "one

two

three

four

five") (u "Sums") 4 = Ok [w1; w2; w3; w4]
      ∧ join blank_line (ws_content <$> [w1; w2; w3; w4]) = u "one

two

three

four

five".
Proof.
  split; [reflexivity|].
  destruct (parse_worksheets_fallback_reconstructs (H:=ascii_runtime)
    (u "one

two

three

four

five") (u "Sums") ltac:(reflexivity)) as (w1 & w2 & w3 & w4 & Hws & _ & Hjoin).
  exists w1, w2, w3, w4. split; [done|]. apply Hjoin.
  - vm_compute. lia.
  - vm_compute. repeat constructor; discriminate.
Defined.

(** ** Worksheet parser: the marker path *)

Lemma ci_eq_refl (c : N) : ci_eq c c = true.
Proof. unfold ci_eq. by rewrite N.eqb_refl. Qed.

Lemma ci_prefix_app (p s : str) : ci_prefix p (p ++ s) = Some s.
Proof.
  induction p as [|c p IH]; [by destruct s|].
  cbn. by rewrite ci_eq_refl.
Qed.

(** A character that is not the pattern's own, for a pattern character
    that is no letter. *)
Lemma ci_eq_other (p x : N) :
  (p < 65)%N → x ≠ p → ci_eq p x = false.
Proof.
  intros Hp Hx. unfold ci_eq, ascii_fold, ascii_upper.
  destruct (N.leb_spec 65 p); [lia|]. cbn [andb].
  destruct (N.eqb_spec p 107); [lia|].
  destruct (N.eqb_spec p 115); [lia|].
  destruct (N.eqb_spec p 105); [lia|]. cbn [andb orb].
  rewrite !orb_false_r.
  destruct (N.leb_spec 65 x), (N.leb_spec x 90); cbn [andb];
    apply N.eqb_neq; lia.
Qed.

Lemma drop_while_head {A} (P : A → bool) (l : list A) (x : A) (r : list A) :
  drop_while P l = x :: r → P x = false.
Proof.
  induction l as [|y l IH]; [done|]. cbn.
  destruct (P y) eqn:E; [done|]. by intros [= -> ->].
Qed.

Lemma rstrip_head (x : N) (r : str) :
  py_isspace x = false → ∃ r', rstrip (x :: r) = x :: r'.
Proof.
  intros Hx. unfold rstrip. cbn [rev].
  assert (G : ∀ l : str, ∃ t, drop_while py_isspace (l ++ [x]) = t ++ [x]).
  { induction l as [|y l [t Ht]].
    - exists []. cbn. by rewrite Hx.
    - cbn. destruct (py_isspace y); [eauto|]. by exists (y :: l). }
  destruct (G (rev r)) as [t ->].
  rewrite rev_app_distr. cbn. eauto.
Qed.

(** *** Texts made of end markers *)

Lemma ci_prefix_split (p s rest : str) :
  ci_prefix p s = Some rest → ∃ o, s = o ++ rest ∧ ci_prefix p o = Some [].
Proof.
  revert s. induction p as [|a p IH]; intros s.
  - intros [= <-]. by exists [].
  - destruct s as [|b s]; [done|]. cbn [ci_prefix].
    destruct (ci_eq a b) eqn:E; [|done].
    intros (o & -> & Ho)%IH. exists (b :: o). split; [done|].
    cbn [ci_prefix]. by rewrite E.
Qed.

Lemma ci_prefix_matches_app (p o rest : str) :
  ci_prefix p o = Some [] → ci_prefix p (o ++ rest) = Some rest.
Proof.
  revert o. induction p as [|a p IH]; intros o.
  - by intros [= ->].
  - destruct o as [|b o]; [done|]. cbn [ci_prefix app].
    destruct (ci_eq a b); [|done]. apply IH.
Qed.

Lemma span_split {A} (P : A → bool) (l a b : list A) :
  span P l = (a, b) → l = a ++ b ∧ Forall (λ x, P x = true) a.
Proof.
  revert a b. induction l as [|x l IH]; intros a b; cbn [span].
  - by intros [= <- <-].
  - destruct (P x) eqn:E; [|by intros [= <- <-]].
    destruct (span P l) as [a' b']. intros [= <- <-].
    destruct (IH a' b' eq_refl) as [-> Hall]. by split; [|constructor].
Qed.

(** The longest run of [P] ends where a character fails [P]. *)
Lemma span_app_stop {A} (P : A → bool) (a : list A) (x : A) (r : list A) :
  Forall (λ y, P y = true) a → P x = false →
  span P (a ++ x :: r) = (a, x :: r).
Proof.
  intros Ha Hx. induction Ha as [|y a Hy _ IH]; cbn [app span].
  - by rewrite Hx.
  - by rewrite Hy, IH.
Qed.

Section EndMarkers.

Context `{Runtime}.

(** What the scanner of an end marker finds is an end marker. *)
Lemma match_end_marker_spec (opening closing s : str) (groups : list str) (len : nat) :
  match_end_marker opening closing s = Some (groups, len) →
  groups = []
  ∧ ∃ m rest, s = m ++ rest ∧ length m = len ∧ m ≠ []
              ∧ is_end_marker opening closing m.
Proof.
  unfold match_end_marker.
  destruct (ci_prefix opening s) as [r1|] eqn:E1; [|done].
  destruct (span is_decimal r1) as [digits r2] eqn:E2.
  destruct digits as [|d digits]; [done|].
  destruct (ci_prefix closing r2) as [r3|] eqn:E3; [|done].
  intros [= <- <-]. split; [done|].
  apply ci_prefix_split in E1 as (o & -> & Ho).
  apply span_split in E2 as [-> Hdigits].
  apply ci_prefix_split in E3 as (c & -> & Hc).
  exists (o ++ (d :: digits) ++ c), r3. split_and!.
  - by rewrite <- !app_assoc.
  - rewrite !length_app. cbn [length]. lia.
  - by destruct o.
  - by exists o, (d :: digits), c.
Qed.

End EndMarkers.

Section ScanMarkers.

Variable m : str → option (list str * nat).
Variable is_marker : str → Prop.
Hypothesis m_spec : ∀ s groups len,
  m s = Some (groups, len) →
  groups = [] ∧ ∃ a rest, s = a ++ rest ∧ length a = len ∧ a ≠ [] ∧ is_marker a.

Lemma scan_split_cur (n : nat) :
  ∀ (s cur : str), (length s ≤ n)%nat →
    concat (scan_split m 0 cur s) = rev cur ++ concat (scan_split m 0 [] s).
Proof.
  induction n as [|n IH]; intros s cur Hn.
  - destruct s; [|cbn in Hn; lia]. cbn. by rewrite !app_nil_r.
  - destruct s as [|c r]; [cbn; by rewrite !app_nil_r|].
    cbn [scan_split]. destruct (m (c :: r)) as [[groups len]|] eqn:E.
    + cbn [concat]. done.
    + rewrite (IH r (c :: cur)), (IH r [c]) by (cbn in Hn; lia).
      cbn [rev app]. by rewrite <- !app_assoc.
Qed.

(** What is left when the matches are removed is the text without
    some of its markers. *)
Lemma scan_split_without (n : nat) :
  ∀ s : str, (length s ≤ n)%nat →
    without_markers is_marker s (concat (scan_split m 0 [] s)).
Proof.
  induction n as [|n IH]; intros s Hn.
  - destruct s; [|cbn in Hn; lia]. constructor.
  - destruct s as [|c r]; [constructor|].
    destruct (m (c :: r)) as [[groups len]|] eqn:E.
    + destruct (m_spec _ _ _ E) as (-> & a & rest & Hs & Hlen & Ha & Hm).
      rewrite Hs in E |- *. rewrite <- Hlen in E.
      rewrite (scan_split_match m a rest [] [] Ha E). cbn [rev concat app].
      constructor; [done|]. apply IH.
      apply (f_equal length) in Hs. rewrite length_app in Hs. cbn in Hs, Hn.
      destruct a; [done|]. cbn in Hs. lia.
    + cbn [scan_split]. rewrite E.
      rewrite (scan_split_cur (length r)) by done. cbn [rev app].
      constructor. apply IH. cbn in Hn. lia.
Qed.

(** Nothing is left only when the text is a sequence of markers. *)
Lemma scan_split_sequence (n : nat) :
  ∀ s : str, (length s ≤ n)%nat →
    concat (scan_split m 0 [] s) = [] → marker_sequence is_marker s.
Proof.
  induction n as [|n IH]; intros s Hn.
  - destruct s; [|cbn in Hn; lia]. constructor.
  - destruct s as [|c r]; [constructor|].
    destruct (m (c :: r)) as [[groups len]|] eqn:E.
    + destruct (m_spec _ _ _ E) as (-> & a & rest & Hs & Hlen & Ha & Hm).
      rewrite Hs in E |- *. rewrite <- Hlen in E.
      rewrite (scan_split_match m a rest [] [] Ha E). cbn [rev concat app].
      intros Hrest. constructor; [done|]. apply IH; [|done].
      apply (f_equal length) in Hs. rewrite length_app in Hs. cbn in Hs, Hn.
      destruct a; [done|]. cbn in Hs. lia.
    + cbn [scan_split]. rewrite E.
      rewrite (scan_split_cur (length r)) by done. done.
Qed.

End ScanMarkers.

Section Cleaning.

Context `{Runtime}.

(** A block whose cleaned form is empty held nothing but end markers,
    whatever the runtime. *)
Lemma cleaned_only_end_markers (s : str) :
  re_sub_empty (u "---END WORKSHEET ", u "---")
    (re_sub_empty (u "===END WORKSHEET ", u "===") s) = [] →
  only_end_markers s.
Proof.
  intros Hempty.
  exists (re_sub_empty (u "===END WORKSHEET ", u "===") s). split.
  - exact (scan_split_without _ _
             (match_end_marker_spec (u "===END WORKSHEET ") (u "===")) _ s (le_n _)).
  - exact (scan_split_sequence _ _
             (match_end_marker_spec (u "---END WORKSHEET ") (u "---")) _ _ (le_n _)
             Hempty).
Qed.

(** A block with content keeps some of it through the removal of the
    end markers. *)
Lemma cleaned_content_nonempty (block : str) :
  has_content block →
  re_sub_empty (u "---END WORKSHEET ", u "---")
    (re_sub_empty (u "===END WORKSHEET ", u "===") (strip block)) ≠ [].
Proof. intros Hc Hempty. by apply Hc, cleaned_only_end_markers. Qed.

End Cleaning.

(** *** The converse, for a runtime that agrees with ASCII *)

Lemma ci_eq_same (p x : N) : (p < 65)%N → ci_eq p x = true → x = p.
Proof.
  intros Hp Hx. destruct (decide (x = p)) as [|Hne]; [done|].
  by rewrite ci_eq_other in Hx.
Qed.

Lemma ci_prefix_head (k : N) (p c : str) :
  ci_prefix (k :: p) c = Some [] → ∃ x r, c = x :: r ∧ ci_eq k x = true.
Proof.
  destruct c as [|x r]; [done|]. cbn [ci_prefix].
  destruct (ci_eq k x) eqn:E; [|done]. by exists x, r.
Qed.

(** A character that matches no character of the literal does not
    occur in a text that matches the literal. *)
Lemma ci_prefix_chars (p o : str) (x : N) :
  ci_prefix p o = Some [] →
  forallb (λ a, negb (ci_eq a x)) p = true →
  Forall (λ c, c ≠ x) o.
Proof.
  revert o. induction p as [|a p IH]; intros o.
  - intros [= ->]. constructor.
  - destruct o as [|b o]; [done|]. cbn [ci_prefix forallb].
    destruct (ci_eq a b) eqn:E; [|done].
    intros Ho [Ha Hp]%andb_true_iff. constructor; [|by apply IH].
    intros ->. by rewrite E in Ha.
Qed.

Section Converse.

Context `{Runtime}.
Hypothesis ascii_ok : ascii_digits.

Lemma not_decimal_ascii (c : N) :
  (c < 48)%N ∨ (57 < c < 128)%N → is_decimal c = false.
Proof.
  intros Hc. unfold is_decimal.
  destruct (ascii_ok c ltac:(lia)) as [-> _]. cbn.
  destruct (N.leb_spec 48 c), (N.leb_spec c 57); cbn; (done || lia).
Qed.

(** An end marker at the head of a text is what the scanner finds
    there. *)
Lemma match_end_marker_marker (opening closing p m rest : str) (k : N) :
  closing = k :: p → (k < 48)%N ∨ (57 < k < 65)%N →
  is_end_marker opening closing m →
  match_end_marker opening closing (m ++ rest) = Some ([], length m).
Proof.
  intros -> Hk (o & digits & c & -> & Ho & Hne & Hdigits & Hc).
  destruct (ci_prefix_head _ _ _ Hc) as (x & r & -> & Hx).
  apply ci_eq_same in Hx as ->; [|lia].
  unfold match_end_marker.
  rewrite <- !app_assoc, (ci_prefix_matches_app _ _ _ Ho).
  cbn [app]. rewrite span_app_stop by (done || apply not_decimal_ascii; lia).
  destruct digits as [|d digits]; [done|].
  change (k :: r ++ rest) with ((k :: r) ++ rest).
  rewrite (ci_prefix_matches_app _ _ _ Hc).
  do 2 f_equal. rewrite !length_app. cbn [length]. rewrite ?length_app. lia.
Qed.

Lemma end_marker_no_eq (m : str) :
  is_end_marker (u "---END WORKSHEET ") (u "---") m → Forall (λ c, c ≠ 61%N) m.
Proof.
  intros (o & digits & c & -> & Ho & _ & Hdigits & Hc).
  rewrite !Forall_app. split_and!.
  - by apply (ci_prefix_chars _ _ _ Ho).
  - eapply Forall_impl; [exact Hdigits|]. intros d Hd ->.
    rewrite not_decimal_ascii in Hd by lia. done.
  - by apply (ci_prefix_chars _ _ _ Hc).
Qed.

Lemma marker_sequence_no_eq (t : str) :
  marker_sequence (is_end_marker (u "---END WORKSHEET ") (u "---")) t →
  Forall (λ c, c ≠ 61%N) t.
Proof.
  induction 1 as [|m t Hm _ IH]; [constructor|].
  apply Forall_app. split; [by apply end_marker_no_eq|done].
Qed.

(** Removing the [===END WORKSHEET n===] markers from a text whose
    other characters are no [=] leaves these characters. *)
Lemma without_markers_scan (s t : str) :
  without_markers (is_end_marker (u "===END WORKSHEET ") (u "===")) s t →
  Forall (λ c, c ≠ 61%N) t →
  ∀ cur, concat (scan_split (match_end_marker (u "===END WORKSHEET ") (u "===")) 0 cur s)
         = rev cur ++ t.
Proof.
  induction 1 as [|c s t _ IH|m s t Hm _ IH]; intros Hno cur.
  - cbn. by rewrite !app_nil_r.
  - inversion Hno as [|? ? Hc Hno']; subst.
    cbn [scan_split].
    assert (Hnone : match_end_marker (u "===END WORKSHEET ") (u "===") (c :: s) = None).
    { unfold match_end_marker.
      change (u "===END WORKSHEET ") with (61%N :: tail (u "===END WORKSHEET ")).
      cbn [ci_prefix]. by rewrite ci_eq_other by (done || lia). }
    rewrite Hnone, IH by done. cbn [rev]. by rewrite <- app_assoc.
  - assert (Hma : m ≠ []).
    { destruct Hm as (o & digits & c & -> & _ & Hne & _). by destruct o, digits. }
    rewrite (scan_split_match _ m s cur [] Hma).
    + cbn [concat app]. by rewrite (IH Hno []).
    + by apply (match_end_marker_marker _ _ (tail (u "===")) _ _ 61); [|lia|].
Qed.

Lemma marker_sequence_scan (t : str) :
  marker_sequence (is_end_marker (u "---END WORKSHEET ") (u "---")) t →
  concat (scan_split (match_end_marker (u "---END WORKSHEET ") (u "---")) 0 [] t) = [].
Proof.
  induction 1 as [|m t Hm _ IH]; [done|].
  assert (Hma : m ≠ []).
  { destruct Hm as (o & digits & c & -> & _ & Hne & _). by destruct o, digits. }
  rewrite (scan_split_match _ m t [] [] Hma).
  - cbn [rev concat app]. exact IH.
  - by apply (match_end_marker_marker _ _ (tail (u "---")) _ _ 45); [|lia|].
Qed.

(** The cleaned form of a text is empty exactly when the text holds
    nothing but end markers. *)
Lemma only_end_markers_cleaned (s : str) :
  only_end_markers s ↔
  re_sub_empty (u "---END WORKSHEET ", u "---")
    (re_sub_empty (u "===END WORKSHEET ", u "===") s) = [].
Proof.
  split; [|apply cleaned_only_end_markers].
  intros (t & Hw & Hs). unfold re_sub_empty at 2. cbn [fst snd].
  rewrite (without_markers_scan s t Hw (marker_sequence_no_eq t Hs) []).
  cbn [rev app]. by apply marker_sequence_scan.
Qed.

Lemma has_content_cleaned (block : str) :
  has_content block ↔
  re_sub_empty (u "---END WORKSHEET ", u "---")
    (re_sub_empty (u "===END WORKSHEET ", u "===") (strip block)) ≠ [].
Proof. unfold has_content. by rewrite only_end_markers_cleaned. Qed.

End Converse.

Lemma ascii_runtime_digits : ascii_digits (H:=ascii_runtime).
Proof. by intros c _. Qed.

Section MarkerPath.

Context `{Runtime}.
Hypothesis ascii_ok : ascii_digits.

Lemma decimal_ascii (d : N) :
  (48 ≤ d ≤ 57)%N →
  uc_decimal d = Some (Z.of_N d - 48) ∧ uc_isdigit d = true.
Proof.
  intros Hd. destruct (ascii_ok d ltac:(lia)) as [-> ->]. cbn.
  destruct (N.leb_spec 48 d), (N.leb_spec d 57); try lia. done.
Qed.

Lemma not_decimal_eq : is_decimal 61%N = false.
Proof.
  unfold is_decimal. by destruct (ascii_ok 61%N ltac:(lia)) as [-> _].
Qed.

(** The marker of a one-digit number matches at the head, captures
    the digit and consumes the 17 characters of the marker. *)
Lemma match_marker_head (d : N) (s : str) :
  (48 ≤ d ≤ 57)%N →
  match_marker (u "===WORKSHEET") (u "===")
    (u "===WORKSHEET " ++ [d] ++ u "===" ++ s)
  = Some ([[d]], 17%nat).
Proof.
  intros Hd. unfold match_marker.
  change (u "===WORKSHEET ") with (u "===WORKSHEET" ++ [32%N]).
  rewrite <- app_assoc, ci_prefix_app.
  cbn [app span]. change (py_isspace 32) with true. cbv iota.
  assert (Hsp : py_isspace d = false).
  { unfold py_isspace.
    repeat match goal with
           | |- context [N.leb ?a ?b] => destruct (N.leb_spec a b); try lia
           | |- context [N.eqb ?a ?b] => destruct (N.eqb_spec a b); try lia
           end; reflexivity. }
  rewrite Hsp.
  assert (Hdec : is_decimal d = true).
  { unfold is_decimal. by destruct (decimal_ascii d Hd) as [-> _]. }
  assert (Hspan : span is_decimal (d :: u "===" ++ s) = ([d], u "===" ++ s)).
  { cbn [span]. rewrite Hdec.
    change (u "===" ++ s) with (61%N :: 61%N :: 61%N :: s).
    cbn [span]. by rewrite not_decimal_eq. }
  rewrite Hspan, ci_prefix_app. do 2 f_equal.
  rewrite !length_app. cbn [length].
  change (length (u "===WORKSHEET")) with 12%nat.
  rewrite length_app.
  change (length (u "===")) with 3%nat. lia.
Qed.

End MarkerPath.

Section FourBlocks.

Context `{Runtime}.
Hypothesis ascii_ok : ascii_digits.

Lemma no_marker_inside_spec (x tail : str) :
  no_marker_inside x tail = true →
  ∀ k, (k < length x)%nat →
    match_marker (u "===WORKSHEET") (u "===") (drop k x ++ tail) = None.
Proof.
  unfold no_marker_inside. rewrite forallb_forall. intros Hall k Hk.
  eapply bool_decide_eq_true, Hall, in_seq. lia.
Qed.

(** One block: the text before the marker, the captured number, and
    the split of what follows. *)
Lemma re_split_block (x s : str) (d : N) :
  (48 ≤ d ≤ 57)%N →
  no_marker_inside x (u "===WORKSHEET " ++ [d] ++ u "===" ++ s) = true →
  scan_split (match_marker (u "===WORKSHEET") (u "===")) 0 []
    (x ++ u "===WORKSHEET " ++ [d] ++ u "===" ++ s)
  = x :: [d] :: scan_split (match_marker (u "===WORKSHEET") (u "===")) 0 [] s.
Proof.
  intros Hd Hno.
  rewrite scan_split_no_match_prefix by (by apply no_marker_inside_spec).
  rewrite app_nil_r.
  replace (u "===WORKSHEET " ++ [d] ++ u "===" ++ s)
    with ((u "===WORKSHEET " ++ [d] ++ u "===") ++ s)
    by (by rewrite <- !app_assoc).
  rewrite (scan_split_match _ _ _ _ [[d]]).
  - by rewrite rev_involutive.
  - done.
  - rewrite <- !app_assoc. by rewrite match_marker_head.
Qed.

Lemma re_split_four_blocks (pre c1 c2 c3 c4 : str) :
  well_formed_blocks pre c1 c2 c3 c4 →
  re_split (u "===WORKSHEET", u "===") (four_blocks pre c1 c2 c3 c4)
  = [pre; u "1"; c1; u "2"; c2; u "3"; c3; u "4"; c4].
Proof.
  intros (H0 & H1 & H2 & H3 & H4 & _).
  unfold re_split, four_blocks. cbn [fst snd].
  change (marker 1) with (u "===WORKSHEET " ++ [49%N] ++ u "===") in *.
  change (marker 2) with (u "===WORKSHEET " ++ [50%N] ++ u "===") in *.
  change (marker 3) with (u "===WORKSHEET " ++ [51%N] ++ u "===") in *.
  change (marker 4) with (u "===WORKSHEET " ++ [52%N] ++ u "===") in *.
  rewrite <- !app_assoc in *.
  rewrite !re_split_block by (done || lia).
  rewrite scan_split_no_match; [done|].
  intros k Hk. rewrite <- (app_nil_r (drop k c4)).
  by apply no_marker_inside_spec.
Qed.

(** A block numbered by one ASCII digit. *)
Lemma parse_block_digit (topic content : str) (d : N) (count : nat) :
  (48 ≤ d ≤ 57)%N →
  has_content content →
  ∃ w, parse_block topic [d] content count = Ok w
       ∧ ws_number w = Z.of_N d - 48
       ∧ ws_content w ≠ [].
Proof.
  intros Hd Hc. unfold parse_block.
  assert (Hsp : strip [d] = [d]).
  { unfold strip, rstrip, lstrip. cbn.
    assert (Hs : py_isspace d = false).
    { unfold py_isspace.
      repeat match goal with
             | |- context [N.leb ?a ?b] => destruct (N.leb_spec a b); try lia
             | |- context [N.eqb ?a ?b] => destruct (N.eqb_spec a b); try lia
             end; reflexivity. }
    rewrite Hs. cbn. by rewrite Hs. }
  rewrite Hsp.
  destruct (decimal_ascii ascii_ok d Hd) as [Hdec Hdig].
  unfold isdigit, int_of_digits. cbn [forallb foldl length]. rewrite Hdig, Hdec.
  replace (negb (int_max_str_digits =? 0)%N
           && (int_max_str_digits <? N.of_nat 1)%N) with false
    by (destruct (N.eqb_spec int_max_str_digits 0),
                 (N.ltb_spec int_max_str_digits (N.of_nat 1)); (done || lia)).
  cbn [andb mbind result_bind].
  eexists. split_and!; [reflexivity|cbn [ws_number]; lia|].
  cbn [ws_content]. by apply cleaned_content_nonempty.
Qed.

End FourBlocks.

(** The content of a record of the marker path is its block, stripped
    and without end markers. *)
Lemma parse_block_content `{Runtime} (topic num content : str) (count : nat)
    (w : worksheet) :
  parse_block topic num content count = Ok w →
  ws_content w
  = re_sub_empty (u "---END WORKSHEET ", u "---")
      (re_sub_empty (u "===END WORKSHEET ", u "===") (strip content)).
Proof.
  unfold parse_block.
  destruct (if isdigit (strip num) then int_of_digits (strip num)
            else Ok (Z.of_nat count + 1)) as [number|e]; [|done].
  by intros [= <-].
Qed.

Section OneGroup.

Variable m : str → option (list str * nat).
Hypothesis one_group : ∀ s groups len, m s = Some (groups, len) → length groups = 1%nat.

(** A pattern with one capturing group: a piece, then a group and a
    piece for every match. *)
Lemma scan_split_odd (k : nat) (cur s : str) :
  ∃ j, length (scan_split m k cur s) = S (2 * j).
Proof.
  revert k cur. induction s as [|c s IH]; intros k cur; [by exists 0%nat|].
  cbn [scan_split]. destruct k; [|apply IH].
  destruct (m (c :: s)) as [[g n]|] eqn:E; [|apply IH].
  destruct (IH (pred n) []) as [j Hj]. exists (S j).
  cbn [length]. rewrite length_app, Hj, (one_group _ _ _ E). lia.
Qed.

End OneGroup.

Section MarkerSplit.

Context `{Runtime}.

Lemma match_marker_one_group (opening closing s : str) (groups : list str) (len : nat) :
  match_marker opening closing s = Some (groups, len) → length groups = 1%nat.
Proof.
  unfold match_marker.
  destruct (ci_prefix opening s) as [r1|]; [|done].
  destruct (span py_isspace r1) as [[|? ?] r2]; [done|].
  destruct (span is_decimal r2) as [[|? ?] r3]; [done|].
  destruct (ci_prefix closing r3); [|done].
  by intros [= <- _].
Qed.

Lemma re_split_odd (pattern : str * str) (text : str) :
  ∃ j, length (re_split pattern text) = S (2 * j).
Proof. apply scan_split_odd. intros s g n. apply match_marker_one_group. Qed.

(** Some style splits the text: the sections are the text before the
    first marker and at least one (number, content) pair. *)
Lemma split_by_markers_found (pats : list (str * str)) (text : str)
    (init : option (list str)) :
  forallb (λ pattern, bool_decide (length (re_split pattern text) ≤ 1)%nat) pats
    = false →
  ∃ first num content rest,
    split_by_markers pats text init = Some (first :: num :: content :: rest).
Proof.
  revert init. induction pats as [|p pats IH]; intros init Hall; [done|].
  cbn [forallb] in Hall. cbn [split_by_markers].
  destruct (re_split_odd p text) as [j Hj].
  destruct (decide (1 < length (re_split p text))%nat) as [Hlt|Hle].
  - rewrite bool_decide_eq_true_2 by done.
    destruct (re_split p text) as [|first [|num [|content rest]]];
      cbn in Hj, Hlt; try lia. by eexists _, _, _, _.
  - rewrite bool_decide_eq_false_2 by done. apply IH.
    rewrite bool_decide_eq_true_2 in Hall by lia. done.
Qed.

(** The loop over the pairs appends one record per pair, whose content
    is the pair's text, stripped and with the end markers removed. *)
Lemma parse_blocks_spec (topic : str) (n : nat) :
  ∀ (sections : list str) (acc worksheets : list worksheet),
    (length sections ≤ n)%nat →
    parse_blocks topic sections acc = Ok worksheets →
    ∃ more,
      worksheets = acc ++ more
      ∧ ws_content <$> more
        = (λ block, re_sub_empty (u "---END WORKSHEET ", u "---")
                      (re_sub_empty (u "===END WORKSHEET ", u "===") (strip block)))
            <$> block_contents sections.
Proof.
  induction n as [|n IH]; intros sections acc ws Hlen.
  - destruct sections; [|cbn in Hlen; lia]. intros [= <-].
    exists []. by rewrite app_nil_r.
  - destruct sections as [|num [|content rest]];
      try (intros [= <-]; exists []; by rewrite app_nil_r).
    cbn [parse_blocks block_contents].
    destruct (parse_block topic num content (length acc)) as [w|e] eqn:E; [|done].
    cbn [mbind result_bind]. intros Hrest.
    apply IH in Hrest as (more & -> & Hmore); [|cbn in Hlen; lia].
    exists (w :: more). split; [by rewrite <- app_assoc|].
    cbn [fmap list_fmap]. f_equal; [|exact Hmore].
    by apply parse_block_content in E.
Qed.

(** On the marker path the fallback is never reached: the result is
    that of the loop over the pairs. *)
Lemma parse_worksheets_marker (text topic : str) (num_sessions : Z) :
  fallback_path text = false →
  ∃ first num content rest,
    split_by_markers patterns text None = Some (first :: num :: content :: rest)
    ∧ parse_worksheets text topic num_sessions
      = parse_blocks topic (num :: content :: rest) [].
Proof.
  intros Hfb.
  destruct (split_by_markers_found patterns text None Hfb)
    as (first & num & content & rest & Hs).
  exists first, num, content, rest. split; [done|].
  unfold parse_worksheets. rewrite Hs.
  destruct (parse_blocks topic (num :: content :: rest) []) as [parsed|e] eqn:E;
    [|done].
  cbn [mbind result_bind].
  apply (parse_blocks_spec topic _ _ _ _ (le_n _)) in E as (more & -> & Hmore).
  cbn [block_contents fmap list_fmap] in Hmore.
  destruct more; [done|]. done.
Qed.

End MarkerSplit.

Lemma Forall_nonempty_fmap {A} (f : A → str) (l : list A) :
  Forall (λ c, c ≠ []) (f <$> l) ↔ Forall (λ x, f x ≠ []) l.
Proof. apply (Forall_fmap f (λ c, c ≠ []) l). Qed.

Section MarkerContents.

Context `{Runtime}.

(** On the fallback path no block follows a marker. *)
Lemma marker_blocks_fallback (text : str) :
  fallback_path text = true → marker_blocks text = [].
Proof.
  intros Hfb. unfold marker_blocks.
  pose proof (split_by_markers_no_split patterns text None Hfb I) as Hs.
  destruct (split_by_markers patterns text None) as [[|first [|num rest]]|];
    try done.
  cbn in Hs. lia.
Qed.

(** On the marker path the contents of the records are the blocks that
    follow the markers, stripped and without end markers. *)
Lemma parse_worksheets_marker_blocks (text topic : str) (num_sessions : Z)
    (worksheets : list worksheet) :
  fallback_path text = false →
  parse_worksheets text topic num_sessions = Ok worksheets →
  ws_content <$> worksheets
  = (λ block, re_sub_empty (u "---END WORKSHEET ", u "---")
                (re_sub_empty (u "===END WORKSHEET ", u "===") (strip block)))
      <$> marker_blocks text.
Proof.
  intros Hfb Hws.
  destruct (parse_worksheets_marker text topic num_sessions Hfb)
    as (first & num & content & rest & Hs & Hp).
  rewrite Hp in Hws.
  apply (parse_blocks_spec topic _ _ _ _ (le_n _)) in Hws as (more & -> & Hmore).
  unfold marker_blocks. rewrite Hs. exact Hmore.
Qed.

(** Every record of the fallback path has content. *)
Lemma fallback_worksheets_content (text topic : str) (num_sessions : Z)
    (worksheets : list worksheet) :
  text ≠ [] →
  fallback_worksheets text topic num_sessions = Ok worksheets →
  Forall (λ w, ws_content w ≠ []) worksheets.
Proof.
  intros Htext. unfold fallback_worksheets.
  destruct (chunk_size_of _ num_sessions) as [cs|]; [|done].
  cbn. intros [= <-]. apply Forall_fmap, Forall_forall. intros i _.
  by apply fallback_content_nonempty.
Qed.

End MarkerContents.

(** C4, amended.  For every non-empty text and every [num_sessions]:
    when every block that follows a worksheet marker holds more than
    whitespace and end markers (on the fallback path there is no such
    block), every worksheet record that [parse_worksheets] returns has
    non-empty content; on the fallback path it returns [num_sessions]
    records when [num_sessions >= 1]; and the condition on the blocks
    is the weakest one: where the decimal digits are the ASCII ones,
    records that all have content come from blocks that all have
    content. *)
Theorem parse_worksheets_content `{Runtime}
    (worksheet_text topic : str) (num_sessions : Z) :
  worksheet_text ≠ [] →
  (Forall has_content (marker_blocks worksheet_text) →
   ∀ worksheets,
     parse_worksheets worksheet_text topic num_sessions = Ok worksheets →
     Forall (λ w, ws_content w ≠ []) worksheets)
  ∧ (fallback_path worksheet_text = true → 1 ≤ num_sessions →
     ∃ worksheets,
       parse_worksheets worksheet_text topic num_sessions = Ok worksheets
       ∧ length worksheets = Z.to_nat num_sessions)
  ∧ (ascii_digits →
     ∀ worksheets,
       parse_worksheets worksheet_text topic num_sessions = Ok worksheets →
       Forall (λ w, ws_content w ≠ []) worksheets →
       Forall has_content (marker_blocks worksheet_text)).
Proof.
  intros Htext. split_and!.
  - intros Hblocks ws Hws.
    destruct (fallback_path worksheet_text) eqn:Hfb.
    + rewrite parse_worksheets_fallback in Hws by done.
      by eapply fallback_worksheets_content.
    + apply (parse_worksheets_marker_blocks _ _ _ _ Hfb) in Hws.
      apply Forall_nonempty_fmap. rewrite Hws.
      apply Forall_nonempty_fmap. eapply Forall_impl; [exact Hblocks|].
      intros block. apply cleaned_content_nonempty.
  - intros Hfb Hn. rewrite parse_worksheets_fallback by done.
    destruct (fallback_worksheets_Ok worksheet_text topic num_sessions Hn)
      as (cs & _ & _ & _ & _ & ->).
    eexists. split; [done|]. by rewrite length_fmap, py_range_length.
  - intros Hascii ws Hws Hall.
    destruct (fallback_path worksheet_text) eqn:Hfb.
    + rewrite marker_blocks_fallback by done. constructor.
    + apply (parse_worksheets_marker_blocks _ _ _ _ Hfb) in Hws.
      apply (proj2 (Forall_nonempty_fmap ws_content ws)) in Hall.
      rewrite Hws in Hall.
      apply (proj1 (Forall_nonempty_fmap _ _)) in Hall.
      eapply Forall_impl; [exact Hall|].
      intros block. apply (has_content_cleaned Hascii).
Qed.

Lemma parse_worksheets_content_witness :
  u "===WORKSHEET 1===
- Count to ten.
===END WORKSHEET 1===
===WORKSHEET 2===
=== Count back ===
---END WORKSHEET 2---" ≠ []
  ∧ Forall (has_content (H:=ascii_runtime))
      (marker_blocks (H:=ascii_runtime) (u "===WORKSHEET 1===
- Count to ten.
===END WORKSHEET 1===
===WORKSHEET 2===
=== Count back ===
---END WORKSHEET 2---"))
  ∧ ∃ worksheets,
      parse_worksheets (H:=ascii_runtime) (u "===WORKSHEET 1===
- Count to ten.
===END WORKSHEET 1===
===WORKSHEET 2===
=== Count back ===
---END WORKSHEET 2---") (u "Sums") 2 = Ok worksheets
      ∧ ws_content <$> worksheets = [u "- Count to ten.
"; u "=== Count back ===
"]
      ∧ Forall (λ w, ws_content w ≠ []) worksheets.
Proof.
  assert (Hblocks : Forall (has_content (H:=ascii_runtime))
      (marker_blocks (H:=ascii_runtime) (u "===WORKSHEET 1===
- Count to ten.
===END WORKSHEET 1===
===WORKSHEET 2===
=== Count back ===
---END WORKSHEET 2---"))).
  { assert (E : marker_blocks (H:=ascii_runtime) (u "===WORKSHEET 1===
- Count to ten.
===END WORKSHEET 1===
===WORKSHEET 2===
=== Count back ===
---END WORKSHEET 2---") = [u "
- Count to ten.
===END WORKSHEET 1===
"; u "
=== Count back ===
---END WORKSHEET 2---"]) by (vm_compute; reflexivity).
    rewrite E.
    repeat constructor;
      apply (has_content_cleaned (H:=ascii_runtime) ascii_runtime_digits);
      vm_compute; discriminate. }
  split_and!; [discriminate|exact Hblocks|].
  destruct (parse_worksheets_content (H:=ascii_runtime) (u "===WORKSHEET 1===
- Count to ten.
===END WORKSHEET 1===
===WORKSHEET 2===
=== Count back ===
---END WORKSHEET 2---") (u "Sums") 2 ltac:(discriminate)) as [Hall _].
  eexists. split; [reflexivity|]. split; [reflexivity|].
  apply Hall; [exact Hblocks|reflexivity].
Defined.

(** C2. For every text made of exactly four well-formed
    [===WORKSHEET n===] blocks, [n = 1..4], each followed by content
    (more than whitespace and end markers), [parse_worksheets] returns
    exactly 4 records whose numbers are 1, 2, 3, 4 in input order, each
    with non-empty content. *)
Theorem parse_worksheets_four_blocks `{Runtime}
    (pre c1 c2 c3 c4 topic : str) (num_sessions : Z) :
  ascii_digits →
  well_formed_blocks pre c1 c2 c3 c4 →
  ∃ w1 w2 w3 w4,
    parse_worksheets (four_blocks pre c1 c2 c3 c4) topic num_sessions
      = Ok [w1; w2; w3; w4]
    ∧ ws_number <$> [w1; w2; w3; w4] = [1; 2; 3; 4]
    ∧ Forall (λ w, ws_content w ≠ []) [w1; w2; w3; w4].
Proof.
  intros Hascii Hwf.
  pose proof (re_split_four_blocks Hascii pre c1 c2 c3 c4 Hwf) as Hsplit.
  destruct Hwf as (_ & _ & _ & _ & _ & Hc).
  inversion Hc as [|? ? Hc1 Hc']; subst.
  inversion Hc' as [|? ? Hc2 Hc'']; subst.
  inversion Hc'' as [|? ? Hc3 Hc''']; subst.
  inversion Hc''' as [|? ? Hc4 _]; subst.
  unfold parse_worksheets, patterns. cbn [split_by_markers].
  rewrite Hsplit. cbn [length]. rewrite bool_decide_eq_true_2 by lia.
  change (u "1") with [49%N]. change (u "2") with [50%N].
  change (u "3") with [51%N]. change (u "4") with [52%N].
  destruct (parse_block_digit Hascii topic c1 49 0 ltac:(lia) Hc1)
    as (w1 & E1 & N1 & C1).
  destruct (parse_block_digit Hascii topic c2 50 1 ltac:(lia) Hc2)
    as (w2 & E2 & N2 & C2).
  destruct (parse_block_digit Hascii topic c3 51 2 ltac:(lia) Hc3)
    as (w3 & E3 & N3 & C3).
  destruct (parse_block_digit Hascii topic c4 52 3 ltac:(lia) Hc4)
    as (w4 & E4 & N4 & C4).
  exists w1, w2, w3, w4. split_and!.
  - cbn [parse_blocks length app]. rewrite E1. cbn [mbind result_bind length app].
    rewrite E2. cbn [mbind result_bind length app].
    rewrite E3. cbn [mbind result_bind length app].
    rewrite E4. reflexivity.
  - cbn [fmap list_fmap]. by rewrite N1, N2, N3, N4.
  - by repeat constructor.
Qed.

Lemma parse_worksheets_four_blocks_witness :
  ascii_digits (H:=ascii_runtime)
  ∧ well_formed_blocks (H:=ascii_runtime)
      (u "Here are the worksheets.
")
      (u "
- Fill in the blanks
1. 2 + 2 = __
===END WORKSHEET 1===
")
      (u " === Adding === ")
      (u "
Subtract 3 from 5.
---END WORKSHEET 3---
")
      (u "
worksheet four")
  ∧ ∃ worksheets,
      parse_worksheets (H:=ascii_runtime)
        (u "Here are the worksheets.
===WORKSHEET 1===
- Fill in the blanks
1. 2 + 2 = __
===END WORKSHEET 1===
===WORKSHEET 2=== === Adding === ===WORKSHEET 3===
Subtract 3 from 5.
---END WORKSHEET 3---
===WORKSHEET 4===
worksheet four") (u "Sums") 4 = Ok worksheets
      ∧ ws_number <$> worksheets = [1; 2; 3; 4]
      ∧ ws_content <$> worksheets
        = [u "- Fill in the blanks
1. 2 + 2 = __
"; u "=== Adding ==="; u "Subtract 3 from 5.
"; u "worksheet four"].
Proof.
  assert (Hwf : well_formed_blocks (H:=ascii_runtime)
      (u "Here are the worksheets.
")
      (u "
- Fill in the blanks
1. 2 + 2 = __
===END WORKSHEET 1===
")
      (u " === Adding === ")
      (u "
Subtract 3 from 5.
---END WORKSHEET 3---
")
      (u "
worksheet four")).
  { split_and!; [reflexivity..|].
    repeat constructor;
      apply (has_content_cleaned (H:=ascii_runtime) ascii_runtime_digits);
      vm_compute; discriminate. }
  split; [exact ascii_runtime_digits|]. split; [exact Hwf|].
  destruct (parse_worksheets_four_blocks (H:=ascii_runtime)
      (u "Here are the worksheets.
")
      (u "
- Fill in the blanks
1. 2 + 2 = __
===END WORKSHEET 1===
")
      (u " === Adding === ")
      (u "
Subtract 3 from 5.
---END WORKSHEET 3---
")
      (u "
worksheet four") (u "Sums") 4 ascii_runtime_digits Hwf)
    as (w1 & w2 & w3 & w4 & Hws & Hnum & _).
  exists [w1; w2; w3; w4]. split_and!; [exact Hws|exact Hnum|].
  vm_compute in Hws. injection Hws as <- <- <- <-. reflexivity.
Defined.

(** ** Utterance interpreter *)

(** C10, as stated, fails: an utterance with an affirmative keyword and
    a restart keyword is read as a restart, at every stage. *)
Lemma confirmation_affirmative_counterexample :
  any_in yes_words (strip (uc_lower (Runtime:=ascii_runtime) (u "Yes, restart"))) = true
  ∧ parse_user_response (H:=ascii_runtime) (u "Yes, restart") CONFIRMATION
      (VStr (u "english"))
    = Ok {| p_value := VStr (u "RESTART"); needs_clarification := false |}
  ∧ parse_user_response (H:=ascii_runtime) (u "Yes, restart") CONFIRMATION
      (VStr (u "english"))
    ≠ Ok {| p_value := VBool true; needs_clarification := false |}.
Proof. split_and!; [reflexivity..|]. vm_compute. discriminate. Qed.

(** C10, amended.  At the CONFIRMATION stage, for every utterance whose
    lowercased text contains no restart keyword and at least one
    affirmative keyword, [parse_user_response] returns the value [True]
    with no clarification needed, whether or not the utterance contains
    a negative keyword. *)
Theorem confirmation_affirmative_first `{Runtime}
    (transcript : str) (language_mode : value) :
  any_in restart_words (strip (uc_lower transcript)) = false →
  any_in yes_words (strip (uc_lower transcript)) = true →
  parse_user_response transcript CONFIRMATION language_mode
  = Ok {| p_value := VBool true; needs_clarification := false |}.
Proof.
  intros Hrestart Hyes. unfold parse_user_response.
  by rewrite Hrestart, Hyes.
Qed.

Lemma confirmation_affirmative_first_witness :
  any_in restart_words
    (strip (uc_lower (Runtime:=ascii_runtime) (u "No, that is not right"))) = false
  ∧ any_in yes_words
      (strip (uc_lower (Runtime:=ascii_runtime) (u "No, that is not right"))) = true
  ∧ any_in no_words
      (strip (uc_lower (Runtime:=ascii_runtime) (u "No, that is not right"))) = true
  ∧ parse_user_response (H:=ascii_runtime) (u "No, that is not right") CONFIRMATION
      (VStr (u "english"))
    = Ok {| p_value := VBool true; needs_clarification := false |}.
Proof.
  split_and!; [reflexivity..|].
  apply (confirmation_affirmative_first (H:=ascii_runtime)); reflexivity.
Defined.

(** ** Dialogue stage machine *)

Section StageMachine.

Context `{Runtime}.

Lemma parse_number_clarify (transcript : str) (lo hi : Z) (mk : Z → value)
    (p : parsed) :
  parse_number transcript lo hi mk = Ok p →
  needs_clarification p = true → p = clarify.
Proof.
  unfold parse_number. destruct (first_digits transcript) as [digits|].
  - destruct (int_of_digits digits) as [n|e]; [|done]. cbn.
    destruct ((lo <=? n) && (n <=? hi)); intros [= <-]; done.
  - by intros [= <-].
Qed.



End StageMachine.





(** ** The one-shot text request *)

Section ReadFields.

Context `{Runtime}.

Lemma text_field_Ok (fields : gmap str json) (key fallback : str) :
  readable_text (default JNull (fields !! key)) →
  ∃ s, text_field (JObject fields) key fallback = Ok s.
Proof.
  unfold text_field, py_get, py_or. cbn [mbind result_bind].
  intros [Hx|[s Hx]]; rewrite Hx; [by eexists|].
  destruct (json_truthy (JStr s)); by eexists.
Qed.

Lemma count_field_Ok (fields : gmap str json) (key : str) (fallback : Z) :
  readable_count (default JNull (fields !! key)) →
  ∃ z, count_field (JObject fields) key fallback = Ok z.
Proof.
  unfold count_field, py_get, py_or. cbn [mbind result_bind].
  intros [Hx|[z Hx]]; [rewrite Hx; by eexists|].
  destruct (json_truthy _); [by exists z|by eexists].
Qed.

End ReadFields.

(** C9 fails on the code.  When the topic is missing or empty the
    handler puts the default ["Lesson Topic"] in its place before the
    check, so that the check for a missing topic and content never
    fires for it: whenever the handler emits anything, it announces the
    generation and calls it, whatever the content; and it does so
    whenever its other fields are readable (missing, or a text and a
    number where the handler expects them). *)
Theorem textmessage_missing_topic_generates `{Runtime}
    (fields : gmap str json) (gen : outcome generated) :
  json_truthy (default JNull (fields !! u "topic")) = false →
  (∀ actions,
     textmessage (JObject fields) gen = Ok actions →
     ∃ r subject class_level language session_duration num_sessions rest,
       actions
       = Emit r
         :: Generate (u "Lesson Topic") subject class_level language
                     session_duration num_sessions
         :: rest
       ∧ downloadid r = None)
  ∧ (Forall (λ key, readable_text (default JNull (fields !! key)))
            [u "subject"; u "classlevel"; u "language"; u "content"] →
     Forall (λ key, readable_count (default JNull (fields !! key)))
            [u "sessionduration"; u "numsessions"] →
     ∃ actions, textmessage (JObject fields) gen = Ok actions).
Proof.
  intros Htopic.
  assert (Et : text_field (JObject fields) (u "topic") (u "Lesson Topic")
               = Ok (u "Lesson Topic")).
  { unfold text_field, py_get, py_or. cbn [mbind result_bind]. by rewrite Htopic. }
  split.
  - intros actions. unfold textmessage. rewrite Et. cbn [mbind result_bind].
    destruct (text_field _ (u "subject") _) as [subject|];
      cbn [mbind result_bind]; [|done].
    destruct (text_field _ (u "classlevel") _) as [class_level|];
      cbn [mbind result_bind]; [|done].
    destruct (text_field _ (u "language") _) as [language|];
      cbn [mbind result_bind]; [|done].
    destruct (text_field _ (u "content") _) as [raw_content|];
      cbn [mbind result_bind]; [|done].
    destruct (count_field _ (u "sessionduration") _) as [d|];
      cbn [mbind result_bind]; [|done].
    destruct (count_field _ (u "numsessions") _) as [n|];
      cbn [mbind result_bind]; [|done].
    change (u "Lesson Topic") with (76%N :: tail (u "Lesson Topic")) at 1.
    cbv iota. intros [= <-]. repeat eexists.
  - intros Htext Hcount.
    inversion Htext as [|? ? Hs Htext1]; subst.
    inversion Htext1 as [|? ? Hc Htext2]; subst.
    inversion Htext2 as [|? ? Hl Htext3]; subst.
    inversion Htext3 as [|? ? Hr _]; subst.
    inversion Hcount as [|? ? Hd Hcount1]; subst.
    inversion Hcount1 as [|? ? Hn _]; subst.
    destruct (text_field_Ok fields _ (u "Mathematics") Hs) as [subject Es].
    destruct (text_field_Ok fields _ (u "Class 2") Hc) as [class_level Ec].
    destruct (text_field_Ok fields _ (u "English") Hl) as [language El].
    destruct (text_field_Ok fields _ [] Hr) as [raw_content Er].
    destruct (count_field_Ok fields _ 40 Hd) as [d Ed].
    destruct (count_field_Ok fields _ 4 Hn) as [n En].
    unfold textmessage. rewrite Et, Es, Ec, El, Er, Ed, En.
    cbn [mbind result_bind]. by eexists.
Qed.

Lemma textmessage_missing_topic_generates_witness :
  json_truthy (default JNull ((∅ : gmap str json) !! u "topic")) = false
  ∧ (∅ : gmap str json) !! u "content" = None
  ∧ ∃ r rest,
      textmessage (H:=ascii_runtime) empty_request (Failed (u "service unavailable"))
      = Ok (Emit r
            :: Generate (u "Lesson Topic") (u "Mathematics") (u "Class 2") (u "English")
                        40 4
            :: rest)
      ∧ downloadid r = None.
Proof.
  assert (Htopic : json_truthy (default JNull ((∅ : gmap str json) !! u "topic"))
                   = false) by reflexivity.
  split; [exact Htopic|]. split; [reflexivity|].
  destruct (textmessage_missing_topic_generates (H:=ascii_runtime) ∅
              (Failed (u "service unavailable")) Htopic) as [Hshape Hruns].
  destruct Hruns as [actions Ha]; [repeat constructor; by left..|].
  destruct (Hshape actions Ha)
    as (r & subject & class_level & language & dur & n & rest & -> & Hd).
  exists r, rest. split; [|exact Hd].
  unfold empty_request. rewrite Ha. vm_compute in Ha.
  injection Ha as _ <- <- <- <- <- _. reflexivity.
Defined.

(** * Further properties of the pipeline *)

(** ** [_split_into_n]: bad counts and conservation *)

Lemma py_range_nonpositive (n : Z) : n ≤ 0 → py_range n = [].
Proof. intros Hn. unfold py_range. by replace (Z.to_nat n) with 0%nat by lia. Qed.

Lemma split_into_n_nonpositive (items : list str) (n : Z) :
  n ≤ 0 →
  _split_into_n items n
  = match items with
    | [] => Ok []
    | _ => Raise (if n =? 0 then ZeroDivisionError else IndexError)
    end.
Proof.
  intros Hn. unfold _split_into_n. rewrite py_range_nonpositive by done.
  destruct items as [|x rest]; [done|].
  cbn [fmap list_fmap fill_buckets].
  destruct (Z.eqb_spec n 0) as [->|Hne]; [done|].
  unfold py_index_pos. cbn [length].
  rewrite Zmod_0_l. done.
Qed.

(** With a count of zero or less [_split_into_n] returns the empty list
    for no items, and raises for any item: [ZeroDivisionError] when the
    count is zero, [IndexError] when it is negative. *)
Theorem split_into_n_bad_count (items : list str) (n : Z) :
  n ≤ 0 →
  (items = [] → _split_into_n items n = Ok [])
  ∧ (items ≠ [] → n = 0 → _split_into_n items n = Raise ZeroDivisionError)
  ∧ (items ≠ [] → n < 0 → _split_into_n items n = Raise IndexError).
Proof.
  intros Hn. rewrite split_into_n_nonpositive by done. split_and!.
  - by intros ->.
  - intros Hi ->. by destruct items.
  - intros Hi Hneg. destruct items; [done|].
    destruct (Z.eqb_spec n 0); [lia|done].
Qed.

Lemma split_into_n_bad_count_witness :
  -2 ≤ 0
  ∧ _split_into_n [u "read"] 0 = Raise ZeroDivisionError
  ∧ _split_into_n [u "read"] (-2) = Raise IndexError
  ∧ _split_into_n [] (-2) = Ok [].
Proof.
  split; [lia|].
  destruct (split_into_n_bad_count [u "read"] 0 ltac:(lia)) as (_ & H0 & _).
  destruct (split_into_n_bad_count [u "read"] (-2) ltac:(lia)) as (_ & _ & H1).
  destruct (split_into_n_bad_count [] (-2) ltac:(lia)) as (H2 & _).
  split_and!; [by apply H0|by apply H1|by apply H2].
Defined.

Lemma concat_alter_snoc (buckets : list (list str)) (k : nat) (x : str) :
  (k < length buckets)%nat →
  concat (alter (λ b, b ++ [x]) k buckets) ≡ₚ concat buckets ++ [x].
Proof.
  revert k. induction buckets as [|b buckets IH]; intros k Hk; [cbn in Hk; lia|].
  destruct k as [|k]; cbn.
  - rewrite <- !app_assoc. apply Permutation_app_head, Permutation_app_comm.
  - rewrite IH by (cbn in Hk; lia). by rewrite app_assoc.
Qed.

Lemma fill_buckets_perm (n : Z) (items : list str) :
  1 ≤ n →
  ∀ (idx : Z) (buckets bs : list (list str)),
    0 ≤ idx →
    length buckets = Z.to_nat n →
    fill_buckets n idx items buckets = Ok bs →
    length bs = Z.to_nat n ∧ concat bs ≡ₚ concat buckets ++ items.
Proof.
  intros Hn. induction items as [|x rest IH]; intros idx buckets bs Hidx Hlen.
  - intros [= <-]. by rewrite app_nil_r.
  - cbn [fill_buckets]. destruct (Z.eqb_spec n 0); [lia|].
    rewrite (py_index_pos_mod n Hn) by done.
    intros Hfill. apply IH in Hfill as [Hl Hp]; [|lia|by rewrite length_alter].
    split; [done|]. rewrite Hp, concat_alter_snoc.
    + by rewrite <- app_assoc.
    + pose proof (Z.mod_pos_bound idx n ltac:(lia)). lia.
Qed.

Lemma concat_empty_buckets (n : Z) : concat ((λ _ : Z, @nil str) <$> py_range n) = [].
Proof. unfold py_range. induction (seq 0 (Z.to_nat n)); [done|]. by cbn. Qed.

(** Nothing is lost and nothing is added: for a count of at least one
    the result is a list of [n] buckets that hold, before an empty
    bucket is replaced by the placeholder, exactly the items (each as
    often as it was given); with at least [n] items no placeholder is
    put in. *)
Theorem split_into_n_conserves (items : list str) (n : Z) :
  1 ≤ n →
  ∃ filled,
    _split_into_n items n = Ok (or_dash <$> filled)
    ∧ length filled = Z.to_nat n
    ∧ concat filled ≡ₚ items
    ∧ ((Z.to_nat n ≤ length items)%nat → or_dash <$> filled = filled).
Proof.
  intros Hn.
  assert (Hinit : length ((λ _ : Z, @nil str) <$> py_range n) = Z.to_nat n)
    by (by rewrite length_fmap, py_range_length).
  destruct (fill_buckets_spec n Hn items 0 _ Hinit) as (filled & Hfill & Hl & Hj).
  change (Z.of_nat 0) with 0 in Hfill.
  pose proof (fill_buckets_perm n items Hn 0 _ filled ltac:(lia) Hinit Hfill)
    as [_ Hp].
  rewrite concat_empty_buckets in Hp.
  exists filled. split_and!; [|done|done|].
  - unfold _split_into_n. destruct items as [|x rest]; [|by rewrite Hfill].
    injection Hfill as <-. by rewrite <- list_fmap_compose.
  - intros Hmany. apply list_eq. intros j. rewrite list_lookup_fmap.
    destruct (filled !! j) as [b|] eqn:Eb; [|done]. cbn. f_equal.
    destruct b as [|y b]; [|done]. exfalso.
    assert (Hjn : (j < Z.to_nat n)%nat) by (apply lookup_lt_Some in Eb; lia).
    destruct (lookup_lt_is_Some_2 ((λ _ : Z, @nil str) <$> py_range n) j ltac:(lia))
      as [b0 Hb0].
    assert (b0 = []) as ->.
    { rewrite list_lookup_fmap in Hb0.
      destruct (py_range n !! j); cbn in Hb0; congruence. }
    rewrite (Hj j [] Hb0) in Eb. injection Eb as Eb. cbn [app] in Eb.
    destruct (lookup_lt_is_Some_2 items j ltac:(lia)) as [x Hx].
    assert (Hin : (j, x) ∈ filter (λ p : nat * str, Z.of_nat p.1 mod n = Z.of_nat j)
                            (imap (λ i y, ((0 + i)%nat, y)) items)).
    { apply list_elem_of_filter. split.
      - cbn. apply Z.mod_small. lia.
      - apply elem_of_lookup_imap. eauto. }
    destruct (filter _ _) as [|p l]; [by apply elem_of_nil in Hin|done].
Qed.

Lemma split_into_n_conserves_witness :
  1 ≤ 2
  ∧ ∃ buckets, _split_into_n [u "a"; u "b"; u "c"] 2 = Ok buckets
      ∧ concat buckets ≡ₚ [u "a"; u "b"; u "c"].
Proof.
  split; [lia|].
  destruct (split_into_n_conserves [u "a"; u "b"; u "c"] 2 ltac:(lia))
    as (filled & Hres & Hlen & Hperm & Hsame).
  exists filled. rewrite Hsame in Hres by (cbn; lia). done.
Defined.

(** ** Stripping and searching *)

Lemma drop_while_idem {A} (P : A → bool) (l : list A) :
  drop_while P (drop_while P l) = drop_while P l.
Proof.
  induction l as [|x l IH]; [done|]. cbn.
  destruct (P x) eqn:E; [done|]. cbn. by rewrite E.
Qed.

(** What [drop_while] removes is a prefix. *)
Lemma drop_while_suffix {A} (P : A → bool) (l : list A) :
  ∃ a, l = a ++ drop_while P l.
Proof.
  induction l as [|x l [a IH]]; [by exists []|]. cbn.
  destruct (P x); [|by exists []]. exists (x :: a). cbn. by f_equal.
Qed.

Lemma lstrip_suffix (s : str) : ∃ a, s = a ++ lstrip s.
Proof. apply drop_while_suffix. Qed.

Lemma rstrip_prefix (s : str) : ∃ b, s = rstrip s ++ b.
Proof.
  unfold rstrip. destruct (drop_while_suffix py_isspace (rev s)) as [a Ha].
  exists (rev a). rewrite <- rev_app_distr, <- Ha. by rewrite rev_involutive.
Qed.

Lemma strip_infix (s : str) : ∃ a b, s = a ++ strip s ++ b.
Proof.
  unfold strip. destruct (lstrip_suffix s) as [a Ha].
  destruct (rstrip_prefix (lstrip s)) as [b Hb].
  exists a, b. by rewrite <- Hb.
Qed.

Lemma lstrip_fixed (c : N) (r : str) :
  py_isspace c = false → lstrip (c :: r) = c :: r.
Proof. intros Hc. unfold lstrip. cbn. by rewrite Hc. Qed.

Lemma rstrip_idem (s : str) : rstrip (rstrip s) = rstrip s.
Proof. unfold rstrip. by rewrite rev_involutive, drop_while_idem. Qed.

(** [strip] leaves a stripped text as it is. *)
Lemma strip_idem (s : str) : strip (strip s) = strip s.
Proof.
  unfold strip. destruct (lstrip s) as [|c r] eqn:E.
  - reflexivity.
  - pose proof (drop_while_head _ _ _ _ E) as Hc.
    destruct (rstrip_head c r Hc) as [r' Hr].
    rewrite Hr, lstrip_fixed by done. rewrite <- Hr. apply rstrip_idem.
Qed.

Lemma strip_prefix_app (p s : str) : strip_prefix p (p ++ s) = Some s.
Proof.
  induction p as [|c p IH]; [by destruct s|]. cbn. by rewrite N.eqb_refl.
Qed.

Lemma occurs_at_alt (sub s : str) (k : nat) :
  occurs_at sub s k ↔ ∃ rest, drop k s = sub ++ rest.
Proof.
  unfold occurs_at. split.
  - intros [rest Hr]. exists rest. by apply strip_prefix_Some.
  - intros [rest ->]. rewrite strip_prefix_app. eauto.
Qed.

Lemma find_None (sub s : str) :
  find sub s = None ↔ ∀ k, ¬ occurs_at sub s k.
Proof.
  unfold occurs_at. induction s as [|c s IH]; cbn [find].
  - split.
    + destruct (strip_prefix sub []) eqn:E; [done|].
      intros _ k. rewrite drop_nil, E. by intros [? ?].
    + intros Hno. specialize (Hno 0%nat). cbn in Hno.
      destruct (strip_prefix sub []); [|done]. exfalso. eauto.
  - split.
    + destruct (strip_prefix sub (c :: s)) eqn:E; [done|].
      destruct (find sub s) eqn:F; [done|]. intros _ [|k].
      * cbn. rewrite E. by intros [? ?].
      * cbn. by apply IH.
    + intros Hno. pose proof (Hno 0%nat) as H0. cbn in H0.
      destruct (strip_prefix sub (c :: s)); [exfalso; eauto|].
      assert (F : find sub s = None) by (apply IH; intros k; apply (Hno (S k))).
      by rewrite F.
Qed.

Lemma find_Some (sub s : str) (i : nat) :
  find sub s = Some i →
  occurs_at sub s i ∧ ∀ k, (k < i)%nat → ¬ occurs_at sub s k.
Proof.
  unfold occurs_at. revert i. induction s as [|c s IH]; intros i; cbn [find].
  - destruct (strip_prefix sub []) eqn:E; [|done].
    intros [= <-]. cbn. rewrite E. split; [eauto|lia].
  - destruct (strip_prefix sub (c :: s)) eqn:E.
    + intros [= <-]. cbn. rewrite E. split; [eauto|lia].
    + destruct (find sub s) as [j|] eqn:F; [|done]. cbn. intros [= <-].
      destruct (IH j eq_refl) as [Hj Hbefore]. split; [done|].
      intros [|k] Hk; cbn.
      * rewrite E. by intros [? ?].
      * apply Hbefore. lia.
Qed.

(** An occurrence in a part of the text is an occurrence in the text. *)
Lemma occurs_at_infix (sub a mid b : str) (k : nat) :
  sub ≠ [] →
  occurs_at sub mid k → occurs_at sub (a ++ mid ++ b) (length a + k).
Proof.
  intros Hsub. rewrite !occurs_at_alt. intros [rest Hr].
  assert (Hk : (k < length mid)%nat).
  { destruct (decide (k < length mid)%nat); [done|].
    rewrite drop_ge in Hr by lia. by destruct sub. }
  exists (rest ++ b).
  rewrite drop_app_add', drop_app_le by lia. rewrite Hr. by rewrite <- app_assoc.
Qed.

Lemma find_None_infix (sub a mid b : str) :
  sub ≠ [] → find sub (a ++ mid ++ b) = None → find sub mid = None.
Proof.
  intros Hsub. rewrite !find_None. intros Hno k Hk.
  by apply (Hno (length a + k)%nat), occurs_at_infix.
Qed.

Lemma find_None_strip (sub s : str) :
  sub ≠ [] → find sub s = None → find sub (strip s) = None.
Proof.
  intros Hsub Hs. destruct (strip_infix s) as (a & b & E).
  rewrite E in Hs. by apply find_None_infix in Hs.
Qed.

(** The text before the first occurrence has none. *)
Lemma find_None_take (sub s : str) (i : nat) :
  sub ≠ [] → find sub s = Some i → find sub (take i s) = None.
Proof.
  intros Hsub Hi. apply find_Some in Hi as [_ Hbefore].
  apply find_None. intros k Hk. apply occurs_at_alt in Hk as [rest Hr].
  assert (Hlt : (k < length (take i s))%nat).
  { destruct (decide (k < length (take i s))%nat); [done|].
    rewrite drop_ge in Hr by lia. by destruct sub. }
  rewrite length_take in Hlt.
  apply (Hbefore k); [lia|]. apply occurs_at_alt.
  exists (rest ++ drop i s).
  rewrite <- (take_drop i s) at 1. rewrite drop_app_le by (rewrite length_take; lia).
  rewrite Hr. by rewrite <- app_assoc.
Qed.

(** ** [_extract_section] *)

(** The extracted section is stripped, and no line of it begins with
    [---]: it holds no line feed followed by three hyphens.  When the
    marker is absent it is the empty string. *)
Theorem extract_section_clean (full section_name : str) :
  strip (_extract_section full section_name) = _extract_section full section_name
  ∧ find (newline ++ u "---") (_extract_section full section_name) = None
  ∧ (find (u "---" ++ section_name ++ u "---") full = None →
     _extract_section full section_name = []).
Proof.
  unfold _extract_section.
  destruct (find (u "---" ++ section_name ++ u "---") full) as [i|]; [|done].
  set (after := drop _ full).
  destruct (find (newline ++ u "---") after) as [next_idx|] eqn:E.
  - split_and!; [apply strip_idem| |done].
    by apply find_None_strip, find_None_take.
  - split_and!; [apply strip_idem| |done].
    by apply find_None_strip.
Qed.

Lemma find_first (sub s : str) (i : nat) :
  occurs_at sub s i → (∀ k, (k < i)%nat → ¬ occurs_at sub s k) →
  find sub s = Some i.
Proof.
  intros Hi Hbefore. destruct (find sub s) as [j|] eqn:E.
  - apply find_Some in E as [Hj Hbj]. f_equal.
    destruct (Nat.lt_trichotomy i j) as [Hlt|[->|Hgt]]; [|done|].
    + by destruct (Hbj i Hlt).
    + by destruct (Hbefore j Hgt).
  - rewrite find_None in E. by destruct (E i).
Qed.

(** A first occurrence stays the first one when text is appended. *)
Lemma find_app_Some (sub x y : str) (i : nat) :
  sub ≠ [] → find sub x = Some i → find sub (x ++ y) = Some i.
Proof.
  intros Hsub Hx. apply find_Some in Hx as [Hi Hbefore].
  apply occurs_at_alt in Hi as [r Hr].
  assert (Hlen : (i + length sub ≤ length x)%nat).
  { apply (f_equal length) in Hr. rewrite length_drop, length_app in Hr.
    destruct sub; [done|]. cbn in Hr. cbn. lia. }
  apply find_first.
  - apply occurs_at_alt. exists (r ++ y).
    rewrite drop_app_le by lia. rewrite Hr. by rewrite <- app_assoc.
  - intros k Hk Hocc. apply (Hbefore k Hk).
    apply occurs_at_alt in Hocc as [r' Hr']. apply occurs_at_alt.
    rewrite drop_app_le in Hr' by lia.
    (* the occurrence ends before the one at [i] does *)
    exists (take (length x - k - length sub) r').
    apply (f_equal (take (length x - k))) in Hr'.
    rewrite take_app_length' in Hr' by (rewrite length_drop; lia).
    rewrite Hr'. by rewrite take_app_ge by lia.
Qed.

(** A line feed followed by three hyphens cannot begin inside [body]
    and end in a marker line that follows it, unless it lies in
    [body]. *)
Lemma next_marker_first (body rest : str) :
  find (newline ++ u "---") body = None →
  find (newline ++ u "---") (body ++ (newline ++ u "---") ++ rest)
  = Some (length body).
Proof.
  intros Hbody. rewrite find_None in Hbody. apply find_first.
  - apply occurs_at_alt. exists rest. by rewrite drop_app_length.
  - intros k Hk Hocc. apply (Hbody k).
    apply occurs_at_alt in Hocc as [r Hr]. apply occurs_at_alt.
    rewrite drop_app_le in Hr by lia.
    change (newline ++ u "---") with [10%N; 45%N; 45%N; 45%N] in *.
    destruct (drop k body) as [|c0 [|c1 [|c2 [|c3 t]]]] eqn:Ed.
    + apply (f_equal length) in Ed. rewrite length_drop in Ed. cbn in Ed. lia.
    + cbn in Hr. congruence.
    + cbn in Hr. congruence.
    + cbn in Hr. congruence.
    + cbn in Hr. injection Hr as -> -> -> -> _. by exists t.
Qed.

(** The section of a text written with its marker: what stands between
    the first marker and the next line that begins with [---] (or the
    end of the text), stripped. *)
Theorem extract_section_between (before body rest section_name : str) :
  let marker := u "---" ++ section_name ++ u "---" in
  find marker (before ++ marker) = Some (length before) →
  find (newline ++ u "---") body = None →
  _extract_section (before ++ marker ++ body) section_name = strip body
  ∧ _extract_section (before ++ marker ++ body ++ (newline ++ u "---") ++ rest)
      section_name
    = strip body.
Proof.
  intros marker Hfirst Hbody.
  assert (Hfind : ∀ tail, find marker (before ++ marker ++ tail) = Some (length before)).
  { intros tail. rewrite app_assoc. apply find_app_Some; [|done].
    unfold marker. by change (u "---") with [45%N; 45%N; 45%N]. }
  assert (Hafter : ∀ tail,
            drop (length before + length marker) (before ++ marker ++ tail) = tail).
  { intros tail. rewrite app_assoc, <- length_app. apply drop_app_length. }
  unfold _extract_section. fold marker. split.
  - rewrite Hfind, Hafter, Hbody. done.
  - rewrite Hfind, Hafter, next_marker_first by done.
    by rewrite take_app_length.
Qed.

Lemma extract_section_between_witness :
  find (u "---ACTIVITIES---") (u "Plan
" ++ u "---ACTIVITIES---") = Some (length (u "Plan
"))
  ∧ find (newline ++ u "---") (u "
- read
- draw
") = None
  ∧ _extract_section (u "Plan
---ACTIVITIES---
- read
- draw

---HOMEWORK---
- none") (u "ACTIVITIES") = u "- read
- draw".
Proof.
  split; [reflexivity|]. split; [reflexivity|].
  destruct (extract_section_between (u "Plan
") (u "
- read
- draw
") (u "HOMEWORK---
- none") (u "ACTIVITIES") ltac:(reflexivity) ltac:(reflexivity)) as [_ H].
  exact H.
Defined.

(** ** [_lines_to_list] *)

Lemma strip_head (s : str) (c : N) (r : str) :
  strip s = c :: r → py_isspace c = false.
Proof.
  unfold strip. destruct (lstrip s) as [|c' r'] eqn:E; [done|].
  pose proof (drop_while_head _ _ _ _ E) as Hc.
  destruct (rstrip_head c' r' Hc) as [r'' ->]. by intros [= <- _].
Qed.

Lemma rstrip_strip (s : str) : rstrip (strip s) = strip s.
Proof. unfold strip. apply rstrip_idem. Qed.

(** A non-empty end of a text without trailing whitespace has none
    either. *)
Lemma rstrip_suffix_fixed (a s : str) :
  rstrip (a ++ s) = a ++ s → rstrip s = s.
Proof.
  destruct s as [|c s]; [done|].
  unfold rstrip. intros Hfix. apply (f_equal (@rev N)) in Hfix.
  rewrite rev_involutive, rev_app_distr in Hfix.
  destruct (rev (c :: s)) as [|x t] eqn:E.
  { apply (f_equal length) in E. rewrite length_rev in E. done. }
  cbn in Hfix. destruct (py_isspace x) eqn:Hx.
  - apply (f_equal length) in Hfix.
    destruct (drop_while_suffix py_isspace (t ++ rev a)) as [pre Hpre].
    apply (f_equal length) in Hpre. cbn in Hfix.
    rewrite !length_app in *. exfalso. lia.
  - cbn. rewrite Hx. by rewrite <- E, rev_involutive.
Qed.

Section LinesToList.

Context `{Runtime}.

Lemma clean_line_trimmed (raw item : str) :
  clean_line raw = Some item →
  rstrip item = item ∧ ∀ c r, item = c :: r → c ≠ 32%N ∧ c ≠ 9%N.
Proof.
  unfold clean_line. destruct (strip raw) as [|c0 s0] eqn:Es; [done|].
  set (s := lstrip_chars (u "•- " ++ tab) (c0 :: s0)).
  assert (Hs : rstrip s = s ∧ ∀ c r, s = c :: r → c ≠ 32%N ∧ c ≠ 9%N).
  { split.
    - destruct (drop_while_suffix (λ c, bool_decide (c ∈ u "•- " ++ tab)) (c0 :: s0))
        as [a Ha].
      apply (rstrip_suffix_fixed a). fold (lstrip_chars (u "•- " ++ tab) (c0 :: s0)) in Ha.
      fold s in Ha. rewrite <- Ha, <- Es. apply rstrip_strip.
    - intros c r Hc. apply drop_while_head in Hc.
      apply bool_decide_eq_false in Hc.
      split; intros ->; apply Hc; vm_compute; set_solver. }
  assert (Hstrip : ∀ x : str,
            rstrip (strip x) = strip x
            ∧ ∀ c r, strip x = c :: r → c ≠ 32%N ∧ c ≠ 9%N).
  { intros x. split; [apply rstrip_strip|].
    intros c r Hc%strip_head. split; by intros ->. }
  destruct s as [|c [|c1 [|c2 rest]]]; intros [= <-]; try done.
  destruct (uc_isdigit c && bool_decide (c1 ∈ u ".)")); [apply Hstrip|done].
Qed.

End LinesToList.

(** Every item of [_lines_to_list] is free of trailing whitespace and
    begins with neither a space nor a tab, and there is one item for
    each line of the block that is not blank (a line that holds only a
    bullet gives an empty item). *)
Theorem lines_to_list_items `{Runtime} (block : str) :
  Forall (λ item, rstrip item = item
                  ∧ ∀ c r, item = c :: r → c ≠ 32%N ∧ c ≠ 9%N)
         (_lines_to_list block)
  ∧ length (_lines_to_list block)
    = length (filter (λ line, strip line ≠ []) (splitlines block)).
Proof.
  unfold _lines_to_list. destruct block as [|c block]; [by split|].
  generalize (splitlines (c :: block)). intros lines. split.
  - apply Forall_forall. intros item Hin.
    apply list_elem_of_omap in Hin as (raw & _ & Hraw).
    by apply clean_line_trimmed in Hraw.
  - induction lines as [|line lines IH]; [done|].
    cbn [omap list_omap]. rewrite filter_cons. unfold clean_line at 1.
    destruct (strip line) eqn:E.
    + rewrite decide_False by (by intros ?). exact IH.
    + rewrite decide_True by done. cbn. by rewrite IH.
Qed.

(** ** [parse_llm_to_sessions]: bad counts and the fields of a session *)

(** With a count of zero or less the planner returns no session when
    none of the three distributed sections (activities, resources,
    assessment) has an item, and raises as soon as one has:
    [ZeroDivisionError] for zero, [IndexError] for a negative count. *)
Theorem parse_llm_to_sessions_bad_count `{Runtime}
    (formatted_text : str) (session_duration num_sessions : Z) :
  num_sessions ≤ 0 →
  parse_llm_to_sessions formatted_text session_duration num_sessions
  = match _lines_to_list (_extract_section formatted_text (u "ACTIVITIES")),
          _lines_to_list (_extract_section formatted_text (u "TEACHING AIDS/RESOURCES")),
          _lines_to_list (_extract_section formatted_text (u "ASSESSMENT")) with
    | [], [], [] => Ok []
    | _, _, _ =>
      Raise (if num_sessions =? 0 then ZeroDivisionError else IndexError)
    end.
Proof.
  intros Hn. unfold parse_llm_to_sessions.
  rewrite !split_into_n_nonpositive, py_range_nonpositive by done.
  destruct (_lines_to_list (_extract_section formatted_text (u "ACTIVITIES")));
    [|done].
  destruct (_lines_to_list (_extract_section formatted_text
                              (u "TEACHING AIDS/RESOURCES"))); [|done].
  by destruct (_lines_to_list (_extract_section formatted_text (u "ASSESSMENT"))).
Qed.

Lemma parse_llm_to_sessions_bad_count_witness :
  0 ≤ 0
  ∧ parse_llm_to_sessions (H:=ascii_runtime) (u "---ACTIVITIES---
- read") 40 0 = Raise ZeroDivisionError
  ∧ parse_llm_to_sessions (H:=ascii_runtime) (u "no sections") 40 0 = Ok [].
Proof.
  split; [lia|]. split.
  - rewrite (parse_llm_to_sessions_bad_count (H:=ascii_runtime)) by lia. reflexivity.
  - rewrite (parse_llm_to_sessions_bad_count (H:=ascii_runtime)) by lia. reflexivity.
Defined.

(** What the loop builds for each index. *)
Lemma py_str_int_decimal `{Runtime} (z : Z) (d : str) :
  py_str_int z = Ok d → d = decimal z.
Proof. unfold py_str_int. destruct (_ && _); by intros [= <-]. Qed.

Lemma build_sessions_inv `{Runtime} (dur : Z) (obj out hw : list str)
    (act_n res_n assess_n : list (list str)) (indices : list Z)
    (sessions : list session) :
  build_sessions dur obj out hw act_n res_n assess_n indices = Ok sessions →
  Forall2 (λ i s, ∃ act res assess,
             item act_n i = Ok act ∧ item res_n i = Ok res
             ∧ item assess_n i = Ok assess
             ∧ s = {| sess_number := i + 1;
                      sess_duration := decimal dur ++ u " mins";
                      sess_competency := pick obj i (u "Competency based on objectives");
                      sess_elo := pick out i (u "Expected learning outcome");
                      sess_activities := act;
                      sess_resources_tlm :=
                        if bool_decide (res ≠ [dash]) then join (u "; ") res else dash;
                      sess_e_resources := [];
                      sess_worksheets := u "Worksheet " ++ decimal (i + 1);
                      sess_assessment :=
                        if bool_decide (assess ≠ [dash]) then join (u "; ") assess
                        else match hw with
                             | [] => dash
                             | _ => join (u "; ") hw
                             end |})
          indices sessions.
Proof.
  revert sessions. induction indices as [|i rest IH]; intros sessions.
  - intros [= <-]. constructor.
  - cbn [build_sessions].
    destruct (py_str_int dur) as [d|] eqn:Ed; [|done].
    apply py_str_int_decimal in Ed as ->. cbn [mbind result_bind].
    destruct (item act_n i) as [act|] eqn:Ea; [|done].
    destruct (item res_n i) as [res|] eqn:Er; [|done].
    destruct (item assess_n i) as [assess|] eqn:Eq; [|done].
    cbn [mbind result_bind].
    destruct (build_sessions dur obj out hw act_n res_n assess_n rest)
      as [ss|] eqn:Es; [|done].
    cbn [mbind result_bind]. intros [= <-]. constructor; [|by apply IH].
    by exists act, res, assess.
Qed.

Lemma py_range_lookup (n : Z) (k : nat) (i : Z) :
  py_range n !! k = Some i → i = Z.of_nat k ∧ (k < Z.to_nat n)%nat.
Proof.
  unfold py_range. rewrite list_lookup_fmap.
  destruct (seq 0 (Z.to_nat n) !! k) as [j|] eqn:E; [|done].
  apply lookup_seq in E as [-> ?]. cbn. intros [= <-]. done.
Qed.

Lemma pick_lookup (lst : list str) (i : Z) (fallback : str) :
  0 ≤ i → lst ≠ [] →
  lst !! (Z.to_nat i mod length lst)%nat = Some (pick lst i fallback).
Proof.
  intros Hi Hne.
  assert (Hlen : (0 < length lst)%nat) by (destruct lst; [done|cbn; lia]).
  assert (Hpick : pick lst i fallback
            = default fallback (lst !! Z.to_nat (i mod Z.of_nat (length lst))))
    by (by destruct lst).
  rewrite Hpick.
  replace (Z.to_nat (i mod Z.of_nat (length lst)))
    with (Z.to_nat i mod length lst)%nat.
  2:{ rewrite <- (Z2Nat.id i) at 2 by done.
      rewrite <- Nat2Z.inj_mod. by rewrite Nat2Z.id. }
  destruct (lookup_lt_is_Some_2 lst (Z.to_nat i mod length lst)) as [y ->];
    [|done].
  apply Nat.mod_upper_bound. lia.
Qed.

(** The sessions the planner returns: session [k] (counted from zero)
    has number [k + 1], the duration label, the worksheet reference
    [Worksheet k+1] and no e-resources; its competency and outcome
    wrap around the lists of objectives and of outcomes (item
    [k mod len]), with the fixed fallback texts when a list is
    empty. *)
Theorem parse_llm_to_sessions_fields `{Runtime}
    (formatted_text : str) (session_duration num_sessions : Z)
    (sessions : list session) (k : nat) (s : session) :
  parse_llm_to_sessions formatted_text session_duration num_sessions = Ok sessions →
  sessions !! k = Some s →
  let obj_list :=
    _lines_to_list (_extract_section formatted_text (u "LEARNING OBJECTIVES")) in
  let out_list :=
    _lines_to_list (_extract_section formatted_text (u "LEARNING OUTCOMES")) in
  sess_number s = Z.of_nat k + 1
  ∧ sess_duration s = decimal session_duration ++ u " mins"
  ∧ sess_worksheets s = u "Worksheet " ++ decimal (Z.of_nat k + 1)
  ∧ sess_e_resources s = []
  ∧ match obj_list with
    | [] => sess_competency s = u "Competency based on objectives"
    | _ => obj_list !! (k mod length obj_list)%nat = Some (sess_competency s)
    end
  ∧ match out_list with
    | [] => sess_elo s = u "Expected learning outcome"
    | _ => out_list !! (k mod length out_list)%nat = Some (sess_elo s)
    end.
Proof.
  intros Hparse Hk obj_list out_list. unfold parse_llm_to_sessions in Hparse.
  fold obj_list out_list in Hparse.
  destruct (_split_into_n (_lines_to_list (_extract_section formatted_text
              (u "ACTIVITIES"))) num_sessions) as [act_n|];
    cbn [mbind result_bind] in Hparse; [|done].
  destruct (_split_into_n (_lines_to_list (_extract_section formatted_text
              (u "TEACHING AIDS/RESOURCES"))) num_sessions) as [res_n|];
    cbn [mbind result_bind] in Hparse; [|done].
  destruct (_split_into_n (_lines_to_list (_extract_section formatted_text
              (u "ASSESSMENT"))) num_sessions) as [assess_n|];
    cbn [mbind result_bind] in Hparse; [|done].
  apply build_sessions_inv in Hparse.
  destruct (Forall2_lookup_r _ _ _ _ _ Hparse Hk) as (i & Hi & act & res & q & _ & _ & _ & ->).
  apply py_range_lookup in Hi as [-> _].
  cbn [sess_number sess_duration sess_worksheets sess_e_resources
       sess_competency sess_elo].
  split_and!; try done.
  - destruct obj_list as [|o l] eqn:E; [done|]. rewrite <- E.
    rewrite <- (Nat2Z.id k) at 1. apply pick_lookup; [lia|by rewrite E].
  - destruct out_list as [|o l] eqn:E; [done|]. rewrite <- E.
    rewrite <- (Nat2Z.id k) at 1. apply pick_lookup; [lia|by rewrite E].
Qed.

Lemma parse_llm_to_sessions_fields_witness :
  ∃ sessions s,
    parse_llm_to_sessions (H:=ascii_runtime) (u "---LEARNING OBJECTIVES---
- count
- add
---ACTIVITIES---
- read") 40 3 = Ok sessions
    ∧ sessions !! 2%nat = Some s
    ∧ sess_number s = 3
    ∧ sess_competency s = u "count"
    ∧ sess_elo s = u "Expected learning outcome".
Proof.
  destruct (parse_llm_to_sessions (H:=ascii_runtime) (u "---LEARNING OBJECTIVES---
- count
- add
---ACTIVITIES---
- read") 40 3) as [sessions|] eqn:E;
    [|by vm_compute in E].
  destruct (sessions !! 2%nat) as [s|] eqn:Ek.
  2:{ vm_compute in E. injection E as <-. done. }
  exists sessions, s. split; [done|]. split; [done|].
  destruct (parse_llm_to_sessions_fields (H:=ascii_runtime) (u "---LEARNING OBJECTIVES---
- count
- add
---ACTIVITIES---
- read") 40 3 sessions 2 s E Ek)
    as (Hn & _ & _ & _ & Hc & He).
  split; [exact Hn|]. split; [|exact He].
  vm_compute in Hc |- *. by injection Hc.
Defined.

Lemma item_elem_of {A} (xs : list A) (i : Z) (x : A) :
  item xs i = Ok x → x ∈ xs.
Proof.
  unfold item. destruct (py_index_pos xs i) as [k|]; [|done].
  destruct (xs !! k) as [y|] eqn:E; [|done].
  intros [= <-]. by eapply list_elem_of_lookup_2.
Qed.

(** A plan without assessment items: when the ASSESSMENT section is
    absent or has no item, every session's assessment is the homework
    items joined by a semicolon, or a dash when there is no homework
    either. *)
Theorem parse_llm_to_sessions_assessment_fallback `{Runtime}
    (formatted_text : str) (session_duration num_sessions : Z)
    (sessions : list session) :
  parse_llm_to_sessions formatted_text session_duration num_sessions = Ok sessions →
  _lines_to_list (_extract_section formatted_text (u "ASSESSMENT")) = [] →
  let hw_list := _lines_to_list (_extract_section formatted_text (u "HOMEWORK")) in
  Forall (λ s, sess_assessment s
               = match hw_list with [] => dash | _ => join (u "; ") hw_list end)
         sessions.
Proof.
  intros Hparse Hempty hw_list. unfold parse_llm_to_sessions in Hparse.
  fold hw_list in Hparse. rewrite Hempty in Hparse.
  destruct (_split_into_n (_lines_to_list (_extract_section formatted_text
              (u "ACTIVITIES"))) num_sessions) as [act_n|];
    cbn [mbind result_bind] in Hparse; [|done].
  destruct (_split_into_n (_lines_to_list (_extract_section formatted_text
              (u "TEACHING AIDS/RESOURCES"))) num_sessions) as [res_n|];
    cbn [mbind result_bind] in Hparse; [|done].
  cbn [_split_into_n mbind result_bind] in Hparse.
  apply build_sessions_inv in Hparse.
  apply Forall_forall. intros s Hs.
  apply list_elem_of_lookup in Hs as [k Hk].
  destruct (Forall2_lookup_r _ _ _ _ _ Hparse Hk)
    as (i & _ & act & res & assess & _ & _ & Hassess & ->).
  apply item_elem_of, list_elem_of_fmap in Hassess as (? & -> & _).
  cbn [sess_assessment]. rewrite bool_decide_false; [done|]. by intros [].
Qed.

Lemma parse_llm_to_sessions_assessment_fallback_witness :
  ∃ sessions,
    parse_llm_to_sessions (H:=ascii_runtime) (u "---ACTIVITIES---
- read
---HOMEWORK---
- page 4
- page 5") 40 2 = Ok sessions
    ∧ Forall (λ s, sess_assessment s = u "page 4; page 5") sessions.
Proof.
  destruct (parse_llm_to_sessions (H:=ascii_runtime) (u "---ACTIVITIES---
- read
---HOMEWORK---
- page 4
- page 5") 40 2) as [sessions|] eqn:E; [|by vm_compute in E].
  exists sessions. split; [done|].
  exact (parse_llm_to_sessions_assessment_fallback (H:=ascii_runtime) (u "---ACTIVITIES---
- read
---HOMEWORK---
- page 4
- page 5") 40 2 sessions E eq_refl).
Defined.

(** ** [parse_worksheets]: bad counts and the marker path *)

(** On the fallback path the session count divides the number of
    chunks: a count of zero raises [ZeroDivisionError], since no list
    is shorter than zero; a negative count gives an empty range and no
    worksheet at all. *)
Theorem parse_worksheets_fallback_bad_count `{Runtime}
    (worksheet_text topic : str) :
  fallback_path worksheet_text = true →
  parse_worksheets worksheet_text topic 0 = Raise ZeroDivisionError
  ∧ ∀ num_sessions, num_sessions < 0 →
      parse_worksheets worksheet_text topic num_sessions = Ok [].
Proof.
  intros Hfb. split.
  - rewrite parse_worksheets_fallback by done.
    unfold fallback_worksheets, chunk_size_of.
    destruct (Z.leb_spec 0 (Z.of_nat (length (split blank_line worksheet_text))));
      [done|lia].
  - intros n Hn. rewrite parse_worksheets_fallback by done.
    unfold fallback_worksheets, chunk_size_of.
    destruct (Z.leb_spec n (Z.of_nat (length (split blank_line worksheet_text))));
      [|lia].
    destruct (Z.eqb_spec n 0); [lia|].
    cbn [mbind result_bind]. by rewrite py_range_nonpositive by lia.
Qed.

Lemma parse_worksheets_fallback_bad_count_witness :
  parse_worksheets (H:=ascii_runtime) (u "Count to ten.") (u "Sums") 0
    = Raise ZeroDivisionError
  ∧ parse_worksheets (H:=ascii_runtime) (u "Count to ten.") (u "Sums") (-2) = Ok [].
Proof.
  destruct (parse_worksheets_fallback_bad_count (H:=ascii_runtime)
              (u "Count to ten.") (u "Sums") eq_refl) as [H0 Hneg].
  split; [exact H0|]. apply Hneg. lia.
Defined.

(** When one of the four marker styles splits the text, the session
    count plays no part: the result, worksheets or error, is the same
    for every [num_sessions]. *)
Theorem parse_worksheets_marker_ignores_count `{Runtime}
    (worksheet_text topic : str) (num_sessions num_sessions' : Z) :
  fallback_path worksheet_text = false →
  parse_worksheets worksheet_text topic num_sessions
  = parse_worksheets worksheet_text topic num_sessions'.
Proof.
  intros Hfb.
  destruct (parse_worksheets_marker worksheet_text topic num_sessions Hfb)
    as (first & num & content & rest & Hs & ->).
  destruct (parse_worksheets_marker worksheet_text topic num_sessions' Hfb)
    as (first' & num' & content' & rest' & Hs' & ->).
  rewrite Hs in Hs'. by injection Hs' as <- <- <- <-.
Qed.

Lemma parse_worksheets_marker_ignores_count_witness :
  parse_worksheets (H:=ascii_runtime) (u "Worksheet 7: count to ten") (u "Sums") 1
  = parse_worksheets (H:=ascii_runtime) (u "Worksheet 7: count to ten") (u "Sums") 0.
Proof.
  exact (parse_worksheets_marker_ignores_count (H:=ascii_runtime)
           (u "Worksheet 7: count to ten") (u "Sums") 1 0 eq_refl).
Defined.

(** On the marker path there is one worksheet per marker of the first
    style that splits, in order, and the content of each is the text
    after its marker, stripped and with the [===END WORKSHEET n===] and
    [---END WORKSHEET n---] markers removed. *)
Theorem parse_worksheets_marker_contents `{Runtime}
    (worksheet_text topic : str) (num_sessions : Z) (worksheets : list worksheet) :
  fallback_path worksheet_text = false →
  parse_worksheets worksheet_text topic num_sessions = Ok worksheets →
  ws_content <$> worksheets
  = (λ block, re_sub_empty (u "---END WORKSHEET ", u "---")
                (re_sub_empty (u "===END WORKSHEET ", u "===") (strip block)))
      <$> marker_blocks worksheet_text.
Proof.
  intros Hfb.
  destruct (parse_worksheets_marker worksheet_text topic num_sessions Hfb)
    as (first & num & content & rest & Hs & ->).
  unfold marker_blocks. rewrite Hs. intros E.
  by apply (parse_blocks_spec topic _ _ _ _ (le_n _)) in E as (more & -> & Hmore).
Qed.

Lemma parse_worksheets_marker_contents_witness :
  ∃ worksheets,
    parse_worksheets (H:=ascii_runtime) (u "**worksheet 1** add
---END WORKSHEET 1---
**worksheet 2** subtract ") (u "Sums") 4 = Ok worksheets
    ∧ ws_content <$> worksheets = [u "add
"; u "subtract"].
Proof.
  destruct (parse_worksheets (H:=ascii_runtime) (u "**worksheet 1** add
---END WORKSHEET 1---
**worksheet 2** subtract ") (u "Sums") 4) as [worksheets|] eqn:E;
    [|by vm_compute in E].
  exists worksheets. split; [done|].
  rewrite (parse_worksheets_marker_contents (H:=ascii_runtime) (u "**worksheet 1** add
---END WORKSHEET 1---
**worksheet 2** subtract ") (u "Sums") 4 worksheets eq_refl E).
  by vm_compute.
Defined.

(** ** [parse_user_response]: accepted values and errors *)

Lemma span_Forall {A} (P : A → bool) (l a b : list A) :
  span P l = (a, b) → Forall (λ x, P x = true) a.
Proof.
  revert a b. induction l as [|x l IH]; intros a b; cbn [span].
  - by intros [= <- <-].
  - destruct (P x) eqn:E; [|by intros [= <- <-]].
    destruct (span P l) as [a' b']. intros [= <- <-].
    constructor; [done|]. by eapply IH.
Qed.

Lemma span_length {A} (P : A → bool) (l a b : list A) :
  span P l = (a, b) → (length a ≤ length l)%nat.
Proof.
  revert a b. induction l as [|x l IH]; intros a b; cbn [span].
  - by intros [= <- <-].
  - destruct (P x); [|intros [= <- <-]; cbn; lia].
    destruct (span P l) as [a' b']. intros [= <- <-].
    cbn. specialize (IH a' b' eq_refl). lia.
Qed.

Lemma drop_while_length {A} (P : A → bool) (l : list A) :
  (length (drop_while P l) ≤ length l)%nat.
Proof.
  induction l as [|x l IH]; cbn; [lia|]. destruct (P x); cbn; lia.
Qed.

Section Interpreter.

Context `{Runtime}.

Lemma first_digits_decimal (s digits : str) :
  first_digits s = Some digits →
  Forall (λ c, is_decimal c = true) digits ∧ (length digits ≤ length s)%nat.
Proof.
  unfold first_digits.
  destruct (span is_decimal _) as [a b] eqn:E.
  pose proof (span_Forall _ _ _ _ E) as Hall.
  pose proof (span_length _ _ _ _ E) as Hlen.
  pose proof (drop_while_length (λ c, negb (is_decimal c)) s).
  destruct a; [done|]. intros [= <-]. split; [done|lia].
Qed.

(** Reading digits that [\d] matched never fails on a character. *)
Lemma read_decimals (digits : str) (acc : Z) :
  Forall (λ c, is_decimal c = true) digits →
  ∃ n, foldl (λ acc c, n ← acc;
                match uc_decimal c with
                | Some d => Ok (10 * n + d)
                | None => Raise ValueError
                end) (Ok acc) digits = Ok n.
Proof.
  revert acc. induction digits as [|c digits IH]; intros acc Hall; [by eexists|].
  inversion Hall as [|? ? Hc Hrest]; subst. cbn [foldl mbind result_bind].
  unfold is_decimal in Hc. destruct (uc_decimal c) as [d|]; [|done].
  by apply IH.
Qed.

Lemma int_of_digits_cases (digits : str) :
  Forall (λ c, is_decimal c = true) digits →
  if negb (int_max_str_digits =? 0)%N
     && (int_max_str_digits <? N.of_nat (length digits))%N
  then int_of_digits digits = Raise ValueError
  else ∃ n, int_of_digits digits = Ok n.
Proof.
  intros Hall. unfold int_of_digits.
  destruct (negb _ && _); [done|]. by apply read_decimals.
Qed.

Lemma parse_number_accept (transcript : str) (lo hi : Z) (mk : Z → value)
    (p : parsed) :
  parse_number transcript lo hi mk = Ok p →
  needs_clarification p = false →
  ∃ n, lo ≤ n ≤ hi ∧ p_value p = mk n.
Proof.
  unfold parse_number. destruct (first_digits transcript) as [digits|].
  - destruct (int_of_digits digits) as [n|e]; [|done]. cbn [mbind result_bind].
    destruct (Z.leb_spec lo n), (Z.leb_spec n hi); cbn [andb];
      intros [= <-]; try done.
    intros _. by exists n.
  - by intros [= <-].
Qed.

Lemma parse_number_Raise (transcript : str) (lo hi : Z) (mk : Z → value) (e : exn) :
  parse_number transcript lo hi mk = Raise e →
  e = ValueError
  ∧ int_max_str_digits ≠ 0%N
  ∧ (int_max_str_digits < N.of_nat (length transcript))%N.
Proof.
  unfold parse_number. destruct (first_digits transcript) as [digits|] eqn:E; [|done].
  apply first_digits_decimal in E as [Hall Hlen].
  pose proof (int_of_digits_cases digits Hall) as Hcases.
  destruct (N.eqb_spec int_max_str_digits 0) as [Hz|Hnz]; cbn [negb andb] in Hcases.
  { destruct Hcases as [n ->]. cbn. by destruct (_ && _). }
  destruct (N.ltb_spec int_max_str_digits (N.of_nat (length digits))) as [Hlt|Hge].
  - rewrite Hcases. cbn. intros [= <-]. split_and!; [done|done|lia].
  - destruct Hcases as [n ->]. cbn. by destruct (_ && _).
Qed.

End Interpreter.

(** An accepted reply carries a value of the kind its stage asks for:
    the restart command at any stage, or else a language name, a
    stripped topic of at least three characters, a subject of the
    table or the title-cased text of at least three characters, a
    class from 1 to 12, a duration from 15 to 90, a count from 1 to 10,
    or a Boolean. *)
Theorem parse_user_response_accepted `{Runtime}
    (transcript : str) (s : stage) (language_mode : value) (p : parsed) :
  parse_user_response transcript s language_mode = Ok p →
  needs_clarification p = false →
  p_value p = VStr (u "RESTART")
  ∨ match s with
    | LANGUAGE_SELECTION =>
      p_value p = VStr (u "english") ∨ p_value p = VStr (u "hindi")
    | TOPIC_COLLECTION =>
      p_value p = VStr (strip transcript) ∧ (3 ≤ length (strip transcript))%nat
    | SUBJECT_COLLECTION =>
      (∃ key subject, (key, subject) ∈ subjects_map ∧ p_value p = VStr subject)
      ∨ (p_value p = VStr (uc_title (strip transcript))
         ∧ (3 ≤ length (strip transcript))%nat)
    | CLASS_COLLECTION =>
      ∃ n, 1 ≤ n ≤ 12 ∧ p_value p = VStr (u "Class " ++ decimal n)
    | SESSION_DURATION => ∃ n, 15 ≤ n ≤ 90 ∧ p_value p = VInt n
    | NUM_SESSIONS => ∃ n, 1 ≤ n ≤ 10 ∧ p_value p = VInt n
    | CONFIRMATION => ∃ b, p_value p = VBool b
    end.
Proof.
  unfold parse_user_response.
  destruct (any_in restart_words _); [intros [= <-]; by left|].
  intros Hp Hc. right. destruct s.
  - revert Hp Hc.
    repeat (match goal with |- context [if ?b then _ else _] => destruct b end);
      intros [= <-] Hc; cbn in *; first [done | by left | by right].
  - injection Hp as <-. cbn in *. split; [done|].
    apply bool_decide_eq_false in Hc. lia.
  - destruct (lookup_subject _) as [subject|] eqn:E.
    + injection Hp as <-. left. unfold lookup_subject in E.
      destruct (List.find _ subjects_map) as [[key subject']|] eqn:Ef; [|done].
      injection E as <-. apply find_some in Ef as [Hin _].
      exists key, subject'. split; [|done]. by apply list_elem_of_In.
    + revert Hp. case_bool_decide; intros [= <-]; [|done]. right. split; [done|lia].
  - by apply (parse_number_accept _ _ _ _ _ Hp).
  - by apply (parse_number_accept _ _ _ _ _ Hp).
  - by apply (parse_number_accept _ _ _ _ _ Hp).
  - revert Hp Hc.
    repeat (match goal with |- context [if ?b then _ else _] => destruct b end);
      intros [= <-] Hc; cbn in *; first [done | by eexists].
Qed.

Lemma parse_user_response_accepted_witness :
  parse_user_response (H:=ascii_runtime) (u "Forty five minutes, 45") SESSION_DURATION
    (VStr (u "english")) = Ok (accept (VInt 45))
  ∧ ∃ n, 15 ≤ n ≤ 90 ∧ VInt 45 = VInt n.
Proof.
  split; [reflexivity|].
  destruct (parse_user_response_accepted (H:=ascii_runtime)
              (u "Forty five minutes, 45") SESSION_DURATION (VStr (u "english"))
              (accept (VInt 45)) eq_refl eq_refl) as [Hr|Hv]; [done|exact Hv].
Defined.

(** A reply that asks for clarification carries no value, except at
    the topic stage, where it carries the stripped text that was too
    short. *)
Theorem parse_user_response_clarification `{Runtime}
    (transcript : str) (s : stage) (language_mode : value) (p : parsed) :
  parse_user_response transcript s language_mode = Ok p →
  needs_clarification p = true →
  if decide (s = TOPIC_COLLECTION)
  then p_value p = VStr (strip transcript) ∧ (length (strip transcript) < 3)%nat
  else p_value p = VNone.
Proof.
  unfold parse_user_response.
  destruct (any_in restart_words _); [by intros [= <-]|].
  destruct s; cbn [decide_rel stage_eq_dec].
  - repeat (match goal with |- context [if ?b then _ else _] => destruct b end);
      by intros [= <-].
  - intros [= <-]. cbn. by intros Hlen%bool_decide_eq_true.
  - destruct (lookup_subject _); [by intros [= <-]|].
    case_bool_decide; by intros [= <-].
  - intros Hp Hc. by rewrite (parse_number_clarify _ _ _ _ _ Hp Hc).
  - intros Hp Hc. by rewrite (parse_number_clarify _ _ _ _ _ Hp Hc).
  - intros Hp Hc. by rewrite (parse_number_clarify _ _ _ _ _ Hp Hc).
  - repeat (match goal with |- context [if ?b then _ else _] => destruct b end);
      by intros [= <-].
Qed.

Lemma parse_user_response_clarification_witness :
  p_value (clarify) = VNone
  ∧ parse_user_response (H:=ascii_runtime) (u "class thirteen, 13") CLASS_COLLECTION
      VNone = Ok clarify.
Proof.
  split; [|reflexivity].
  exact (parse_user_response_clarification (H:=ascii_runtime)
           (u "class thirteen, 13") CLASS_COLLECTION VNone clarify eq_refl eq_refl).
Defined.

(** The interpreter fails only in [int()]: the error is [ValueError],
    the stage reads a number, and the runtime limits the digits of an
    integer to fewer characters than the utterance has.  In every
    other case it returns a reply. *)
Theorem parse_user_response_raises `{Runtime}
    (transcript : str) (s : stage) (language_mode : value) (e : exn) :
  parse_user_response transcript s language_mode = Raise e →
  e = ValueError
  ∧ s ∈ [CLASS_COLLECTION; SESSION_DURATION; NUM_SESSIONS]
  ∧ int_max_str_digits ≠ 0%N
  ∧ (int_max_str_digits < N.of_nat (length transcript))%N.
Proof.
  unfold parse_user_response.
  destruct (any_in restart_words _); [done|].
  destruct s;
    try (repeat (match goal with
                 | |- context [if ?b then _ else _] => destruct b
                 | |- context [match lookup_subject ?t with _ => _ end] =>
                   destruct (lookup_subject t)
                 end); done).
  all: intros (-> & Hl & Hlen)%parse_number_Raise; split_and!; try done;
    set_solver.
Qed.

Lemma parse_user_response_raises_witness :
  parse_user_response (H:=ascii_runtime) (replicate 4301 49%N) NUM_SESSIONS VNone
    = Raise ValueError
  ∧ (int_max_str_digits (Runtime:=ascii_runtime)
     < N.of_nat (length (replicate 4301 49%N)))%N.
Proof.
  assert (E : parse_user_response (H:=ascii_runtime) (replicate 4301 49%N)
                NUM_SESSIONS VNone = Raise ValueError) by (by vm_compute).
  split; [exact E|].
  exact (proj2 (proj2 (proj2 (parse_user_response_raises (H:=ascii_runtime)
                                (replicate 4301 49%N) NUM_SESSIONS VNone ValueError E)))).
Defined.

(** ** The [voicemessage] handler: what every call does *)

Lemma emit_text_no_download (response_text : result str) (lang : value) :
  no_download (emit_text response_text lang).
Proof.
  destruct response_text as [[|c t]|e]; cbn [emit_text]; repeat constructor.
Qed.

Lemma no_download_elem (events : list emitted) (r : response) (id : str) :
  no_download events → Response r ∈ events → downloadid r = Some id → False.
Proof.
  intros Hall Hr Hid. unfold no_download in Hall. rewrite Forall_forall in Hall.
  specialize (Hall _ Hr). cbn in Hall. congruence.
Qed.

Section Handler.

Context `{Runtime}.

Lemma prompts_nonempty (s : stage) (key : value) (prompt : data → str) (d : data) :
  PROMPTS s key = Ok prompt → prompt d ≠ [].
Proof.
  unfold PROMPTS. repeat case_bool_decide; intros [= <-]; destruct s; by vm_compute.
Qed.

Lemma emit_prompt_nonempty (s : stage) (key lang : value) (d : data) :
  emit_text (prompt ← PROMPTS s key; Ok (prompt d)) lang ≠ [].
Proof.
  destruct (PROMPTS s key) as [prompt|e] eqn:E; cbn [mbind result_bind emit_text];
    [|done].
  pose proof (prompts_nonempty _ _ _ d E). by destruct (prompt d).
Qed.

End Handler.

(** A voice message changes the conversation of its own session only:
    whatever the audio, the transcription and the generation give, the
    state of every other session is as before. *)
Theorem voicemessage_other_sessions `{Runtime}
    (conversation_states : gmap str ConversationState) (sid audio other : str)
    (provider : outcome (option str)) (gen : outcome generated) :
  other ≠ sid →
  (voicemessage conversation_states sid audio provider gen).1 !! other
  = conversation_states !! other.
Proof.
  intros Hother. unfold voicemessage, collect.
  destruct audio as [|a audio]; [done|].
  destruct (conversation_states !! sid) as [state|] eqn:Hstate;
    [|cbn [fst]; by rewrite lookup_insert_ne].
  handler_paths; cbn [fst];
    by rewrite ?lookup_delete_ne, ?lookup_insert_ne by done.
Qed.

Lemma voicemessage_other_sessions_witness :
  let conversation_states : gmap str ConversationState :=
    {[ u "s1" := new_state (u "s1"); u "s2" := new_state (u "s2") ]} in
  (voicemessage (H:=ascii_runtime) conversation_states (u "s1") (u "UklGRg==")
     (Returned (Some (u "Hindi please"))) (Failed [])).1 !! u "s2"
  = Some (new_state (u "s2")).
Proof.
  intros conversation_states.
  rewrite (voicemessage_other_sessions (H:=ascii_runtime) conversation_states
             (u "s1") (u "UklGRg==") (u "s2") _ _ ltac:(done)).
  reflexivity.
Defined.

(** A download id is handed out in one situation only: the session is
    at the confirmation stage and the generation succeeded.  The id is
    the one of the stored lesson, and the conversation of the session
    is removed. *)
Theorem voicemessage_download_id `{Runtime}
    (conversation_states : gmap str ConversationState) (sid audio : str)
    (provider : outcome (option str)) (gen : outcome generated)
    (r : response) (id : str) :
  Response r ∈ (voicemessage conversation_states sid audio provider gen).2 →
  downloadid r = Some id →
  ∃ state g,
    conversation_states !! sid = Some state
    ∧ stage_of state = CONFIRMATION
    ∧ gen = Returned g
    ∧ id = lesson_id g
    ∧ (voicemessage conversation_states sid audio provider gen).1
      = delete sid conversation_states.
Proof.
  unfold voicemessage, collect.
  destruct audio as [|a audio].
  { cbn [snd]. intros Hr Hid. exfalso.
    eapply no_download_elem; [|exact Hr|exact Hid]. repeat constructor. }
  destruct (conversation_states !! sid) as [state|] eqn:Hstate.
  2:{ cbn [snd]. intros Hr Hid. exfalso.
      eapply no_download_elem; [|exact Hr|exact Hid]. repeat constructor. }
  handler_paths; cbn [fst snd].
  all: try (intros Hr Hid; exfalso;
            eapply no_download_elem; [|exact Hr|exact Hid];
            first [ apply emit_text_no_download
                  | by repeat constructor ]).
  intros Hr Hid.
  apply elem_of_cons in Hr as [Hr|Hr].
  { exfalso. injection Hr as ->. cbn [downloadid reply] in Hid. discriminate. }
  apply list_elem_of_singleton in Hr. injection Hr as ->.
  cbn [downloadid] in Hid. injection Hid as <-.
  eexists _, _. split_and!; [reflexivity|eassumption|reflexivity|reflexivity|].
  by rewrite delete_insert_eq.
Qed.

Lemma voicemessage_download_id_witness :
  let state := {|
    sid := u "s1"; stage_of := CONFIRMATION; language_mode := VStr (u "english");
    state_data := {| d_topic := VStr (u "Fractions");
                     d_subject := VStr (u "Mathematics");
                     d_class_level := VStr (u "Class 5");
                     d_session_duration := VInt 40;
                     d_num_sessions := VInt 2;
                     d_language := VStr (u "English") |};
    history := [] |} in
  let conversation_states : gmap str ConversationState := {[ u "s1" := state ]} in
  let g := {| lesson_id := u "1a2b3c4d";
              worksheet_titles := [u "Halves"; u "Quarters"];
              num_yt_links := 5 |} in
  ∃ r0 r,
    (voicemessage (H:=ascii_runtime) conversation_states (u "s1") (u "UklGRg==")
       (Returned (Some (u "yes"))) (Returned g)).2 = [r0; Response r]
    ∧ downloadid r = Some (u "1a2b3c4d")
    ∧ (voicemessage (H:=ascii_runtime) conversation_states (u "s1") (u "UklGRg==")
         (Returned (Some (u "yes"))) (Returned g)).1 = delete (u "s1") conversation_states.
Proof.
  intros state conversation_states g.
  eexists _, _. split; [reflexivity|]. split; [reflexivity|].
  edestruct (voicemessage_download_id (H:=ascii_runtime) conversation_states
               (u "s1") (u "UklGRg==") (Returned (Some (u "yes"))) (Returned g))
    as (state' & g' & _ & _ & _ & _ & Hdel).
  - apply list_elem_of_lookup. exists 1%nat. reflexivity.
  - reflexivity.
  - exact Hdel.
Defined.

(** The stage of a conversation moves in small steps: after a voice
    message the session is at the same stage, at the next one, back at
    the language selection, or, from the confirmation only, back at the
    topic; it is removed from the confirmation stage only. *)
Theorem voicemessage_stage_step `{Runtime}
    (conversation_states : gmap str ConversationState) (sid audio : str)
    (provider : outcome (option str)) (gen : outcome generated)
    (state : ConversationState) :
  conversation_states !! sid = Some state →
  match (voicemessage conversation_states sid audio provider gen).1 !! sid with
  | None => stage_of state = CONFIRMATION
  | Some state' =>
    stage_of state' ∈
      match stage_of state with
      | LANGUAGE_SELECTION => [LANGUAGE_SELECTION; TOPIC_COLLECTION]
      | TOPIC_COLLECTION => [TOPIC_COLLECTION; SUBJECT_COLLECTION; LANGUAGE_SELECTION]
      | SUBJECT_COLLECTION => [SUBJECT_COLLECTION; CLASS_COLLECTION; LANGUAGE_SELECTION]
      | CLASS_COLLECTION => [CLASS_COLLECTION; SESSION_DURATION; LANGUAGE_SELECTION]
      | SESSION_DURATION => [SESSION_DURATION; NUM_SESSIONS; LANGUAGE_SELECTION]
      | NUM_SESSIONS => [NUM_SESSIONS; CONFIRMATION; LANGUAGE_SELECTION]
      | CONFIRMATION => [CONFIRMATION; TOPIC_COLLECTION; LANGUAGE_SELECTION]
      end
  end.
Proof.
  intros Hstate. unfold voicemessage, collect.
  destruct audio as [|a audio];
    [cbn [fst]; rewrite Hstate; destruct (stage_of state); set_solver|].
  rewrite Hstate.
  handler_paths; cbn [fst];
    rewrite ?lookup_delete_eq, ?lookup_insert_eq, ?Hstate;
    cbn [stage_of set_stage set_data set_language_mode fresh_with_language
           fresh_with_mode new_state add_to_history];
    try done; try (destruct (stage_of state); set_solver); set_solver.
Qed.

Lemma voicemessage_stage_step_witness :
  let state :=
    set_stage (set_language_mode (new_state (u "s1")) (VStr (u "english")))
              SUBJECT_COLLECTION in
  let conversation_states : gmap str ConversationState := {[ u "s1" := state ]} in
  ∃ state',
    (voicemessage (H:=ascii_runtime) conversation_states (u "s1") (u "UklGRg==")
       (Returned (Some (u "maths"))) (Failed [])).1 !! u "s1" = Some state'
    ∧ stage_of state' = CLASS_COLLECTION
    ∧ stage_of state' ∈ [SUBJECT_COLLECTION; CLASS_COLLECTION; LANGUAGE_SELECTION].
Proof.
  intros state conversation_states.
  eexists. split; [reflexivity|]. split; [reflexivity|].
  exact (voicemessage_stage_step (H:=ascii_runtime) conversation_states
           (u "s1") (u "UklGRg==") (Returned (Some (u "maths"))) (Failed [])
           state (lookup_singleton_eq _ _)).
Defined.

(** The handler never stays silent: every voice message is answered by
    at least one event. *)
Theorem voicemessage_replies `{Runtime}
    (conversation_states : gmap str ConversationState) (sid audio : str)
    (provider : outcome (option str)) (gen : outcome generated) :
  (voicemessage conversation_states sid audio provider gen).2 ≠ [].
Proof.
  unfold voicemessage, collect.
  destruct audio as [|a audio]; [done|].
  destruct (conversation_states !! sid) as [state|] eqn:Hstate; [|done].
  handler_paths; cbn [snd]; try done;
    first [ apply emit_prompt_nonempty
          | by destruct (is_english _) ].
Qed.

(** ** The [voicemessage] handler: restart, counts and [disconnect] *)



Section Counts.

Context `{Runtime}.

(** At a stage that reads a number, an accepted reply other than the
    restart command is an integer within the bounds of the stage. *)
Lemma parse_user_response_count (transcript : str) (s : stage) (mode : value)
    (p : parsed) (lo hi : Z) :
  (s = SESSION_DURATION ∧ lo = 15 ∧ hi = 90) ∨ (s = NUM_SESSIONS ∧ lo = 1 ∧ hi = 10) →
  parse_user_response transcript s mode = Ok p →
  needs_clarification p = false →
  p_value p ≠ VStr (u "RESTART") →
  ∃ n, lo ≤ n ≤ hi ∧ p_value p = VInt n.
Proof.
  unfold parse_user_response.
  destruct (any_in restart_words _); [by intros _ [= <-]|].
  intros [(-> & -> & ->)|(-> & -> & ->)] Hp Hc _;
    by apply (parse_number_accept _ _ _ _ _ Hp).
Qed.

End Counts.

(** The counts that reach the generation are sound: when the session
    duration of every conversation is an integer from 15 to 90 and its
    number of sessions an integer from 1 to 10, as in a new
    conversation, the same holds after any voice message. *)
Theorem voicemessage_counts_in_range `{Runtime}
    (conversation_states : gmap str ConversationState) (sid audio : str)
    (provider : outcome (option str)) (gen : outcome generated) :
  map_Forall (λ _, counts_in_range) conversation_states →
  map_Forall (λ _, counts_in_range)
    (voicemessage conversation_states sid audio provider gen).1.
Proof.
  intros Hall. unfold voicemessage, collect.
  destruct audio as [|a audio]; [done|].
  destruct (conversation_states !! sid) as [state|] eqn:Hstate.
  2:{ cbn [fst]. apply map_Forall_insert_2; [|done].
      exists 40, 4. cbn. split_and!; (done || lia). }
  pose proof (Hall _ _ Hstate) as (duration & num & Hd & Hdr & Hn & Hnr).
  handler_paths; cbn [fst];
    rewrite ?insert_insert_eq, ?delete_insert_eq;
    try done;
    first [ by apply map_Forall_delete
          | apply map_Forall_insert_2; [|done] ].
  all: try (exists 40, 4; cbn; split_and!; (done || lia)).
  all: try (exists duration, num; by cbn).
  all: match goal with
       | Hp : parse_user_response _ SESSION_DURATION _ = Ok ?p,
         Hc : needs_clarification ?p = false,
         Hr : p_value ?p ≠ VStr (u "RESTART") |- _ =>
         destruct (parse_user_response_count _ SESSION_DURATION _ _ 15 90
                     (or_introl (conj eq_refl (conj eq_refl eq_refl))) Hp Hc Hr)
           as (n' & Hrange & Hv);
         exists n', num; cbn; by rewrite Hv
       | Hp : parse_user_response _ NUM_SESSIONS _ = Ok ?p,
         Hc : needs_clarification ?p = false,
         Hr : p_value ?p ≠ VStr (u "RESTART") |- _ =>
         destruct (parse_user_response_count _ NUM_SESSIONS _ _ 1 10
                     (or_intror (conj eq_refl (conj eq_refl eq_refl))) Hp Hc Hr)
           as (n' & Hrange & Hv);
         exists duration, n'; cbn; by rewrite Hv
       end.
Qed.

Lemma voicemessage_counts_in_range_witness :
  let state :=
    set_stage (set_language_mode (new_state (u "s1")) (VStr (u "english")))
              SESSION_DURATION in
  let conversation_states : gmap str ConversationState := {[ u "s1" := state ]} in
  ∃ state',
    (voicemessage (H:=ascii_runtime) conversation_states (u "s1") (u "UklGRg==")
       (Returned (Some (u "45 minutes"))) (Failed [])).1 !! u "s1" = Some state'
    ∧ d_session_duration (state_data state') = VInt 45
    ∧ counts_in_range state'.
Proof.
  intros state conversation_states.
  eexists. split; [reflexivity|]. split; [reflexivity|].
  assert (Hall : map_Forall (λ _, counts_in_range) conversation_states).
  { apply map_Forall_singleton. exists 40, 4. cbn. split_and!; first [done | lia]. }
  exact (voicemessage_counts_in_range (H:=ascii_runtime) conversation_states
           (u "s1") (u "UklGRg==") (Returned (Some (u "45 minutes"))) (Failed [])
           Hall (u "s1") _ eq_refl).
Defined.

(** After a disconnect the session has no conversation and the other
    sessions keep theirs; the next voice message of the session opens a
    new conversation at the language selection and is answered by the
    English language question, whatever was said. *)
Theorem disconnect_then_voicemessage `{Runtime}
    (conversation_states : gmap str ConversationState) (sid audio : str)
    (provider : outcome (option str)) (gen : outcome generated) :
  audio ≠ [] →
  disconnect conversation_states sid !! sid = None
  ∧ (∀ other, other ≠ sid →
       disconnect conversation_states sid !! other = conversation_states !! other)
  ∧ voicemessage (disconnect conversation_states sid) sid audio provider gen
    = (<[sid := new_state sid]> conversation_states,
       [Response (reply (PROMPTS_english LANGUAGE_SELECTION (state_data (new_state sid)))
                        (VStr (u "English")))]).
Proof.
  intros Haudio.
  assert (Hsid : disconnect conversation_states sid !! sid = None).
  { unfold disconnect. destruct (conversation_states !! sid) eqn:E; [|done].
    apply lookup_delete_eq. }
  assert (Hins : <[sid := new_state sid]> (disconnect conversation_states sid)
                 = <[sid := new_state sid]> conversation_states).
  { unfold disconnect. destruct (conversation_states !! sid); [|done].
    apply insert_delete_eq. }
  split_and!; [done| |].
  - intros other Hother. unfold disconnect.
    destruct (conversation_states !! sid); [|done]. by apply lookup_delete_ne.
  - destruct audio as [|a audio]; [exfalso; by apply Haudio|]. unfold voicemessage.
    rewrite Hsid. cbv beta iota. rewrite Hins. reflexivity.
Qed.

Lemma disconnect_then_voicemessage_witness :
  let state :=
    set_stage (set_language_mode (new_state (u "s1")) (VStr (u "hindi")))
              CONFIRMATION in
  let conversation_states : gmap str ConversationState := {[ u "s1" := state ]} in
  (voicemessage (H:=ascii_runtime) (disconnect conversation_states (u "s1")) (u "s1")
     (u "UklGRg==") (Returned (Some (u "हाँ"))) (Failed [])).1 !! u "s1"
  = Some (new_state (u "s1")).
Proof.
  intros state conversation_states.
  destruct (disconnect_then_voicemessage (H:=ascii_runtime) conversation_states
              (u "s1") (u "UklGRg==") (Returned (Some (u "हाँ"))) (Failed [])
              ltac:(done)) as (_ & _ & ->).
  cbn [fst]. apply lookup_insert_eq.
Defined.

(** ** The [textmessage] handler: clamped counts and rejection *)

Section ReadErrors.

Context `{Runtime}.

Lemma py_get_Ok (data : json) (key : str) (x : json) :
  py_get data key = Ok x →
  ∃ fields, data = JObject fields ∧ x = default JNull (fields !! key).
Proof. destruct data; try done. intros [= <-]. by eexists. Qed.

Lemma py_get_Raise (data : json) (key : str) (e : exn) :
  py_get data key = Raise e → e = AttributeError.
Proof. destruct data; try done; by intros [= <-]. Qed.

Lemma py_strip_Raise (x : json) (e : exn) :
  py_strip x = Raise e → e = AttributeError.
Proof. destruct x; try done; by intros [= <-]. Qed.

(** Reading a text field fails in one way only. *)
Lemma text_field_Raise (data : json) (key fallback : str) (e : exn) :
  text_field data key fallback = Raise e → e = AttributeError.
Proof.
  unfold text_field.
  destruct (py_get data key) as [x|e'] eqn:E; cbn [mbind result_bind].
  - apply py_strip_Raise.
  - intros [= <-]. by apply py_get_Raise in E.
Qed.

Lemma int_of_str_Raise (s : str) (e : exn) :
  int_of_str s = Raise e → e = ValueError.
Proof.
  unfold int_of_str.
  destruct (match drop_while c_isspace (to_ascii <$> s) with
            | [] => _ | _ :: _ => _ end) as [negative s'].
  destruct (read_digits s' true []) as [[digits rest]|]; [|by intros [= <-]].
  destruct (negb _ && _); [by intros [= <-]|].
  destruct (forallb c_isspace rest); [done|by intros [= <-]].
Qed.

Lemma py_int_Raise (x : json) (e : exn) :
  py_int x = Raise e → e ∈ [TypeError; ValueError; OverflowError].
Proof.
  destruct x as [|b|z|[m e'|negative|]|s|items|fields]; cbn [py_int int_of_float];
    try done; try (intros [= <-]; repeat constructor).
  intros Hs. apply int_of_str_Raise in Hs as ->. repeat constructor.
Qed.

Lemma count_field_Raise (data : json) (key : str) (fallback : Z) (e : exn) :
  count_field data key fallback = Raise e →
  e ∈ [AttributeError; TypeError; ValueError; OverflowError].
Proof.
  unfold count_field.
  destruct (py_get data key) as [x|e'] eqn:E; cbn [mbind result_bind].
  - intros He. apply py_int_Raise in He. by constructor.
  - intros [= <-]. apply py_get_Raise in E as ->. constructor.
Qed.

(** A field that counts as missing is read as the fallback. *)
Lemma count_field_missing (data : json) (key : str) (fallback z : Z) (x : json) :
  py_get data key = Ok x → json_truthy x = false →
  count_field data key fallback = Ok z → z = fallback.
Proof.
  unfold count_field, py_or. intros -> Hx. cbn [mbind result_bind].
  rewrite Hx. cbn [py_int]. by intros [= <-].
Qed.

(** A text field is read as the empty text from a string of white
    space only. *)
Lemma text_field_empty (data : json) (key fallback : str) :
  strip fallback ≠ [] →
  text_field data key fallback = Ok [] →
  ∃ fields t, data = JObject fields ∧ fields !! key = Some (JStr t)
              ∧ t ≠ [] ∧ strip t = [].
Proof.
  intros Hfb. unfold text_field.
  destruct (py_get data key) as [x|e] eqn:E; cbn [mbind result_bind]; [|done].
  apply py_get_Ok in E as (fields & -> & ->). unfold py_or.
  destruct (json_truthy (default JNull (fields !! key))) eqn:Hx;
    [|by intros [= Hf]].
  destruct (default JNull (fields !! key)) as [|b|z|f|t|items|more] eqn:Ex;
    cbn [py_strip]; try done.
  intros [= Ht]. exists fields, t. split_and!; try done.
  - destruct (fields !! key) as [x|]; [|done]. cbn in Ex. by rewrite Ex.
  - by intros ->.
Qed.

End ReadErrors.

Lemma Ok_inj {A} (a b : A) : Ok a = Ok b → a = b.
Proof. by intros [= ->]. Qed.

(** The counts the generation is called with are what [int()] makes of
    the fields [sessionduration] and [numsessions], or 40 and 4 for a
    field that counts as missing (absent, [null], [false], [0], [0.0],
    the empty string, array or object), clamped: the session duration
    lies between 15 and 90 and the number of sessions between 1 and
    10, whatever the request carries. *)
Theorem textmessage_generate_clamped `{Runtime}
    (data : json) (gen : outcome generated) (actions : list action)
    (topic subject class_level language : str) (session_duration num_sessions : Z) :
  textmessage data gen = Ok actions →
  Generate topic subject class_level language session_duration num_sessions
    ∈ actions →
  ∃ d n,
    count_field data (u "sessionduration") 40 = Ok d
    ∧ count_field data (u "numsessions") 4 = Ok n
    ∧ session_duration = Z.max 15 (Z.min 90 d)
    ∧ num_sessions = Z.max 1 (Z.min 10 n)
    ∧ 15 ≤ session_duration ≤ 90
    ∧ 1 ≤ num_sessions ≤ 10
    ∧ (∀ x, py_get data (u "sessionduration") = Ok x → json_truthy x = false →
         session_duration = 40)
    ∧ (∀ x, py_get data (u "numsessions") = Ok x → json_truthy x = false →
         num_sessions = 4).
Proof.
  revert actions. read_fields data. intros actions Hok%Ok_inj Hin. subst actions.
  assert (Hcall : ∀ rest,
            Forall (λ a, ∃ r, a = Emit r) rest →
            Generate topic subject class_level language session_duration num_sessions
              ∈ rest → False).
  { intros rest Hall Hin'. rewrite Forall_forall in Hall.
    by destruct (Hall _ Hin') as [r Hr]. }
  assert (Hgen : session_duration = Z.max 15 (Z.min 90 dur)
                 ∧ num_sessions = Z.max 1 (Z.min 10 num)).
  { destruct rtopic as [|c t]; [destruct rcontent as [|c' t']|].
    1:{ exfalso. eapply Hcall; [|exact Hin]. repeat econstructor. }
    all: apply elem_of_cons in Hin as [Hin|Hin]; [done|];
      apply elem_of_cons in Hin as [Hin|Hin];
      [ by injection Hin as -> -> -> -> -> ->
      | exfalso; destruct gen; (eapply Hcall; [|exact Hin]); repeat econstructor ]. }
  destruct Hgen as [-> ->].
  exists dur, num. split_and!; try done; try lia.
  - intros x Hx Hfalse. rewrite (count_field_missing _ _ _ _ _ Hx Hfalse Edur). lia.
  - intros x Hx Hfalse. rewrite (count_field_missing _ _ _ _ _ Hx Hfalse Enum). lia.
Qed.

Lemma textmessage_generate_clamped_witness :
  let data := JObject (<[u "topic" := JStr (u "Fractions")]>
                       (<[u "sessionduration" := JStr (u "0")]>
                        (<[u "numsessions" := JFloat (FFinite 1 (-1))]> ∅))) in
  ∃ r rest,
    textmessage (H:=ascii_runtime) data (Failed (u "service unavailable"))
    = Ok (Emit r
          :: Generate (u "Fractions") (u "Mathematics") (u "Class 2") (u "English") 15 1
          :: rest)
    ∧ count_field (H:=ascii_runtime) data (u "sessionduration") 40 = Ok 0
    ∧ count_field (H:=ascii_runtime) data (u "numsessions") 4 = Ok 0.
Proof.
  intros data.
  destruct (textmessage (H:=ascii_runtime) data (Failed (u "service unavailable")))
    as [actions|e] eqn:E; [|by vm_compute in E].
  assert (Hin : Generate (u "Fractions") (u "Mathematics") (u "Class 2") (u "English") 15 1
                  ∈ actions).
  { vm_compute in E. injection E as <-. apply list_elem_of_lookup. by exists 1%nat. }
  destruct (textmessage_generate_clamped (H:=ascii_runtime) data
              (Failed (u "service unavailable")) actions _ _ _ _ _ _ E Hin)
    as (d & n & Ed & En & _).
  vm_compute in E. injection E as <-.
  eexists _, _. split; [reflexivity|]. split; reflexivity.
Defined.

(** A text request is turned down in one case only: its topic is a
    string, not empty, but all white space, its content is blank or
    counts as missing, and its other fields can be read.  The handler
    then emits the single notice that asks for a topic; a missing or
    empty topic is replaced by the default and is not turned down. *)
Theorem textmessage_rejects `{Runtime}
    (data : json) (gen : outcome generated) (language : str) :
  textmessage data gen
  = Ok [Emit (notice (u "❌ Please enter a topic or lesson content.") language)]
  ↔ ∃ fields t subject class_level d n,
      data = JObject fields
      ∧ fields !! u "topic" = Some (JStr t) ∧ t ≠ [] ∧ strip t = []
      ∧ text_field data (u "subject") (u "Mathematics") = Ok subject
      ∧ text_field data (u "classlevel") (u "Class 2") = Ok class_level
      ∧ text_field data (u "language") (u "English") = Ok language
      ∧ text_field data (u "content") [] = Ok []
      ∧ count_field data (u "sessionduration") 40 = Ok d
      ∧ count_field data (u "numsessions") 4 = Ok n.
Proof.
  split.
  - read_fields data.
    destruct rtopic as [|a t]; [destruct rcontent as [|a' c]|]; try done.
    apply text_field_empty in Etopic as (fields & t & -> & Ht & Hne & Hs);
      [|by vm_compute].
    intros Hok%Ok_inj. injection Hok as <-. by eexists fields, t, _, _, _, _.
  - intros (fields & t & subject & class_level & d & n & -> & Ht & Hne & Hs
            & Es & Ec & El & Er & Ed & En).
    assert (Et : text_field (JObject fields) (u "topic") (u "Lesson Topic") = Ok []).
    { unfold text_field, py_get, py_or. cbn [mbind result_bind]. rewrite Ht.
      cbn [from_option id]. destruct t as [|a t]; [done|].
      cbn [json_truthy py_strip]. by rewrite Hs. }
    unfold textmessage. rewrite Et, Es, Ec, El, Er, Ed, En. reflexivity.
Qed.

Lemma textmessage_rejects_witness :
  let data := JObject (<[u "topic" := JStr (u "   ")]>
                       (<[u "language" := JStr (u "Hindi")]>
                        (<[u "content" := JStr newline]> ∅))) in
  textmessage (H:=ascii_runtime) data (Failed [])
  = Ok [Emit (notice (u "❌ Please enter a topic or lesson content.") (u "Hindi"))].
Proof.
  intros data.
  apply (proj2 (textmessage_rejects (H:=ascii_runtime) data (Failed []) (u "Hindi"))).
  eexists _, (u "   "), _, _, _, _.
  split; [reflexivity|]. split; [by vm_compute|]. split; [discriminate|].
  split; [reflexivity|].
  split_and!; by vm_compute.
Defined.

(** The outcomes of a text request: it ends with an exception and no
    event when one of its fields cannot be read (the payload is no
    object, a text field holds a value that is no string, a count is
    not a number [int()] accepts); or it emits the single notice that
    turns it down; or a progress notice, the call of the generation and
    one closing event.  No event is spoken, and a download id is
    carried by the closing event only, and only when the generation
    succeeded. *)
Theorem textmessage_events `{Runtime} (data : json) (gen : outcome generated) :
  (∃ e, textmessage data gen = Raise e
        ∧ e ∈ [AttributeError; TypeError; ValueError; OverflowError])
  ∨ (∃ r, textmessage data gen = Ok [Emit r]
          ∧ speak r = false ∧ downloadid r = None)
  ∨ (∃ r1 r2 topic subject class_level language session_duration num_sessions,
       textmessage data gen
       = Ok [Emit r1;
             Generate topic subject class_level language session_duration num_sessions;
             Emit r2]
       ∧ speak r1 = false ∧ downloadid r1 = None
       ∧ speak r2 = false
       ∧ downloadid r2 = match gen with
                         | Returned g => Some (lesson_id g)
                         | Failed _ => None
                         end).
Proof.
  unfold textmessage.
  destruct (text_field data (u "topic") _) as [topic|e] eqn:E1;
    cbn [mbind result_bind];
    [|left; exists e; split; [done|]; apply text_field_Raise in E1 as ->; constructor].
  destruct (text_field data (u "subject") _) as [subject|e] eqn:E2;
    cbn [mbind result_bind];
    [|left; exists e; split; [done|]; apply text_field_Raise in E2 as ->; constructor].
  destruct (text_field data (u "classlevel") _) as [class_level|e] eqn:E3;
    cbn [mbind result_bind];
    [|left; exists e; split; [done|]; apply text_field_Raise in E3 as ->; constructor].
  destruct (text_field data (u "language") _) as [language|e] eqn:E4;
    cbn [mbind result_bind];
    [|left; exists e; split; [done|]; apply text_field_Raise in E4 as ->; constructor].
  destruct (text_field data (u "content") _) as [raw_content|e] eqn:E5;
    cbn [mbind result_bind];
    [|left; exists e; split; [done|]; apply text_field_Raise in E5 as ->; constructor].
  destruct (count_field data (u "sessionduration") _) as [d|e] eqn:E6;
    cbn [mbind result_bind];
    [|left; exists e; split; [done|]; by apply count_field_Raise in E6].
  destruct (count_field data (u "numsessions") _) as [n|e] eqn:E7;
    cbn [mbind result_bind];
    [|left; exists e; split; [done|]; by apply count_field_Raise in E7].
  right.
  destruct topic as [|c t]; [destruct raw_content as [|c' t']|].
  - left. eexists. split; [reflexivity|]. split; reflexivity.
  - right. destruct gen as [g|msg]; eexists _, _, _, _, _, _, _, _;
      (split; [reflexivity|]); split_and!; reflexivity.
  - right. destruct gen as [g|msg]; eexists _, _, _, _, _, _, _, _;
      (split; [reflexivity|]); split_and!; reflexivity.
Qed.

(** ** Lesson assembly *)

Section Assembly.

Context `{Runtime}.

Lemma py_str_int_within (z : Z) (d : str) :
  py_str_int z = Ok d → within_digit_limit z.
Proof.
  intros E. apply py_str_int_Ok. rewrite E. f_equal.
  by apply py_str_int_decimal.
Qed.

Lemma parse_llm_to_sessions_Ok (formatted_text : str) (session_duration num_sessions : Z) :
  within_digit_limit session_duration →
  1 ≤ num_sessions →
  ∃ sessions,
    parse_llm_to_sessions formatted_text session_duration num_sessions = Ok sessions
    ∧ length sessions = Z.to_nat num_sessions.
Proof.
  intros Hdur Hn. unfold parse_llm_to_sessions.
  destruct (split_into_n_buckets num_sessions Hn
    (_lines_to_list (_extract_section formatted_text (u "ACTIVITIES"))))
    as (act_n & -> & La & _).
  destruct (split_into_n_buckets num_sessions Hn
    (_lines_to_list (_extract_section formatted_text (u "TEACHING AIDS/RESOURCES"))))
    as (res_n & -> & Lr & _).
  destruct (split_into_n_buckets num_sessions Hn
    (_lines_to_list (_extract_section formatted_text (u "ASSESSMENT"))))
    as (assess_n & -> & Lq & _).
  cbn [mbind result_bind].
  edestruct (build_sessions_spec session_duration) as (ss & -> & Hnum & _);
    [exact Hdur|rewrite La; apply py_range_bounds|by rewrite Lr, La
    |by rewrite Lq, La|].
  exists ss. split; [done|].
  rewrite <- (length_fmap sess_number), Hnum, length_fmap. apply py_range_length.
Qed.

(** With a count of at least one the planner fails in one way only:
    the duration has more digits than its label can hold. *)
Lemma parse_llm_to_sessions_Raise (formatted_text : str)
    (session_duration num_sessions : Z) (e : exn) :
  1 ≤ num_sessions →
  parse_llm_to_sessions formatted_text session_duration num_sessions = Raise e →
  e = ValueError ∧ ¬ within_digit_limit session_duration.
Proof.
  intros Hn He.
  destruct (py_str_int session_duration) as [d|e'] eqn:E.
  - apply py_str_int_within in E.
    destruct (parse_llm_to_sessions_Ok formatted_text _ _ E Hn) as (ss & Hss & _).
    congruence.
  - apply py_str_int_Raise in E as [-> Hdur]. split; [|exact Hdur].
    revert He. unfold parse_llm_to_sessions.
    destruct (split_into_n_buckets num_sessions Hn
      (_lines_to_list (_extract_section formatted_text (u "ACTIVITIES"))))
      as (act_n & -> & _).
    destruct (split_into_n_buckets num_sessions Hn
      (_lines_to_list (_extract_section formatted_text (u "TEACHING AIDS/RESOURCES"))))
      as (res_n & -> & _).
    destruct (split_into_n_buckets num_sessions Hn
      (_lines_to_list (_extract_section formatted_text (u "ASSESSMENT"))))
      as (assess_n & -> & _).
    cbn [mbind result_bind].
    assert (∃ rest, py_range num_sessions = 0 :: rest) as [rest ->].
    { unfold py_range. destruct (Z.to_nat num_sessions) as [|k] eqn:Ek; [lia|].
      cbn. by eexists. }
    cbn [build_sessions].
    destruct (py_str_int session_duration) as [d|e'] eqn:E.
    + by apply py_str_int_within in E.
    + apply py_str_int_Raise in E as [-> _]. cbn [mbind result_bind].
      by intros [= <-].
Qed.

(** The reference the planner gives session [k]. *)
Lemma parse_llm_to_sessions_reference (formatted_text : str)
    (session_duration num_sessions : Z) (sessions : list session)
    (k : nat) (s : session) :
  parse_llm_to_sessions formatted_text session_duration num_sessions = Ok sessions →
  sessions !! k = Some s →
  sess_number s = Z.of_nat k + 1
  ∧ sess_worksheets s = u "Worksheet " ++ decimal (Z.of_nat k + 1).
Proof.
  unfold parse_llm_to_sessions.
  destruct (_split_into_n (_lines_to_list (_extract_section formatted_text
              (u "ACTIVITIES"))) num_sessions) as [act_n|];
    cbn [mbind result_bind]; [|done].
  destruct (_split_into_n (_lines_to_list (_extract_section formatted_text
              (u "TEACHING AIDS/RESOURCES"))) num_sessions) as [res_n|];
    cbn [mbind result_bind]; [|done].
  destruct (_split_into_n (_lines_to_list (_extract_section formatted_text
              (u "ASSESSMENT"))) num_sessions) as [assess_n|];
    cbn [mbind result_bind]; [|done].
  intros Hb%build_sessions_inv Hk.
  destruct (Forall2_lookup_r _ _ _ _ _ Hb Hk)
    as (i & Hi & act & res & assess & _ & _ & _ & ->).
  apply py_range_lookup in Hi as [-> _]. done.
Qed.

End Assembly.

(** *** The links *)

Lemma encodable_app (a b : str) :
  encodable (a ++ b) = encodable a && encodable b.
Proof. apply forallb_app. Qed.

Lemma encodable_drop_while (P : N → bool) (s : str) :
  encodable s = true → encodable (drop_while P s) = true.
Proof.
  induction s as [|c s IH]; [done|]. cbn [drop_while].
  destruct (P c); [|done]. intros Hs. apply IH.
  cbn in Hs. by apply andb_true_iff in Hs as [_ Hs].
Qed.

Lemma encodable_rev (s : str) : encodable (rev s) = encodable s.
Proof.
  induction s as [|c s IH]; [done|]. cbn [rev].
  rewrite encodable_app, IH. cbn. rewrite andb_true_r. apply andb_comm.
Qed.

Lemma encodable_strip (s : str) : encodable s = true → encodable (strip s) = true.
Proof.
  intros Hs. unfold strip, rstrip, lstrip. rewrite encodable_rev.
  apply encodable_drop_while. rewrite encodable_rev.
  by apply encodable_drop_while.
Qed.

Lemma encodable_join (sep : str) (parts : list str) :
  encodable (join sep parts) = true → encodable (join [] parts) = true.
Proof.
  induction parts as [|x [|y rest] IH]; [done..|].
  change (join sep (x :: y :: rest)) with (x ++ sep ++ join sep (y :: rest)).
  change (join [] (x :: y :: rest)) with (x ++ [] ++ join [] (y :: rest)).
  rewrite !encodable_app, !andb_true_iff. cbn [app encodable forallb].
  intros (Hx & _ & Hr). split_and!; [done..|]. by apply IH.
Qed.

(** Taking a word out of a text brings no surrogate in. *)
Lemma encodable_replace (old s : str) :
  old ≠ [] → encodable s = true → encodable (py_replace old [] s) = true.
Proof.
  intros Hold Hs. unfold py_replace. apply (encodable_join old).
  by rewrite join_split.
Qed.

Lemma utf8_encode_Ok (s : str) :
  encodable s = true → ∃ bytes, utf8_encode s = Ok bytes.
Proof.
  induction s as [|c s IH]; [by eexists|].
  cbn [encodable forallb utf8_encode]. intros [Hc Hs]%andb_true_iff.
  destruct (IH Hs) as [rest ->]. unfold utf8_char.
  apply negb_true_iff in Hc. rewrite Hc.
  destruct (c <? 128)%N; [by eexists|].
  destruct (c <? 2048)%N; [by eexists|].
  destruct (c <? 65536)%N; by eexists.
Qed.

Lemma quote_plus_Ok (s : str) :
  encodable s = true → ∃ quoted, quote_plus s = Ok quoted.
Proof.
  intros Hs. unfold quote_plus. destruct (utf8_encode_Ok s Hs) as [bytes ->].
  by eexists.
Qed.

Lemma utf8_encode_Raise (s : str) (e : exn) :
  utf8_encode s = Raise e → e = UnicodeEncodeError.
Proof.
  induction s as [|c s IH]; [done|]. cbn [utf8_encode]. unfold utf8_char.
  destruct (c <? 128)%N; [|destruct (c <? 2048)%N;
    [|destruct (is_surrogate c); [by intros [= <-]|destruct (c <? 65536)%N]]];
    cbn [mbind result_bind]; destruct (utf8_encode s); cbn [mbind result_bind];
    try done; apply IH.
Qed.

Lemma quote_plus_Raise (s : str) (e : exn) :
  quote_plus s = Raise e → e = UnicodeEncodeError.
Proof.
  unfold quote_plus. destruct (utf8_encode s) as [bytes|e'] eqn:E; [done|].
  cbn [mbind result_bind]. intros [= <-]. by apply utf8_encode_Raise in E.
Qed.

Lemma encodable_class_num (class_level : str) :
  encodable class_level = true →
  encodable (strip (py_replace (u "Class ") [] class_level)) = true.
Proof.
  intros Hc. apply encodable_strip, encodable_replace; [|done].
  by vm_compute.
Qed.

Lemma generate_cbse_youtube_links_Ok (topic subject class_level : str) :
  encodable topic = true → encodable subject = true →
  encodable class_level = true →
  ∃ links,
    generate_cbse_youtube_links topic subject class_level = Ok links
    ∧ length links = 4%nat.
Proof.
  intros Ht Hs Hc. unfold generate_cbse_youtube_links. cbv zeta.
  repeat match goal with
         | |- context [quote_plus ?s] =>
           let q := fresh "q" in
           destruct (quote_plus_Ok s) as [q ->];
             [rewrite ?encodable_app, ?andb_true_iff; repeat split;
              first [ assumption | reflexivity | by apply encodable_strip
                    | by apply encodable_class_num ]
             |cbn [mbind result_bind]]
         end.
  by eexists.
Qed.

Lemma generate_cbse_youtube_links_Raise (topic subject class_level : str) (e : exn) :
  generate_cbse_youtube_links topic subject class_level = Raise e →
  e = UnicodeEncodeError.
Proof.
  unfold generate_cbse_youtube_links. cbv zeta.
  repeat match goal with
         | |- context [quote_plus ?s] =>
           let E := fresh "E" in
           destruct (quote_plus s) eqn:E; cbn [mbind result_bind];
             [|intros [= <-]; by apply quote_plus_Raise in E]
         end.
  done.
Qed.

Lemma generate_ncert_web_resources_Ok (topic subject class_level : str) :
  encodable topic = true →
  ∃ resources,
    generate_ncert_web_resources topic subject class_level = Ok resources
    ∧ length resources = 4%nat.
Proof.
  intros Ht. unfold generate_ncert_web_resources. cbv zeta.
  destruct (quote_plus_Ok topic Ht) as [q ->]. cbn [mbind result_bind].
  by eexists.
Qed.

Lemma generate_ncert_web_resources_Raise (topic subject class_level : str) (e : exn) :
  generate_ncert_web_resources topic subject class_level = Raise e →
  e = UnicodeEncodeError.
Proof.
  unfold generate_ncert_web_resources. cbv zeta.
  destruct (quote_plus topic) eqn:E; cbn [mbind result_bind]; [done|].
  intros [= <-]. by apply quote_plus_Raise in E.
Qed.

(** The sessions of a lesson and its worksheets: session [k] is linked
    to worksheet [k] when there is one, and then refers to it by its
    title; a session beyond the worksheets keeps the reference
    [Worksheet k+1] of the planner and has no worksheet data. *)
Theorem build_lesson_data_links `{Runtime}
    (topic subject class_level language formatted : str)
    (session_duration num_sessions : Z) (completion : outcome (list (option str)))
    (lesson : lesson_data) (k : nat) (ls : lesson_session) :
  build_lesson_data_from_formatted topic subject class_level language formatted
    session_duration num_sessions completion = Ok lesson →
  ld_sessions lesson !! k = Some ls →
  sess_number (ls_session ls) = Z.of_nat k + 1
  ∧ ls_worksheet_data ls = ld_worksheets lesson !! k
  ∧ sess_worksheets (ls_session ls)
    = match ld_worksheets lesson !! k with
      | Some w => ws_title w
      | None => u "Worksheet " ++ decimal (Z.of_nat k + 1)
      end.
Proof.
  unfold build_lesson_data_from_formatted.
  destruct (generate_worksheets topic num_sessions completion) as [worksheets|];
    cbn [mbind result_bind]; [|done].
  destruct (generate_cbse_youtube_links topic subject class_level) as [yt|];
    cbn [mbind result_bind]; [|done].
  destruct (generate_ncert_web_resources topic subject class_level) as [web|];
    cbn [mbind result_bind]; [|done].
  destruct (parse_llm_to_sessions formatted session_duration num_sessions)
    as [sessions|] eqn:Es; cbn [mbind result_bind]; [|done].
  destruct (py_str_int num_sessions); cbn [mbind result_bind]; [|done].
  destruct (py_str_int session_duration); cbn [mbind result_bind]; [|done].
  destruct (py_str_int (session_duration * num_sessions));
    cbn [mbind result_bind]; [|done].
  intros [= <-]. cbn [ld_sessions ld_worksheets]. unfold link_worksheets.
  rewrite list_lookup_imap.
  destruct (sessions !! k) as [s|] eqn:Ek; [|done].
  destruct (parse_llm_to_sessions_reference _ _ _ _ _ _ Es Ek) as [Hn Hw].
  cbn [fmap option_fmap option_map].
  destruct (worksheets !! k) as [w|]; intros [= <-]; by cbn.
Qed.

Lemma build_lesson_data_links_witness :
  ∃ lesson ls,
    build_lesson_data_from_formatted (H:=ascii_runtime) (u "Sums") (u "Mathematics")
      (u "Class 2") (u "English") (u "---ACTIVITIES---
- add
- subtract") 40 2 (Returned [Some (u "**Worksheet 1**
TITLE: Adding
Add 2 and 3.")]) = Ok lesson
    ∧ ld_sessions lesson !! 1%nat = Some ls
    ∧ length (ld_worksheets lesson) = 1%nat
    ∧ ls_worksheet_data ls = None
    ∧ sess_worksheets (ls_session ls) = u "Worksheet 2".
Proof.
  destruct (build_lesson_data_from_formatted (H:=ascii_runtime) (u "Sums")
      (u "Mathematics") (u "Class 2") (u "English") (u "---ACTIVITIES---
- add
- subtract") 40 2 (Returned [Some (u "**Worksheet 1**
TITLE: Adding
Add 2 and 3.")])) as [lesson|] eqn:E; [|by vm_compute in E].
  destruct (ld_sessions lesson !! 1%nat) as [ls|] eqn:Ek.
  2:{ vm_compute in E. injection E as <-. done. }
  exists lesson, ls. split; [done|]. split; [done|].
  destruct (build_lesson_data_links (H:=ascii_runtime) _ _ _ _ _ _ _ _ _ _ _ E Ek)
    as (_ & Hdata & Href).
  assert (Hws : length (ld_worksheets lesson) = 1%nat).
  { vm_compute in E. injection E as <-. done. }
  split; [exact Hws|].
  rewrite lookup_ge_None_2 in Hdata, Href by lia. done.
Defined.

Section AssemblyFallback.

Context `{Runtime}.

Lemma fallback_path_empty : fallback_path [] = true.
Proof. reflexivity. Qed.

Lemma chunk_content_empty (chunk_size num_sessions i : Z) :
  chunk_content [[]] chunk_size num_sessions i = [].
Proof.
  unfold chunk_content, slice.
  generalize (Z.to_nat (i * chunk_size)) as a.
  generalize (Z.to_nat (if i <? num_sessions - 1 then i * chunk_size + chunk_size
                        else Z.of_nat (length [@nil N]))) as b.
  intros [|b] [|a]; cbn [take drop]; rewrite ?take_nil, ?drop_nil; done.
Qed.

End AssemblyFallback.

(** An empty answer of the service still gives worksheets: when the
    first choice of the completion has no content, or only whitespace,
    and the prompt can name the count, [generate_worksheets] returns
    [num_sessions] worksheets, numbered from 1, whose content is empty.
    A count with more digits than the runtime writes ends the function
    in its prompt, with [ValueError]. *)
Theorem generate_worksheets_empty_reply `{Runtime}
    (topic : str) (num_sessions : Z) (content : option str)
    (choices : list (option str)) :
  strip (default [] content) = [] →
  1 ≤ num_sessions →
  (within_digit_limit num_sessions →
   ∃ worksheets,
     generate_worksheets topic num_sessions (Returned (content :: choices))
     = Ok worksheets
     ∧ length worksheets = Z.to_nat num_sessions
     ∧ ws_number <$> worksheets = (λ i, i + 1) <$> py_range num_sessions
     ∧ Forall (λ w, ws_content w = []) worksheets)
  ∧ (¬ within_digit_limit num_sessions →
     generate_worksheets topic num_sessions (Returned (content :: choices))
     = Raise ValueError).
Proof.
  intros Hempty Hn. unfold generate_worksheets, groq_chat. split.
  - intros Hlim%py_str_int_Ok. rewrite Hlim, Hempty. cbn [mbind result_bind].
    rewrite (parse_worksheets_fallback [] topic num_sessions fallback_path_empty).
    destruct (fallback_worksheets_Ok [] topic num_sessions Hn)
      as (cs & _ & _ & _ & _ & ->).
    eexists. split; [reflexivity|]. split_and!.
    + by rewrite length_fmap, py_range_length.
    + by rewrite <- list_fmap_compose.
    + apply Forall_fmap, Forall_forall. intros i _.
      unfold compose, fallback_worksheet. cbn [ws_content].
      change (split blank_line []) with [@nil N].
      by rewrite chunk_content_empty.
  - intros Hlim. destruct (py_str_int num_sessions) as [d|e] eqn:E.
    + by apply py_str_int_within in E.
    + by apply py_str_int_Raise in E as [-> _].
Qed.

Lemma generate_worksheets_empty_reply_witness :
  within_digit_limit (H:=ascii_runtime) 2
  ∧ ∃ w1 w2,
      generate_worksheets (H:=ascii_runtime) (u "Sums") 2 (Returned [Some (u "
 ")]) = Ok [w1; w2]
      ∧ ws_content w1 = [] ∧ ws_content w2 = [].
Proof.
  assert (Hlim : within_digit_limit (H:=ascii_runtime) 2) by (right; by vm_compute).
  split; [exact Hlim|].
  destruct (proj1 (generate_worksheets_empty_reply (H:=ascii_runtime) (u "Sums") 2
              (Some (u "
 ")) [] eq_refl ltac:(lia)) Hlim) as (ws & E & Hlen & _ & Hall).
  destruct ws as [|w1 [|w2 [|w3 ws]]]; try done.
  exists w1, w2. split; [exact E|].
  inversion Hall as [|? ? H1 Hall']; subst. inversion Hall' as [|? ? H2 _]; subst.
  done.
Defined.

(** On the fallback path every session gets its worksheet.  When the
    service answers with a text that no marker style splits, the three
    numbers the lesson writes (the count, the duration and their
    product) are within the digits the runtime writes and the topic,
    subject and class hold no surrogate, then for a count of at least
    one the lesson is built: it has [num_sessions] sessions, as many
    worksheets and four links of each kind, and session [k] carries
    worksheet number [k] and refers to it by the title
    [Worksheet k: topic]. *)
Theorem build_lesson_data_fallback `{Runtime}
    (topic subject class_level language formatted worksheet_text : str)
    (session_duration num_sessions : Z) (completion : outcome (list (option str))) :
  groq_chat completion = Ok worksheet_text →
  fallback_path worksheet_text = true →
  1 ≤ num_sessions →
  within_digit_limit num_sessions →
  within_digit_limit session_duration →
  within_digit_limit (session_duration * num_sessions) →
  encodable (topic ++ subject ++ class_level) = true →
  ∃ lesson,
    build_lesson_data_from_formatted topic subject class_level language formatted
      session_duration num_sessions completion = Ok lesson
    ∧ length (ld_sessions lesson) = Z.to_nat num_sessions
    ∧ length (ld_worksheets lesson) = Z.to_nat num_sessions
    ∧ length (ld_youtube_links lesson) = 4%nat
    ∧ length (ld_web_resources lesson) = 4%nat
    ∧ Forall (λ ls, ∃ w,
                ls_worksheet_data ls = Some w
                ∧ ws_number w = sess_number (ls_session ls)
                ∧ sess_worksheets (ls_session ls)
                  = u "Worksheet " ++ decimal (ws_number w) ++ u ": " ++ topic)
             (ld_sessions lesson).
Proof.
  intros Hchat Hfb Hn Hnum%py_str_int_Ok Hdur Htotal%py_str_int_Ok Henc.
  rewrite !encodable_app, !andb_true_iff in Henc. destruct Henc as (Ht & Hs & Hc).
  unfold build_lesson_data_from_formatted, generate_worksheets.
  rewrite Hnum, Hchat. cbn [mbind result_bind].
  rewrite (parse_worksheets_fallback _ topic num_sessions Hfb).
  destruct (fallback_worksheets_Ok worksheet_text topic num_sessions Hn)
    as (cs & _ & _ & _ & _ & ->).
  cbn [mbind result_bind].
  destruct (generate_cbse_youtube_links_Ok topic subject class_level Ht Hs Hc)
    as (yt & -> & Hyt).
  destruct (generate_ncert_web_resources_Ok topic subject class_level Ht)
    as (web & -> & Hweb).
  destruct (parse_llm_to_sessions_Ok formatted session_duration num_sessions Hdur Hn)
    as (sessions & Es & Hlen).
  apply py_str_int_Ok in Hdur.
  rewrite Es, Hdur, Htotal. cbn [mbind result_bind].
  eexists. split; [reflexivity|].
  cbn [ld_sessions ld_worksheets ld_youtube_links ld_web_resources].
  unfold link_worksheets. split_and!.
  - by rewrite length_imap.
  - by rewrite length_fmap, py_range_length.
  - exact Hyt.
  - exact Hweb.
  - apply Forall_forall. intros ls Hls.
    apply list_elem_of_lookup in Hls as [k Hk].
    rewrite list_lookup_imap in Hk.
    destruct (sessions !! k) as [s|] eqn:Ek; [|done].
    destruct (parse_llm_to_sessions_reference _ _ _ _ _ _ Es Ek) as [Hnum' _].
    assert (Hr : py_range num_sessions !! k = Some (Z.of_nat k)).
    { unfold py_range. rewrite list_lookup_fmap, lookup_seq_lt; [done|].
      apply lookup_lt_Some in Ek. lia. }
    rewrite list_lookup_fmap, Hr in Hk. cbn in Hk. injection Hk as <-.
    eexists. split; [reflexivity|]. cbn. by rewrite Hnum'.
Qed.

Lemma build_lesson_data_fallback_witness :
  ∃ lesson,
    build_lesson_data_from_formatted (H:=ascii_runtime) (u "Sums") (u "Mathematics")
      (u "Class 2") (u "English") (u "---ACTIVITIES---
- add") 40 3 (Returned [Some (u "Add 2 and 3.

Add 4 and 5.")]) = Ok lesson
    ∧ length (ld_sessions lesson) = 3%nat
    ∧ length (ld_worksheets lesson) = 3%nat
    ∧ length (ld_youtube_links lesson) = 4%nat.
Proof.
  destruct (build_lesson_data_fallback (H:=ascii_runtime) (u "Sums") (u "Mathematics")
      (u "Class 2") (u "English") (u "---ACTIVITIES---
- add") (u "Add 2 and 3.

Add 4 and 5.") 40 3 (Returned [Some (u "Add 2 and 3.

Add 4 and 5.")]) eq_refl eq_refl ltac:(lia))
    as (lesson & E & Hs & Hw & Hy & _);
    [right; by vm_compute..|reflexivity|].
  by exists lesson.
Defined.

(** ** Lesson assembly: the errors it can raise *)

Section AssemblyErrors.

Context `{Runtime}.

Lemma int_of_digits_Raise (s : str) (e : exn) :
  int_of_digits s = Raise e → e = ValueError.
Proof.
  unfold int_of_digits. destruct (negb _ && _); [by intros [= <-]|].
  assert (Hgen : ∀ acc : result Z,
            (∀ e', acc = Raise e' → e' = ValueError) →
            foldl (λ acc c, n ← acc;
                     match uc_decimal c with
                     | Some d => Ok (10 * n + d)
                     | None => Raise ValueError
                     end) acc s = Raise e → e = ValueError).
  { induction s as [|c s IH]; intros acc Hacc; cbn [foldl]; [apply Hacc|].
    apply IH. intros e'. destruct acc as [n|e0]; cbn [mbind result_bind].
    - destruct (uc_decimal c); [done|]. by intros [= <-].
    - intros [= <-]. by apply Hacc. }
  apply Hgen. done.
Qed.

Lemma parse_block_Raise (topic num content : str) (count : nat) (e : exn) :
  parse_block topic num content count = Raise e → e = ValueError.
Proof.
  unfold parse_block. destruct (isdigit (strip num)).
  - destruct (int_of_digits (strip num)) as [n|e'] eqn:E; [done|].
    cbn [mbind result_bind]. intros [= <-]. by apply int_of_digits_Raise in E.
  - done.
Qed.

Lemma parse_blocks_Raise (topic : str) (n : nat) :
  ∀ (sections : list str) (acc : list worksheet) (e : exn),
    (length sections ≤ n)%nat →
    parse_blocks topic sections acc = Raise e → e = ValueError.
Proof.
  induction n as [|n IH]; intros sections acc e Hlen.
  - by destruct sections; [|cbn in Hlen; lia].
  - destruct sections as [|num [|content rest]]; try done.
    cbn [parse_blocks].
    destruct (parse_block topic num content (length acc)) as [w|e'] eqn:E;
      cbn [mbind result_bind].
    + apply IH. cbn in Hlen. lia.
    + intros [= <-]. by apply parse_block_Raise in E.
Qed.

(** With a count of at least one the worksheet parser fails on the
    marker path only, and only in [int()]. *)
Lemma parse_worksheets_Raise (text topic : str) (num_sessions : Z) (e : exn) :
  1 ≤ num_sessions →
  parse_worksheets text topic num_sessions = Raise e →
  e = ValueError ∧ fallback_path text = false.
Proof.
  intros Hn. destruct (fallback_path text) eqn:Hfb.
  - rewrite parse_worksheets_fallback by done.
    by destruct (fallback_worksheets_Ok text topic num_sessions Hn)
      as (cs & _ & _ & _ & _ & ->).
  - destruct (parse_worksheets_marker text topic num_sessions Hfb)
      as (first & num & content & rest & _ & ->).
    intros He. split; [|done]. by eapply parse_blocks_Raise in He.
Qed.

Lemma groq_chat_Raise (completion : outcome (list (option str))) (e : exn) :
  groq_chat completion = Raise e →
  (∃ msg, e = ServiceError msg ∧ completion = Failed msg)
  ∨ (e = IndexError ∧ completion = Returned []).
Proof.
  destruct completion as [[|content choices]|msg]; cbn [groq_chat]; [|done|].
  - intros [= <-]. by right.
  - intros [= <-]. left. by exists msg.
Qed.

End AssemblyErrors.

(** With a count of at least one, as both handlers pass it, the
    assembly of a lesson cannot divide by zero, and it fails in four
    ways only: with [ValueError], when one of the three numbers it
    writes (the count, the duration, their product) has more digits
    than the runtime writes, or in [int()] on the number of a worksheet
    marker of the answer; with the exception of the service, when the
    call fails; with [IndexError], when the completion has no choice;
    and with [UnicodeEncodeError], when the topic, the subject or the
    class holds a surrogate, which the links cannot quote. *)
Theorem build_lesson_data_errors `{Runtime}
    (topic subject class_level language formatted : str)
    (session_duration num_sessions : Z) (completion : outcome (list (option str)))
    (e : exn) :
  1 ≤ num_sessions →
  build_lesson_data_from_formatted topic subject class_level language formatted
    session_duration num_sessions completion = Raise e →
  (e = ValueError
   ∧ (¬ within_digit_limit num_sessions
      ∨ ¬ within_digit_limit session_duration
      ∨ ¬ within_digit_limit (session_duration * num_sessions)
      ∨ ∃ worksheet_text,
          groq_chat completion = Ok worksheet_text
          ∧ fallback_path worksheet_text = false))
  ∨ (∃ msg, e = ServiceError msg ∧ completion = Failed msg)
  ∨ (e = IndexError ∧ completion = Returned [])
  ∨ (e = UnicodeEncodeError ∧ encodable (topic ++ subject ++ class_level) = false).
Proof.
  intros Hn. unfold build_lesson_data_from_formatted, generate_worksheets.
  destruct (py_str_int num_sessions) as [periods|e'] eqn:Enum;
    cbn [mbind result_bind].
  2:{ intros [= <-]. apply py_str_int_Raise in Enum as [-> Hlim].
      left. split; [done|]. by left. }
  destruct (groq_chat completion) as [worksheet_text|e'] eqn:Echat;
    cbn [mbind result_bind].
  2:{ intros [= <-]. right. apply groq_chat_Raise in Echat as [Hs|Hi].
      - by left.
      - right. by left. }
  destruct (parse_worksheets worksheet_text topic num_sessions)
    as [worksheets|e'] eqn:Ew; cbn [mbind result_bind].
  2:{ intros [= <-]. apply parse_worksheets_Raise in Ew as [-> Hfb]; [|done].
      left. split; [done|]. right. right. right. by exists worksheet_text. }
  destruct (generate_cbse_youtube_links topic subject class_level)
    as [yt|e'] eqn:Ey; cbn [mbind result_bind].
  2:{ intros [= <-]. apply generate_cbse_youtube_links_Raise in Ey as He.
      subst e'. right. right. right. split; [done|].
      apply not_true_iff_false. intros Henc.
      rewrite !encodable_app, !andb_true_iff in Henc.
      destruct Henc as (Ht & Hs & Hc).
      destruct (generate_cbse_youtube_links_Ok topic subject class_level Ht Hs Hc)
        as (links & Hok & _).
      congruence. }
  destruct (generate_ncert_web_resources topic subject class_level)
    as [web|e'] eqn:Eweb; cbn [mbind result_bind].
  2:{ intros [= <-]. apply generate_ncert_web_resources_Raise in Eweb as He.
      subst e'. right. right. right. split; [done|].
      apply not_true_iff_false. intros Henc.
      rewrite !encodable_app, !andb_true_iff in Henc.
      destruct Henc as (Ht & Hs & Hc).
      destruct (generate_ncert_web_resources_Ok topic subject class_level Ht)
        as (resources & Hok & _).
      congruence. }
  destruct (parse_llm_to_sessions formatted session_duration num_sessions)
    as [sessions|e'] eqn:Es; cbn [mbind result_bind].
  2:{ intros [= <-]. apply parse_llm_to_sessions_Raise in Es as [-> Hdur]; [|done].
      left. split; [done|]. right. by left. }
  destruct (py_str_int session_duration) as [duration|e'] eqn:Edur;
    cbn [mbind result_bind].
  2:{ intros [= <-]. apply py_str_int_Raise in Edur as [-> Hdur].
      left. split; [done|]. right. by left. }
  destruct (py_str_int (session_duration * num_sessions)) as [total|e'] eqn:Etot;
    cbn [mbind result_bind]; [done|].
  intros [= <-]. apply py_str_int_Raise in Etot as [-> Htot].
  left. split; [done|]. right. right. by left.
Qed.

Lemma build_lesson_data_errors_witness :
  build_lesson_data_from_formatted (H:=ascii_runtime) [55296%N] (u "Mathematics")
    (u "Class 2") (u "English") [] 40 1 (Returned [Some (u "Add 2 and 3.")])
  = Raise UnicodeEncodeError
  ∧ encodable ([55296%N] ++ u "Mathematics" ++ u "Class 2") = false.
Proof.
  assert (E : build_lesson_data_from_formatted (H:=ascii_runtime) [55296%N]
                (u "Mathematics") (u "Class 2") (u "English") [] 40 1
                (Returned [Some (u "Add 2 and 3.")])
              = Raise UnicodeEncodeError) by (vm_compute; reflexivity).
  split; [exact E|].
  destruct (build_lesson_data_errors (H:=ascii_runtime) _ _ _ _ _ _ 1 _ _
              ltac:(lia) E) as [[He _]|[(msg & He & _)|[[He _]|[_ He]]]];
    try discriminate He.
  exact He.
Defined.

(** ** [extract_worksheet_sections] *)

Lemma search_section_infix (p : section_pattern) (s m : str) :
  search_section p s = Some m → ∃ a b, s = a ++ m ++ b.
Proof.
  induction s as [|c r IH]; cbn [search_section].
  - destruct (match_header p []) as [rest|]; [|done].
    intros [= <-]. exists [], []. by rewrite take_nil.
  - destruct (match_header p (c :: r)) as [rest|].
    + intros [= <-]. exists [], (drop (length (c :: r) - length rest
                                        + lazy_length (sp_stops p) rest) (c :: r)).
      cbn [app]. by rewrite take_drop.
    + intros (a & b & ->)%IH. by exists (c :: a), b.
Qed.

Lemma infix_strip (s a b m : str) :
  s = a ++ m ++ b → ∃ a' b', s = a' ++ strip m ++ b'.
Proof.
  intros ->. destruct (strip_infix m) as (x & y & Hm).
  exists (a ++ x), (y ++ b). rewrite Hm at 1. by rewrite <- !app_assoc.
Qed.

(** The sections found in a worksheet: their names are among the six
    section names, in the order of the table and without repetition,
    and the text of each is a stripped piece of the content. *)
Theorem extract_worksheet_sections_pieces (content : str) :
  (fst <$> extract_worksheet_sections content) `sublist_of` (sp_name <$> section_patterns)
  ∧ Forall (λ entry : str * str,
              strip entry.2 = entry.2 ∧ ∃ a b, content = a ++ entry.2 ++ b)
           (extract_worksheet_sections content).
Proof.
  unfold extract_worksheet_sections. split.
  - induction section_patterns as [|p ps IH]; [constructor|].
    cbn [omap list_omap fmap list_fmap].
    destruct (search_section p content) as [m|]; cbn [fmap option_fmap option_map].
    + cbn [fmap list_fmap fst]. by constructor.
    + by constructor.
  - apply Forall_forall. intros [name t] Hin.
    apply list_elem_of_omap in Hin as (p & _ & Hp).
    destruct (search_section p content) as [m|] eqn:E; [|done].
    cbn in Hp. injection Hp as <- <-. cbn [snd]. split; [apply strip_idem|].
    apply search_section_infix in E as (a & b & E). by eapply infix_strip.
Qed.

(** ** The preview of [format_lesson_plan] *)

(** The preview never has more than 503 characters; a text of at most
    500 characters, or no text, is given as it is, and a longer one is
    cut to its first 500 characters followed by three dots. *)
Theorem format_lesson_plan_preview (formatted_text : option str) :
  match formatted_text, format_lesson_plan_formatted_text formatted_text with
  | None, preview => preview = None
  | Some t, Some preview =>
    (length preview ≤ 503)%nat
    ∧ take 500 preview = take 500 t
    ∧ ((length t ≤ 500)%nat → preview = t)
    ∧ ((500 < length t)%nat → drop 500 preview = u "...")
  | Some _, None => False
  end.
Proof.
  destruct formatted_text as [t|]; [|done].
  unfold format_lesson_plan_formatted_text.
  destruct (decide (500 < length t)%nat) as [Hlong|Hshort].
  - rewrite bool_decide_eq_true_2 by (intros ->; cbn in Hlong; lia).
    rewrite bool_decide_eq_true_2 by done.
    split_and!.
    + rewrite length_app, length_take. change (length (u "...")) with 3%nat. lia.
    + rewrite take_app_le by (rewrite length_take; lia).
      by rewrite take_take.
    + lia.
    + intros _. rewrite drop_app_length'; [done|]. rewrite length_take. lia.
  - assert ((if bool_decide (t ≠ []) && bool_decide (500 < length t)%nat
             then Some (take 500 t ++ u "...") else Some t) = Some t) as ->.
    { rewrite (bool_decide_eq_false_2 (500 < length t)%nat) by done.
      by rewrite andb_false_r. }
    split_and!; [lia|done|done|lia].
Qed.
